(** * MiningTaxes Discord integration: the corp tax summary

    A shallow embedding of [send_corp_tax_summary] from
    [miningtaxes-discord/discord_integration.py] and the properties of its
    report rendering and of its two-channel dispatch.

    Python values are dynamically typed: a record of [tax_data] is a dict
    from string keys to values, and each value may be a number, a string
    or [None].  Exceptions are explicit results, outbound calls and log
    lines are recorded in an event trace. *)

From Stdlib Require Import ZArith List Ascii String Sorting.Sorted
  Sorting.Permutation.
From stdpp Require Import base option list gmap strings pretty.

Local Open Scope string_scope.
Local Open Scope list_scope.

(** ** Python numbers

    [balance] is a Python number (an [int] or a [float]).  The function
    only compares balances, sums them and prints them; these operations are
    the interface of the numeric type.  [num_sum] is the builtin [sum],
    which is not a plain left fold of [+] on floats in every Python
    version, so it is an operation of its own. *)

Class PyNumber (num : Type) := {
  num_zero : num;                     (* the int literal [0] *)
  num_ltb : num -> num -> bool;       (* [a < b] *)
  num_sum : list num -> num;          (* [sum(xs)], starting from [0] *)
  (** [format(x, ',.2f')]; [None] when it raises [OverflowError], as for
      an int too large to convert to a float *)
  num_format : num -> option string;
  num_str : num -> string;            (* [str(x)] *)
}.

(** The order laws of Python's [<] on ints and on floats other than NaN. *)
Record StrictWeakOrder `{PyNumber num} : Prop := {
  num_lt_irrefl : forall a, num_ltb a a = false;
  num_lt_asym : forall a b, num_ltb a b = true -> num_ltb b a = false;
  num_le_trans : forall a b c,
    num_ltb b a = false -> num_ltb c b = false -> num_ltb c a = false;
}.
Arguments StrictWeakOrder num {_}.

(** ** Strings

    A Python [str] is a sequence of code points.  It is held here as its
    UTF-8 encoding, one byte per [ascii]: a code point is a byte that is
    not a continuation byte ([10xxxxxx]) followed by its continuation
    bytes.  Lengths, slices and column widths count code points. *)

Module Str.

Fixpoint repeat (c : ascii) (n : nat) : string :=
  match n with
  | O => ""
  | S n' => String c (repeat c n')
  end.

(** A byte [10xxxxxx], inside a code point. *)
Definition is_continuation (c : ascii) : bool :=
  let n := nat_of_ascii c in ((128 <=? n) && (n <? 192))%nat.

(** [len(s)] *)
Fixpoint len (s : string) : nat :=
  match s with
  | "" => 0
  | String c s' => if is_continuation c then len s' else S (len s')
  end.

(** [s[:n]]: the first [n] code points, each with its continuation
    bytes. *)
Fixpoint take (n : nat) (s : string) : string :=
  match s with
  | "" => ""
  | String c s' =>
      if is_continuation c then String c (take n s')
      else
        match n with
        | O => ""
        | S n' => String c (take n' s')
        end
  end.

(** [f"{s:<w}"]: left-aligned, filled with spaces up to width [w]. *)
Definition ljust (w : nat) (s : string) : string :=
  s +:+ repeat " " (w - len s).

(** [f"{s:>w}"]: right-aligned. *)
Definition rjust (w : nat) (s : string) : string :=
  repeat " " (w - len s) +:+ s.

(** ["\n".join(l)] *)
Fixpoint join (sep : string) (l : list string) : string :=
  match l with
  | [] => ""
  | [s] => s
  | s :: l' => s +:+ sep +:+ join sep l'
  end.

Definition concat (l : list string) : string :=
  fold_right String.append "" l.

Definition nl : string := String "010" "".

End Str.

(** [str(n)] for a non-negative int. *)
Definition str_of_nat (n : nat) : string := pretty (N.of_nat n).

(** ** The integer instance

    Python ints are unbounded: comparison and [sum] are exact.
    [format(n, ',.2f')] converts the int to a float first: to the nearest
    double, ties to even, with [OverflowError] for an int that rounds to
    2^1024 or more.  The float is a whole number, and its digits are
    printed exactly, in groups of three, followed by [.00]. *)

Module IntBalance.

Fixpoint group3 (digits : list ascii) : list ascii :=
  match digits with
  | a :: b :: c :: (_ :: _) as rest => a :: b :: c :: "," %char :: group3 rest
  | _ => digits
  end.

(** Commas are counted from the right. *)
Definition commas (s : string) : string :=
  string_of_list_ascii
    (rev (group3 (rev (list_ascii_of_string s)))).

(** [float(z)], as the whole number it is; [None] for [OverflowError]. *)
Definition to_float (z : Z) : option Z :=
  let a := Z.abs z in
  (* the bits of [a] beyond the 53 of a double *)
  let excess := (Z.log2 a + 1 - 53)%Z in
  if (excess <=? 0)%Z then Some z
  else
    let q := Z.shiftr a excess in
    let r := Z.land a (Z.ones excess) in
    let half := Z.shiftl 1 (excess - 1) in
    let q := if ((half <? r) || ((r =? half) && Z.odd q))%Z
             then (q + 1)%Z else q in
    let rounded := Z.shiftl q excess in
    if (2 ^ 1024 <=? rounded)%Z then None
    else Some (Z.sgn z * rounded)%Z.

Definition format_2f (z : Z) : option string :=
  match to_float z with
  | None => None
  | Some f =>
      Some ((if (f <? 0)%Z then "-" else "") +:+
            commas (pretty (Z.to_N (Z.abs f))) +:+ ".00")
  end.

#[global] Instance int_number : PyNumber Z := {|
  num_zero := 0%Z;
  num_ltb := Z.ltb;
  num_sum := fun l => fold_left Z.add l 0%Z;
  num_format := format_2f;
  num_str := pretty;
|}.

End IntBalance.

(** ** Python values and exceptions *)

(** The values a field of a tax record may hold. *)
Inductive pyval (num : Type) : Type :=
  | PyNone
  | PyStr (s : string)
  | PyNum (n : num).
Arguments PyNone {num}.
Arguments PyStr {num} s.
Arguments PyNum {num} n.

(** The exception classes the function can meet; all of them derive from
    [Exception]. *)
Inductive exn : Type :=
  | ImportError        (* [discord] or [aadiscordbot] cannot be imported *)
  | TypeError
  | ValueError
  | OverflowError      (* an int too large for [format(x, ',.2f')] *)
  | RequestException   (* [requests.post] failed: connection, timeout *)
  | BrokerError.       (* [send_message] could not queue the task *)

(** A computation that returns a value or raises. *)
Definition Res (A : Type) : Type := exn + A.

Definition res_bind {A B} (m : Res A) (k : A -> Res B) : Res B :=
  match m with
  | inl e => inl e
  | inr a => k a
  end.

Declare Scope res_scope.
Delimit Scope res_scope with res.
Notation "x <- m ;; k" := (res_bind m (fun x => k))
  (at level 100, m at next level, right associativity) : res_scope.

Fixpoint res_mapM {A B} (f : A -> Res B) (l : list A) : Res (list B) :=
  match l with
  | [] => inr []
  | a :: l' => (b <- f a ;; bs <- res_mapM f l' ;; inr (b :: bs))%res
  end.

(** ** The arguments of [send_corp_tax_summary] *)

(** [channel_id]: documented as an optional int; a str is accepted too,
    since the code converts it with [int(channel_id)]. *)
Inductive channel_arg : Type :=
  | ChanNone
  | ChanInt (z : Z)
  | ChanStr (s : string).

(** Truth value of [channel_id] in [not channel_id] and [if channel_id:]. *)
Definition chan_truthy (c : channel_arg) : bool :=
  match c with
  | ChanNone => false
  | ChanInt z => negb (z =? 0)%Z
  | ChanStr s => negb (String.eqb s "")
  end.

(** Truth value of [webhook_url] ([None] or a str). *)
Definition url_truthy (u : option string) : bool :=
  match u with
  | None => false
  | Some s => negb (String.eqb s "")
  end.

(** ** Messages, events and the environment *)

Record embed_field : Type := {
  field_name : string;
  field_value : string;
  field_inline : bool;
}.

Record embed : Type := {
  embed_title : string;
  embed_description : string;
  embed_color : Z;
  embed_fields : list embed_field;
  embed_footer : string;
  embed_timestamp : string;
}.

(** The JSON document posted to the webhook. *)
Record webhook_payload : Type := {
  payload_username : string;
  payload_embeds : list embed;
}.

(** What the function calls but does not define: the Python runtime, the
    optional bot library and the HTTP client. *)
Record Env : Type := {
  (** [None]: the imports of [discord] and [aadiscordbot.tasks] raise
      [ImportError].  [Some send]: they succeed, and [send c e] is the
      outcome of [send_message(message="", channel_id=c, embed=e)]:
      [None] when the call returns, [Some x] when it raises [x].  The
      call stands inside the [try] of the imports, so that an
      [ImportError] it raises is handled like a missing library. *)
  bot : option (Z -> embed -> option exn);
  (** [requests.post(url, ...)]: the status code of the response, or
      [None] when the request raises. *)
  http_post : string -> webhook_payload -> option Z;
  (** the builtin [int] on a str; [None] when it raises [ValueError] *)
  int_of_str : string -> option Z;
  (** [datetime.utcnow()] *)
  utcnow : string;
}.

Section Reporter.

Context {num : Type} `{PyNumber num}.

(** The lines the function writes to its logger, one constructor per call
    site. *)
Inductive log_record : Type :=
  | LogQueued (users : nat) (total : num)        (* info *)
  | LogBotUnavailable                            (* debug *)
  | LogNoFallback                                (* error *)
  | LogSent (users : nat) (total : num)          (* info *)
  | LogPostFailed (status : Z)                   (* warning *)
  | LogError (e : exn).                          (* error *)

Inductive event : Type :=
  | BotMessage (channel : Z) (e : embed)
  | HttpPost (url : string) (p : webhook_payload)
  | Log (r : log_record).

(** An effectful computation: the events it produced, in order, and its
    result or the exception it raised. *)
Definition M (A : Type) : Type := list event * Res A.

Definition ret {A} (a : A) : M A := ([], inr a).
Definition raise {A} (e : exn) : M A := ([], inl e).
Definition emit (ev : event) : M unit := ([ev], inr tt).
Definition lift {A} (r : Res A) : M A := ([], r).

Definition bind {A B} (m : M A) (k : A -> M B) : M B :=
  match m with
  | (evs, inl e) => (evs, inl e)
  | (evs, inr a) => let '(evs', r) := k a in (evs ++ evs', r)
  end.

(** [try: m  except C as e: h e], for the classes [C] that [catches]
    accepts. *)
Definition try_except {A} (m : M A) (catches : exn -> bool) (h : exn -> M A)
  : M A :=
  match m with
  | (evs, inl e) =>
      if catches e then let '(evs', r) := h e in (evs ++ evs', r)
      else (evs, inl e)
  | (evs, inr a) => (evs, inr a)
  end.

Definition is_import_error (e : exn) : bool :=
  match e with ImportError => true | _ => false end.

(** [except Exception]: every class of [exn] derives from [Exception]. *)
Definition is_exception (e : exn) : bool := true.

Declare Scope eff_scope.
Delimit Scope eff_scope with eff.
Notation "x <- m ;; k" := (bind m (fun x => k))
  (at level 100, m at next level, right associativity) : eff_scope.

(** ** Reading a record *)

Abbreviation record := (gmap string (pyval num)).

(** [d.get(k, dflt)] *)
Definition py_get (d : record) (k : string) (dflt : pyval num) : pyval num :=
  default dflt (d !! k).

(** [d.get('balance', 0)] *)
Definition balance_of (d : record) : pyval num :=
  py_get d "balance" (PyNum num_zero).

(** [v > 0] *)
Definition py_gt_zero (v : pyval num) : Res bool :=
  match v with
  | PyNum n => inr (num_ltb num_zero n)
  | PyNone | PyStr _ => inl TypeError
  end.

(** [a < b], as [list.sort] compares two keys *)
Definition py_lt (a b : pyval num) : Res bool :=
  match a, b with
  | PyNum x, PyNum y => inr (num_ltb x y)
  | PyStr x, PyStr y => inr (String.ltb x y)
  | _, _ => inl TypeError
  end.

(** [0 + v], a step of [sum] *)
Definition py_as_num (v : pyval num) : Res num :=
  match v with
  | PyNum n => inr n
  | PyNone | PyStr _ => inl TypeError
  end.

(** [v[:n]] *)
Definition py_slice (n : nat) (v : pyval num) : Res string :=
  match v with
  | PyStr s => inr (Str.take n s)
  | PyNone | PyNum _ => inl TypeError
  end.

(** [format(v, ',.2f')] *)
Definition py_format_2f (v : pyval num) : Res string :=
  match v with
  | PyNum n =>
      match num_format n with
      | Some text => inr text
      | None => inl OverflowError
      end
  | PyNone => inl TypeError
  | PyStr _ => inl ValueError
  end.

(** [str(v)], what [f"{v}"] prints *)
Definition py_str (v : pyval num) : string :=
  match v with
  | PyNone => "None"
  | PyStr s => s
  | PyNum n => num_str n
  end.

(** ** Filtering and sorting *)

(** [[d for d in tax_data if d.get('balance', 0) > 0]] *)
Fixpoint filter_outstanding (tax_data : list record) : Res (list record) :=
  match tax_data with
  | [] => inr []
  | d :: rest =>
      (keep <- py_gt_zero (balance_of d) ;;
       kept <- filter_outstanding rest ;;
       inr (if keep then d :: kept else kept))%res
  end.

(** [list.sort] is a builtin, documented to be stable.  It computes the
    keys first and compares keys with [<]; with [reverse=True] it reverses
    the list, sorts it in ascending order and reverses the result, so that
    equal keys keep their order.  The ascending sort is modelled as a
    stable insertion sort. *)
Fixpoint insert_sorted (x : pyval num * record)
    (l : list (pyval num * record)) : Res (list (pyval num * record)) :=
  match l with
  | [] => inr [x]
  | y :: l' =>
      (less <- py_lt (fst y) (fst x) ;;
       if less then (r <- insert_sorted x l' ;; inr (y :: r))
       else inr (x :: y :: l'))%res
  end.

Fixpoint sort_ascending (l : list (pyval num * record))
  : Res (list (pyval num * record)) :=
  match l with
  | [] => inr []
  | x :: l' => (s <- sort_ascending l' ;; insert_sorted x s)%res
  end.

(** [outstanding.sort(key=lambda x: x.get('balance', 0), reverse=True)] *)
Definition sort_by_balance_reverse (outstanding : list record)
  : Res (list record) :=
  (s <- sort_ascending (rev (map (fun x => (balance_of x, x)) outstanding)) ;;
   inr (map snd (rev s)))%res.

(** [sum(d.get('balance', 0) for d in outstanding)] *)
Definition sum_balances (outstanding : list record) : Res num :=
  (nums <- res_mapM (fun d => py_as_num (balance_of d)) outstanding ;;
   inr (num_sum nums))%res.

(** ** Rendering the report *)

(** ["=" * 60 + "\n"] *)
Definition separator : string := Str.repeat "=" 60 +:+ Str.nl.

(** ["```\n"], the header row and the first separator *)
Definition table_head : string :=
  "```" +:+ Str.nl +:+
  (Str.ljust 20 "User" +:+ " " +:+ Str.ljust 25 "Main Character" +:+ " " +:+
   Str.rjust 15 "Balance" +:+ Str.nl) +:+
  separator.

(** The text of a row, [f"{username:<20} {main_char:<25} {balance:>13,.2f}M\n"],
    from the two names and the printed balance. *)
Definition row_text (username main_char balance : string) : string :=
  Str.ljust 20 username +:+ " " +:+ Str.ljust 25 main_char +:+ " " +:+
  Str.rjust 13 balance +:+ "M" +:+ Str.nl.

(** The body of the loop over [outstanding[:25]]. *)
Definition render_row (data : record) : Res string :=
  (username <- py_slice 19 (py_get data "username" (PyStr "Unknown")) ;;
   main_char <- py_slice 24 (py_get data "main_character" (PyStr "N/A")) ;;
   balance <- py_format_2f (py_get data "balance" (PyNum num_zero)) ;;
   inr (row_text username main_char balance))%res.

(** [for data in rows: description += ...] *)
Fixpoint render_rows (description : string) (rows : list record)
  : Res string :=
  match rows with
  | [] => inr description
  | data :: rest =>
      (row <- render_row data ;; render_rows (description +:+ row) rest)%res
  end.

(** [f"\n... and {n} more users\n"] *)
Definition overflow_line (n : nat) : string :=
  Str.nl +:+ "... and " +:+ str_of_nat n +:+ " more users" +:+ Str.nl.

(** [f"{'TOTAL':<45} {total_outstanding:>13,.2f}M\n"], from the printed
    total. *)
Definition total_line (total : string) : string :=
  Str.ljust 45 "TOTAL" +:+ " " +:+ Str.rjust 13 total +:+ "M" +:+ Str.nl.

(** The description of the embed: the table between two code fences. *)
Definition render_description (outstanding : list record)
    (total_outstanding : num) : Res string :=
  (description <- render_rows table_head (firstn 25 outstanding) ;;
   let description :=
     if (25 <? length outstanding)%nat
     then description +:+ overflow_line (length outstanding - 25)
     else description in
   let description := description +:+ separator in
   total <- py_format_2f (PyNum total_outstanding) ;;
   let description := description +:+ total_line total in
   inr (description +:+ "```"))%res.

(** The value of the summary field,
    [f"**{total_users}** users owe taxes\n**{total_outstanding:,.2f} M ISK** total outstanding"],
    from the printed total. *)
Definition summary_value (total_users : nat) (total : string) : string :=
  "**" +:+ str_of_nat total_users +:+ "** users owe taxes" +:+ Str.nl +:+
  "**" +:+ total +:+ " M ISK** total outstanding".

(** [f"{i+1}. **{d.get('username', 'Unknown')}** - {d.get('balance', 0):,.2f}M ISK"],
    from the printed name and balance. *)
Definition debtor_text (i : nat) (username balance : string) : string :=
  str_of_nat (i + 1) +:+ ". **" +:+ username +:+ "** - " +:+ balance +:+
  "M ISK".

(** The list comprehension over [enumerate(outstanding[:3])], counting
    from [i]. *)
Fixpoint debtor_lines (i : nat) (l : list record) : Res (list string) :=
  match l with
  | [] => inr []
  | d :: rest =>
      (balance <- py_format_2f (py_get d "balance" (PyNum num_zero)) ;;
       lines <- debtor_lines (S i) rest ;;
       inr (debtor_text i (py_str (py_get d "username" (PyStr "Unknown")))
              balance :: lines))%res
  end.

Definition summary_field (total_users : nat) (total : string)
  : embed_field :=
  {| field_name := "📊 Summary";
     field_value := summary_value total_users total;
     field_inline := false |}.

Definition top_debtors_field (top_3 : string) : embed_field :=
  {| field_name := "🔥 Top Debtors";
     field_value := top_3;
     field_inline := false |}.

(** [fields], with the top debtors appended for three records or more. *)
Definition build_fields (outstanding : list record)
    (total_outstanding : num) : Res (list embed_field) :=
  (total <- py_format_2f (PyNum total_outstanding) ;;
   let fields := [summary_field (length outstanding) total] in
   if (3 <=? length outstanding)%nat then
     lines <- debtor_lines 0 (firstn 3 outstanding) ;;
     inr (fields ++ [top_debtors_field (Str.join Str.nl lines)])
   else inr fields)%res.

(** What the first part of the [try] block hands to the dispatch. *)
Record report : Type := {
  rep_total_outstanding : num;
  rep_total_users : nat;
  rep_description : string;
  rep_fields : list embed_field;
}.

(** From the filter to the fields; [None] when there is nothing to
    report. *)
Definition build_report (tax_data : list record) : Res (option report) :=
  (outstanding <- filter_outstanding tax_data ;;
   match outstanding with
   | [] => inr None
   | _ :: _ =>
       outstanding <- sort_by_balance_reverse outstanding ;;
       total_outstanding <- sum_balances outstanding ;;
       let total_users := length outstanding in
       description <- render_description outstanding total_outstanding ;;
       fields <- build_fields outstanding total_outstanding ;;
       inr (Some {| rep_total_outstanding := total_outstanding;
                    rep_total_users := total_users;
                    rep_description := description;
                    rep_fields := fields |})
   end)%res.

(** ** Dispatch *)

Definition report_title : string := "⚠️ Outstanding Mining Taxes Report".

(** [0xe74c3c], red *)
Definition report_color : Z := 15158332.

Definition report_footer (total_users : nat) : string :=
  "MiningTaxes Corp Summary • " +:+ str_of_nat total_users +:+
  " users with outstanding taxes".

(** The embed of the report; the bot path and the webhook path fill the
    same parts. *)
Definition report_embed (w : Env) (rep : report) : embed :=
  {| embed_title := report_title;
     embed_description := rep_description rep;
     embed_color := report_color;
     embed_fields := rep_fields rep;
     embed_footer := report_footer (rep_total_users rep);
     embed_timestamp := utcnow w |}.

(** [int(channel_id)] *)
Definition py_int (w : Env) (channel_id : channel_arg) : Res Z :=
  match channel_id with
  | ChanInt z => inr z
  | ChanStr s =>
      match int_of_str w s with
      | Some z => inr z
      | None => inl ValueError
      end
  | ChanNone => inl TypeError
  end.

(** The body of the inner [try]: import the bot library, build the embed,
    queue it and return [True]. *)
Definition send_via_bot (w : Env) (channel_id : channel_arg) (rep : report)
  : M bool :=
  match bot w with
  | None => raise ImportError
  | Some send_message =>
      let e := report_embed w rep in
      (channel <- lift (py_int w channel_id) ;;
       _ <- emit (BotMessage channel e) ;;
       match send_message channel e with
       | None =>
           _ <- emit (Log (LogQueued (rep_total_users rep)
                             (rep_total_outstanding rep))) ;;
           ret true
       | Some x => raise x
       end)%eff
  end.

(** The handler [except ImportError]: [Some False] returns [False],
    [None] goes on to the statement after the [try]. *)
Definition bot_unavailable (webhook_url : option string) : M (option bool) :=
  (_ <- emit (Log LogBotUnavailable) ;;
   if negb (url_truthy webhook_url) then
     _ <- emit (Log LogNoFallback) ;;
     ret (Some false)
   else ret None)%eff.

(** [response.status_code in [200, 204]] *)
Definition status_ok (status : Z) : bool :=
  ((status =? 200) || (status =? 204))%Z.

(** The document posted to the webhook. *)
Definition report_payload (w : Env) (rep : report) : webhook_payload :=
  {| payload_username := "MiningTaxes Corp Summary";
     payload_embeds := [report_embed w rep] |}.

(** The block under [if webhook_url:], with [url] the string it holds. *)
Definition send_via_webhook (w : Env) (url : string) (rep : report)
  : M bool :=
  let payload := report_payload w rep in
  (_ <- emit (HttpPost url payload) ;;
   match http_post w url payload with
   | None => raise RequestException
   | Some status =>
       if status_ok status then
         _ <- emit (Log (LogSent (rep_total_users rep)
                           (rep_total_outstanding rep))) ;;
         ret true
       else
         _ <- emit (Log (LogPostFailed status)) ;;
         ret false
   end)%eff.

(** From [if channel_id:] to the end of the [try] block.  The result is
    what the function returns: [None] is Python's [None], the value of a
    function that reaches its end without a [return]. *)
Definition dispatch (w : Env) (webhook_url : option string)
    (channel_id : channel_arg) (rep : report) : M (option bool) :=
  (returned <-
     (if chan_truthy channel_id then
        try_except
          (b <- send_via_bot w channel_id rep ;; ret (Some b))
          is_import_error
          (fun _ => bot_unavailable webhook_url)
      else ret None) ;;
   match returned with
   | Some b => ret (Some b)
   | None =>
       match webhook_url with
       | Some url =>
           if url_truthy webhook_url then
             b <- send_via_webhook w url rep ;; ret (Some b)
           else ret None
       | None => ret None
       end
   end)%eff.

(** The body of the outer [try]. *)
Definition send_body (w : Env) (webhook_url : option string)
    (tax_data : list record) (channel_id : channel_arg) : M (option bool) :=
  (r <- lift (build_report tax_data) ;;
   match r with
   | None => ret (Some true)
   | Some rep => dispatch w webhook_url channel_id rep
   end)%eff.

(** [(not webhook_url and not channel_id) or not tax_data], the test
    before the [try]. *)
Definition no_destination_or_no_data (webhook_url : option string)
    (tax_data : list record) (channel_id : channel_arg) : bool :=
  (negb (url_truthy webhook_url) && negb (chan_truthy channel_id))
  || match tax_data with [] => true | _ :: _ => false end.

(** [send_corp_tax_summary(webhook_url, tax_data, channel_id=None)], run
    in the environment [w]. *)
Definition send_corp_tax_summary (w : Env) (webhook_url : option string)
    (tax_data : list record) (channel_id : channel_arg) : M (option bool) :=
  if no_destination_or_no_data webhook_url tax_data channel_id
  then ret (Some false)
  else
    try_except (send_body w webhook_url tax_data channel_id)
      is_exception
      (fun e => (_ <- emit (Log (LogError e)) ;; ret (Some false))%eff).

(** ** Observations on a run *)

Definition events {A} (m : M A) : list event := fst m.

(** The value returned to the caller, if the run did not raise. *)
Definition returned {A} (m : M A) : option A :=
  match snd m with
  | inl _ => None
  | inr a => Some a
  end.

(** The exception that reaches the caller, if any. *)
Definition raised {A} (m : M A) : option exn :=
  match snd m with
  | inl e => Some e
  | inr _ => None
  end.

Definition is_http_post (ev : event) : bool :=
  match ev with HttpPost _ _ => true | _ => false end.

Definition is_bot_message (ev : event) : bool :=
  match ev with BotMessage _ _ => true | _ => false end.

Definition is_log (ev : event) : bool :=
  match ev with Log _ => true | _ => false end.

(** The log lines of a failure: the warning and the two errors. *)
Definition is_failure_log (ev : event) : bool :=
  match ev with
  | Log LogNoFallback | Log (LogPostFailed _) | Log (LogError _) => true
  | _ => false
  end.

(** The handler of [ImportError] and what follows it: the log line, and
    the request to the webhook when there is one. *)
Definition fallback (w : Env) (webhook_url : option string) (rep : report)
  : M (option bool) :=
  (returned <- bot_unavailable webhook_url ;;
   match returned with
   | Some b => ret (Some b)
   | None =>
       match webhook_url with
       | Some url =>
           if url_truthy webhook_url then
             b <- send_via_webhook w url rep ;; ret (Some b)
           else ret None
       | None => ret None
       end
   end)%eff.

(** The request that the block under [if webhook_url:] makes. *)
Definition webhook_calls (w : Env) (webhook_url : option string)
    (rep : report) : list event :=
  match webhook_url with
  | Some url =>
      if url_truthy webhook_url then [HttpPost url (report_payload w rep)]
      else []
  | None => []
  end.

(** The outbound calls of a run: the bot messages and the HTTP requests. *)
Definition outbound (evs : list event) : list event :=
  List.filter (fun ev => negb (is_log ev)) evs.

Definition http_posts (evs : list event) : list event :=
  List.filter is_http_post evs.

Definition bot_messages (evs : list event) : list event :=
  List.filter is_bot_message evs.

(** ** The vocabulary of the specification *)

(** A qualifying record: its balance is a number above zero. *)
Definition qualifying (d : record) : bool :=
  match balance_of d with
  | PyNum n => num_ltb num_zero n
  | PyNone | PyStr _ => false
  end.

(** The balance of a record as a number. *)
Definition balance_num (d : record) : num :=
  match balance_of d with
  | PyNum n => n
  | PyNone | PyStr _ => num_zero
  end.

(** A record whose balance, if present, is a number. *)
Definition numeric_balance (d : record) : bool :=
  match balance_of d with
  | PyNum _ => true
  | PyNone | PyStr _ => false
  end.

(** A stable sort by descending balance, on numbers. *)
Fixpoint insert_by_balance (x : record) (l : list record) : list record :=
  match l with
  | [] => [x]
  | y :: l' =>
      if num_ltb (balance_num y) (balance_num x)
      then y :: insert_by_balance x l'
      else x :: y :: l'
  end.

Definition sorted_by_balance (l : list record) : list record :=
  rev (fold_right insert_by_balance [] (rev l)).

(** [tied_with k d]: the balance of [d] equals [k], that is, neither is
    below the other. *)
Definition tied_with (k : num) (d : record) : bool :=
  negb (num_ltb (balance_num d) k) && negb (num_ltb k (balance_num d)).

(** [a] may stand before [b] in descending order of balance. *)
Definition not_below (a b : record) : Prop :=
  num_ltb (balance_num a) (balance_num b) = false.

(** A field that is absent or holds a str. *)
Definition str_or_absent (d : record) (k : string) : bool :=
  match d !! k with
  | None | Some (PyStr _) => true
  | Some PyNone | Some (PyNum _) => false
  end.

(** A number that [format(x, ',.2f')] prints. *)
Definition printable (n : num) : bool :=
  match num_format n with
  | Some _ => true
  | None => false
  end.

(** A record of the documented shape: the names are strs, the balance is
    a number that can be printed, and any of them may be absent. *)
Definition well_formed (d : record) : bool :=
  str_or_absent d "username" && str_or_absent d "main_character"
  && numeric_balance d && printable (balance_num d).

(** *** The text of the report

    What the specification says of the rendered text, in terms of its
    own: the characters of a text, runs of spaces, and columns. *)

Definition newline : string := String "010" "".

(** [n] spaces. *)
Definition spaces (n : nat) : string :=
  string_of_list_ascii (List.repeat " "%char n).

(** The line of 60 [=]. *)
Definition ruler : string :=
  "============================================================".

(** A byte that starts a character: an ASCII byte or the first byte of a
    longer UTF-8 sequence. *)
Definition starts_character (c : ascii) : bool :=
  ((nat_of_ascii c <? 128) || (192 <=? nat_of_ascii c))%nat.

(** The number of characters of a text. *)
Definition chars (s : string) : nat :=
  length (List.filter starts_character (list_ascii_of_string s)).

(** [cut] is the text [s] cut after its first [n] characters, and [s]
    itself when it has no more than [n]. *)
Definition first_characters (n : nat) (s cut : string) : Prop :=
  exists rest,
    s = cut +:+ rest /\
    chars cut = min n (chars s) /\
    match rest with
    | "" => True
    | String c _ => starts_character c = true
    end.

(** A text in a column [w] characters wide, filled with spaces on the
    right or on the left; a longer text is not cut. *)
Definition left_aligned (w : nat) (s : string) : string :=
  s +:+ spaces (w - chars s).

Definition right_aligned (w : nat) (s : string) : string :=
  spaces (w - chars s) +:+ s.

(** The row of the table for a user name, a main character and a printed
    balance: the name cut to 19 characters in a column of 20, the main
    character cut to 24 in a column of 25, the balance aligned to the
    right in a column of 13 and followed by [M]. *)
Definition is_row (username main_character amount row : string) : Prop :=
  exists name main,
    first_characters 19 username name /\
    first_characters 24 main_character main /\
    row = left_aligned 20 name +:+ " " +:+ left_aligned 25 main +:+ " " +:+
          right_aligned 13 amount +:+ "M" +:+ newline.

(** The text that stands for the field [k] of a record: the str it
    holds, or the placeholder when the record has no such field.  A field
    that holds something else has no text. *)
Definition shown_text (d : record) (k placeholder text : string) : Prop :=
  match d !! k with
  | None => text = placeholder
  | Some (PyStr s) => text = s
  | Some PyNone | Some (PyNum _) => False
  end.

(** The printed balance of a record, that of the int 0 when the record
    has no balance. *)
Definition shown_amount (d : record) (amount : string) : Prop :=
  match d !! "balance" with
  | None => num_format num_zero = Some amount
  | Some (PyNum n) => num_format n = Some amount
  | Some PyNone | Some (PyStr _) => False
  end.

(** The row of a record in the table. *)
Definition table_row (d : record) (row : string) : Prop :=
  exists username main_character amount,
    shown_text d "username" "Unknown" username /\
    shown_text d "main_character" "N/A" main_character /\
    shown_amount d amount /\
    is_row username main_character amount row.

(** The line of a record among the top debtors, under the number
    [rank]. *)
Definition debtor_line (rank : string) (d : record) (line : string) : Prop :=
  exists username amount,
    shown_text d "username" "Unknown" username /\
    shown_amount d amount /\
    line = rank +:+ ". **" +:+ username +:+ "** - " +:+ amount +:+ "M ISK".

(** The qualifying records of the input, highest balance first. *)
Definition outstanding_of (tax_data : list record) : list record :=
  sorted_by_balance (List.filter qualifying tax_data).

End Reporter.

Arguments log_record num : clear implicits.
Arguments event num : clear implicits.
Arguments M num A : clear implicits.
Arguments report num : clear implicits.

(** ** Sample data

    Records with int balances, in millions of ISK, and environments with
    and without the bot library. *)

Module Sample.

Definition john : gmap string (pyval Z) :=
  {[ "username" := PyStr "john_doe";
     "main_character" := PyStr "John Doe";
     "balance" := PyNum 125%Z ]}.

Definition jane : gmap string (pyval Z) :=
  {[ "username" := PyStr "jane_smith";
     "main_character" := PyStr "Jane Smith";
     "balance" := PyNum 89%Z ]}.

(** Same balance as [john], later in the list. *)
Definition joan : gmap string (pyval Z) :=
  {[ "username" := PyStr "joan_roe";
     "main_character" := PyStr "Joan Roe";
     "balance" := PyNum 125%Z ]}.

Definition zed : gmap string (pyval Z) :=
  {[ "username" := PyStr "zed"; "balance" := PyNum 1289%Z ]}.

(** A name that is not ASCII: three characters, four bytes. *)
Definition zoe : gmap string (pyval Z) :=
  {[ "username" := PyStr "Zoë";
     "main_character" := PyStr "Zoë Nováková";
     "balance" := PyNum 1234567%Z ]}.

(** Nothing owed. *)
Definition paid_up : gmap string (pyval Z) :=
  {[ "username" := PyStr "paid_up"; "balance" := PyNum 0%Z ]}.

(** No [balance] key. *)
Definition no_balance : gmap string (pyval Z) :=
  {[ "username" := PyStr "no_balance" ]}.

(** No name at all. *)
Definition anonymous : gmap string (pyval Z) :=
  {[ "balance" := PyNum 7%Z ]}.

(** [username] is [None]. *)
Definition bad_name : gmap string (pyval Z) :=
  {[ "username" := PyNone; "balance" := PyNum 5%Z ]}.

(** [balance] is [None]. *)
Definition bad_balance : gmap string (pyval Z) :=
  {[ "username" := PyStr "bad_balance"; "balance" := PyNone ]}.

(** The pilot number [i], who owes [i] millions. *)
Definition pilot (i : nat) : gmap string (pyval Z) :=
  {[ "username" := PyStr ("pilot_" +:+ str_of_nat i);
     "balance" := PyNum (Z.of_nat i) ]}.

(** The pilots 1 to [n]. *)
Definition pilots (n : nat) : list (gmap string (pyval Z)) :=
  map pilot (seq 1 n).

(** [int(s)] for a str of decimal digits; the other strs do not occur in
    the samples. *)
Definition digit_value (c : ascii) : option Z :=
  let n := nat_of_ascii c in
  if ((48 <=? n) && (n <=? 57))%nat then Some (Z.of_nat (n - 48)) else None.

Fixpoint decimal_from (acc : Z) (s : string) : option Z :=
  match s with
  | "" => Some acc
  | String c s' =>
      match digit_value c with
      | Some d => decimal_from (10 * acc + d)%Z s'
      | None => None
      end
  end.

Definition decimal (s : string) : option Z :=
  match s with
  | "" => None
  | _ => decimal_from 0%Z s
  end.

Definition webhook : string := "https://discord.com/api/webhooks/1/abc".

(** The bot library is installed and queues every message; the webhook
    answers 204. *)
Definition with_bot : Env :=
  {| bot := Some (fun _ _ => None);
     http_post := fun _ _ => Some 204%Z;
     int_of_str := decimal;
     utcnow := "2024-05-01T12:00:00" |}.

(** The bot library is not installed. *)
Definition without_bot : Env :=
  {| bot := None;
     http_post := fun _ _ => Some 204%Z;
     int_of_str := decimal;
     utcnow := "2024-05-01T12:00:00" |}.

(** The bot library is installed but the broker is down, and the webhook
    answers 500. *)
Definition failing : Env :=
  {| bot := Some (fun _ _ => Some BrokerError);
     http_post := fun _ _ => Some 500%Z;
     int_of_str := decimal;
     utcnow := "2024-05-01T12:00:00" |}.

(** The bot library is imported, but [send_message] raises an
    [ImportError] of its own, as for a module it imports when it is
    called; the webhook answers 204. *)
Definition half_installed : Env :=
  {| bot := Some (fun _ _ => Some ImportError);
     http_post := fun _ _ => Some 204%Z;
     int_of_str := decimal;
     utcnow := "2024-05-01T12:00:00" |}.

(** The report built from [tax_data], for inputs from which one is
    built. *)
Definition built (tax_data : list (gmap string (pyval Z))) : report Z :=
  match build_report tax_data with
  | inr (Some rep) => rep
  | inr None | inl _ =>
      {| rep_total_outstanding := 0%Z;
         rep_total_users := 0;
         rep_description := "";
         rep_fields := [] |}
  end.

(** Five records, two of them tied at 125, one without debt. *)
Definition five : list (gmap string (pyval Z)) :=
  [john; jane; joan; zed; paid_up].

(** Names longer than their columns, not in ASCII, and a balance above
    2^53. *)
Definition long_names : gmap string (pyval Z) :=
  {[ "username" := PyStr "xxxxxxxxxxxxxxxxxxxxxxxxxxxxxx";
     "main_character" := PyStr "žžžžžžžžžžžžžžžžžžžžžžžžžžžžžž";
     "balance" := PyNum 9007199254740993%Z ]}.

(** A balance that does not convert to a float. *)
Definition too_rich : gmap string (pyval Z) :=
  {[ "username" := PyStr "too_rich"; "balance" := PyNum (2 ^ 1024)%Z ]}.

(** The lines of the description that Python renders for [pilots 27]. *)
Definition description_of_27_pilots : list string :=
  ["```";
   "User                 Main Character                    Balance";
   "============================================================";
   "pilot_27             N/A                               27.00M";
   "pilot_26             N/A                               26.00M";
   "pilot_25             N/A                               25.00M";
   "pilot_24             N/A                               24.00M";
   "pilot_23             N/A                               23.00M";
   "pilot_22             N/A                               22.00M";
   "pilot_21             N/A                               21.00M";
   "pilot_20             N/A                               20.00M";
   "pilot_19             N/A                               19.00M";
   "pilot_18             N/A                               18.00M";
   "pilot_17             N/A                               17.00M";
   "pilot_16             N/A                               16.00M";
   "pilot_15             N/A                               15.00M";
   "pilot_14             N/A                               14.00M";
   "pilot_13             N/A                               13.00M";
   "pilot_12             N/A                               12.00M";
   "pilot_11             N/A                               11.00M";
   "pilot_10             N/A                               10.00M";
   "pilot_9              N/A                                9.00M";
   "pilot_8              N/A                                8.00M";
   "pilot_7              N/A                                7.00M";
   "pilot_6              N/A                                6.00M";
   "pilot_5              N/A                                5.00M";
   "pilot_4              N/A                                4.00M";
   "pilot_3              N/A                                3.00M";
   "";
   "... and 2 more users";
   "============================================================";
   "TOTAL                                                378.00M";
   "```"].

(** The same for [five]. *)
Definition description_of_five : list string :=
  ["```";
   "User                 Main Character                    Balance";
   "============================================================";
   "zed                  N/A                            1,289.00M";
   "john_doe             John Doe                         125.00M";
   "joan_roe             Joan Roe                         125.00M";
   "jane_smith           Jane Smith                        89.00M";
   "============================================================";
   "TOTAL                                              1,628.00M";
   "```"].

End Sample.

(** ** The other functions of [discord_integration.py]

    [send_discord_notification], [send_discord_dm] and
    [get_user_discord_id] have events and exceptions of their own; their
    runs are traces over an event type [E] and an exception type [X]. *)

Definition Trace (E X A : Type) : Type := list E * (X + A).

Module Tr.

Definition ret {E X A} (a : A) : Trace E X A := ([], inr a).
Definition raise {E X A} (x : X) : Trace E X A := ([], inl x).
Definition emit {E X} (ev : E) : Trace E X unit := ([ev], inr tt).

Definition bind {E X A B} (m : Trace E X A) (k : A -> Trace E X B)
  : Trace E X B :=
  match m with
  | (evs, inl x) => (evs, inl x)
  | (evs, inr a) => let '(evs', r) := k a in (evs ++ evs', r)
  end.

(** [try: m  except C as x: h x], for the classes [C] that [catches]
    accepts; an exception raised by the handler is not caught again. *)
Definition try_except {E X A} (m : Trace E X A) (catches : X -> bool)
    (h : X -> Trace E X A) : Trace E X A :=
  match m with
  | (evs, inl x) =>
      if catches x then let '(evs', r) := h x in (evs ++ evs', r)
      else (evs, inl x)
  | (evs, inr a) => (evs, inr a)
  end.

Definition events {E X A} (m : Trace E X A) : list E := fst m.

Definition returned {E X A} (m : Trace E X A) : option A :=
  match snd m with
  | inl _ => None
  | inr a => Some a
  end.

Definition raised {E X A} (m : Trace E X A) : option X :=
  match snd m with
  | inl x => Some x
  | inr _ => None
  end.

End Tr.

Declare Scope trace_scope.
Delimit Scope trace_scope with trace.
Notation "x <- m ;; k" := (Tr.bind m (fun x => k))
  (at level 100, m at next level, right associativity) : trace_scope.

(** The embed of a single notification: no fields and no timestamp. *)
Record plain_embed : Type := {
  plain_title : string;
  plain_description : string;
  plain_color : Z;
  plain_footer : string;
}.

(** The JSON document [send_discord_notification] posts. *)
Record notification_payload : Type := {
  notification_username : string;
  notification_embeds : list plain_embed;
}.

(** The [user] argument of [get_user_discord_id]: a Django user, of which
    the function reads [username], or an object without this attribute,
    such as [None]. *)
Inductive user_arg : Type :=
  | NoUser
  | User (pk : Z) (username : string).

(** [DiscordUser.objects.get(user=user)]: the linked account, the
    exception [DoesNotExist], or another exception of the database. *)
Inductive lookup : Type :=
  | Linked (uid : Z)
  | NotLinked
  | Broken.

(** What the three functions call. *)
Record Services : Type := {
  (** the bot library is importable when [bot runtime] is not [None];
      [int] on a str is [int_of_str runtime] *)
  runtime : Env;
  (** the outcome of [send_message(message="", user_id=u, embed=e)]:
      [None] when the call returns, [Some x] when it raises [x] *)
  queue_dm : Z -> plain_embed -> option exn;
  (** [requests.post(url, ...)]: the status code, or [None] when the
      request raises *)
  post_notification : string -> notification_payload -> option Z;
  (** [None]: the import of [DiscordUser] raises [ImportError] *)
  discord_users : option (user_arg -> lookup);
}.

Inductive notice_log : Type :=
  | NotificationSent (title : string)            (* debug *)
  | NotificationFailed (status : Z)              (* warning *)
  | NotificationError (e : exn)                  (* error *)
  | DmQueued (user_discord_id : channel_arg)     (* debug *)
  | DmBotMissing                                 (* warning *)
  | DmInstallHint                                (* warning *)
  | DmError (e : exn).                           (* error *)

Inductive notice : Type :=
  | NotificationPost (url : string) (p : notification_payload)
  | DirectMessage (user_id : Z) (e : plain_embed)
  | NoticeLog (l : notice_log).

(** [0x3498db], blue, the default [color] *)
Definition default_color : Z := 3447003.

(** The default [username] of [send_discord_notification]. *)
Definition default_username : string := "MiningTaxes Bot".

(** The body of the [try] block of [send_discord_notification]. *)
Definition post_notice (s : Services) (url title message : string)
    (color : Z) (username : string) : Trace notice exn bool :=
  let payload :=
    {| notification_username := username;
       notification_embeds :=
         [{| plain_title := title;
             plain_description := message;
             plain_color := color;
             plain_footer := "MiningTaxes Notification System" |}] |} in
  (_ <- Tr.emit (NotificationPost url payload) ;;
   match post_notification s url payload with
   | None => Tr.raise RequestException
   | Some status =>
       if status_ok status then
         _ <- Tr.emit (NoticeLog (NotificationSent title)) ;;
         Tr.ret true
       else
         _ <- Tr.emit (NoticeLog (NotificationFailed status)) ;;
         Tr.ret false
   end)%trace.

(** [send_discord_notification(webhook_url, title, message, color,
    username)] *)
Definition send_discord_notification (s : Services)
    (webhook_url : option string) (title message : string) (color : Z)
    (username : string) : Trace notice exn bool :=
  match webhook_url with
  | None => Tr.ret false
  | Some url =>
      if negb (url_truthy webhook_url) then Tr.ret false
      else
        Tr.try_except (post_notice s url title message color username)
          (fun _ => true)
          (fun e =>
             (_ <- Tr.emit (NoticeLog (NotificationError e)) ;;
              Tr.ret false)%trace)
  end.

(** The body of the inner [try] of [send_discord_dm]. *)
Definition queue_direct_message (s : Services)
    (user_discord_id : channel_arg) (title message : string) (color : Z)
  : Trace notice exn bool :=
  match bot (runtime s) with
  | None => Tr.raise ImportError
  | Some _ =>
      let e :=
        {| plain_title := title;
           plain_description := message;
           plain_color := color;
           plain_footer := "MiningTaxes - Private Notification" |} in
      match py_int (runtime s) user_discord_id with
      | inl x => Tr.raise x
      | inr user_id =>
          (_ <- Tr.emit (DirectMessage user_id e) ;;
           match queue_dm s user_id e with
           | None =>
               _ <- Tr.emit (NoticeLog (DmQueued user_discord_id)) ;;
               Tr.ret true
           | Some x => Tr.raise x
           end)%trace
      end
  end.

(** [send_discord_dm(user_discord_id, title, message, color)] *)
Definition send_discord_dm (s : Services) (user_discord_id : channel_arg)
    (title message : string) (color : Z) : Trace notice exn bool :=
  if negb (chan_truthy user_discord_id) then Tr.ret false
  else
    Tr.try_except
      (Tr.try_except
         (queue_direct_message s user_discord_id title message color)
         is_import_error
         (fun _ =>
            (_ <- Tr.emit (NoticeLog DmBotMissing) ;;
             _ <- Tr.emit (NoticeLog DmInstallHint) ;;
             Tr.ret false)%trace))
      (fun _ => true)
      (fun e => (_ <- Tr.emit (NoticeLog (DmError e)) ;; Tr.ret false)%trace).

(** The exceptions of [get_user_discord_id]. *)
Inductive lookup_exn : Type :=
  | NoDiscordService   (* [ImportError] *)
  | DoesNotExist       (* [DiscordUser.DoesNotExist] *)
  | AttributeError     (* [user.username] on an object without it *)
  | DatabaseError.     (* any other exception of the query *)

Inductive lookup_log : Type :=
  | NoAccountLinked (username : string)                  (* debug *)
  | ServiceMissing                                       (* warning *)
  | LookupError (username : string) (e : lookup_exn).    (* error *)

(** [user.username], as the f-strings of the log lines read it. *)
Definition username_of (user : user_arg)
  : Trace lookup_log lookup_exn string :=
  match user with
  | User _ name => Tr.ret name
  | NoUser => Tr.raise AttributeError
  end.

(** The outer [try] block of [get_user_discord_id]: the import, the
    query, and the handler of [DoesNotExist]. *)
Definition find_discord_user (s : Services) (user : user_arg)
  : Trace lookup_log lookup_exn (option Z) :=
  match discord_users s with
  | None => Tr.raise NoDiscordService
  | Some get =>
      Tr.try_except
        match get user with
        | Linked uid => Tr.ret (Some uid)
        | NotLinked => Tr.raise DoesNotExist
        | Broken => Tr.raise DatabaseError
        end
        (fun x => match x with DoesNotExist => true | _ => false end)
        (fun _ =>
           (name <- username_of user ;;
            _ <- Tr.emit (NoAccountLinked name) ;;
            Tr.ret None)%trace)
  end.

(** [get_user_discord_id(user)]: the handler of [ImportError] comes
    first, the handler of [Exception] takes the other exceptions. *)
Definition get_user_discord_id (s : Services) (user : user_arg)
  : Trace lookup_log lookup_exn (option Z) :=
  Tr.try_except (find_discord_user s user)
    (fun _ => true)
    (fun x =>
       match x with
       | NoDiscordService =>
           (_ <- Tr.emit ServiceMissing ;; Tr.ret None)%trace
       | e =>
           (name <- username_of user ;;
            _ <- Tr.emit (LookupError name e) ;;
            Tr.ret None)%trace
       end).

(** The outbound calls among the events: the request and the message. *)
Definition notice_calls (evs : list notice) : list notice :=
  List.filter
    (fun ev => match ev with NoticeLog _ => false | _ => true end) evs.

(** Services for the samples: everything installed and working, and
    nothing installed. *)
Module NoticeSample.

Definition all_up : Services :=
  {| runtime := Sample.with_bot;
     queue_dm := fun _ _ => None;
     post_notification := fun _ _ => Some 204%Z;
     discord_users :=
       Some (fun u => match u with
                      | User 7 _ => Linked 424242
                      | _ => NotLinked
                      end) |}.

Definition all_down : Services :=
  {| runtime := Sample.without_bot;
     queue_dm := fun _ _ => Some BrokerError;
     post_notification := fun _ _ => None;
     discord_users := None |}.

End NoticeSample.

(** ** The installer, [miningtaxdiscordupdate.py]

    The script prints, runs shell commands, copies one file and may remove
    one directory.  The machine it runs on is a [Host] over a state [S]
    that the commands and the file operations change; paths are the
    values of [pathlib.Path], with the three operations the script
    uses. *)

Class PathLib (path : Type) := {
  path_of : string -> path;             (* [Path(s)] *)
  path_join : path -> string -> path;   (* [p / name] *)
  path_str : path -> string;            (* [str(p)], what an f-string prints *)
}.

(** [subprocess.run(cmd, shell=True, ...)]: the process ends with a return
    code, or cannot be started ([OSError], as for a missing [cwd]), or is
    interrupted from the keyboard. *)
Inductive run_result : Type :=
  | Exited (returncode : Z) (stderr : string)
  | NotStarted (message : string)
  | RunInterrupted.

(** [input(prompt)] *)
Inductive input_result : Type :=
  | Line (text : string)
  | EndOfInput          (* [EOFError] *)
  | InputInterrupted.   (* [KeyboardInterrupt] *)

Record Host (path S : Type) : Type := {
  home : path;                           (* [Path.home()] *)
  environ : string -> option string;     (* [os.environ.get] *)
  euid : Z;                              (* [os.geteuid()] *)
  argv0 : string;                        (* [sys.argv[0]] *)
  path_exists : S -> path -> bool;       (* [p.exists()] *)
  (** the command, its [cwd] and [capture_output] *)
  subprocess_run : S -> string -> option path -> bool -> run_result * S;
  (** [shutil.copy2(src, dst)]: [Some message] when it raises [OSError] *)
  copy2 : S -> path -> string -> option string * S;
  (** [shutil.rmtree(p)] *)
  rmtree : S -> path -> option string * S;
  read_input : S -> string -> input_result * S;
  (** [datetime.now().strftime('%Y%m%d_%H%M%S')] *)
  timestamp : S -> string;
}.
Arguments home {path S}.
Arguments environ {path S}.
Arguments euid {path S}.
Arguments argv0 {path S}.
Arguments path_exists {path S}.
Arguments subprocess_run {path S}.
Arguments copy2 {path S}.
Arguments rmtree {path S}.
Arguments read_input {path S}.
Arguments timestamp {path S}.

(** The exceptions that leave a method of the installer.
    [CalledProcessError] is not among them: [run_command] handles it where
    it is raised. *)
Inductive script_exn : Type :=
  | SystemExit (code : Z)
  | KeyboardInterrupt
  | OSError (message : string)
  | EOFError.

(** [str(e)] *)
Definition script_exn_str (e : script_exn) : string :=
  match e with
  | SystemExit code => pretty code
  | KeyboardInterrupt => ""
  | OSError message => message
  | EOFError => "EOF when reading a line"
  end.

(** The classes that [except Exception] catches. *)
Definition caught_as_exception (e : script_exn) : bool :=
  match e with
  | SystemExit _ | KeyboardInterrupt => false
  | OSError _ | EOFError => true
  end.

(** What the script does to the outside, in order. *)
Inductive step (path : Type) : Type :=
  | Print (text : string)
  | Command (cmd : string) (cwd : option path) (capture check : bool)
  | Prompt (text : string)
  | CopyFile (src : path) (dst : string)
  | RemoveTree (dir : path).
Arguments Print {path} text.
Arguments Command {path} cmd cwd capture check.
Arguments Prompt {path} text.
Arguments CopyFile {path} src dst.
Arguments RemoveTree {path} dir.

(** [response.lower()], on ASCII letters *)
Definition ascii_lower (c : ascii) : ascii :=
  let n := nat_of_ascii c in
  if ((65 <=? n) && (n <=? 90))%nat then ascii_of_nat (n + 32) else c.

Fixpoint str_lower (s : string) : string :=
  match s with
  | "" => ""
  | String c s' => String (ascii_lower c) (str_lower s')
  end.

(** Truth value of a str that may be missing, as in [if aa_path:]. *)
Definition env_truthy (v : option string) : bool :=
  match v with
  | None => false
  | Some s => negb (String.eqb s "")
  end.

Section Installer.

Context {path : Type} `{PathLib path} {S : Type} (host : Host path S).

(** A method of the installer: from the state of the host to the steps
    taken, the result or the exception, and the new state. *)
Definition Script (A : Type) : Type :=
  S -> list (step path) * (script_exn + A) * S.

Definition sret {A} (a : A) : Script A := fun st => ([], inr a, st).

Definition sraise {A} (e : script_exn) : Script A :=
  fun st => ([], inl e, st).

Definition sbind {A B} (m : Script A) (k : A -> Script B) : Script B :=
  fun st =>
    match m st with
    | (steps, inl e, st') => (steps, inl e, st')
    | (steps, inr a, st') =>
        let '(steps', r, st'') := k a st' in (steps ++ steps', r, st'')
    end.

Declare Scope script_scope.
Delimit Scope script_scope with script.
Notation "x <- m ;; k" := (sbind m (fun x => k))
  (at level 100, m at next level, right associativity) : script_scope.
Notation "m ;;; k" := (sbind m (fun _ => k))
  (at level 100, right associativity) : script_scope.

(** [print(text)] *)
Definition print (text : string) : Script unit :=
  fun st => ([Print text], inr tt, st).

Fixpoint print_all (lines : list string) : Script unit :=
  match lines with
  | [] => sret tt
  | l :: rest => (print l ;;; print_all rest)%script
  end.

(** [sys.exit(code)] *)
Definition sys_exit {A} (code : Z) : Script A := sraise (SystemExit code).

(** [p.exists()] *)
Definition exists_now (p : path) : Script bool :=
  fun st => ([], inr (path_exists host st p), st).

Definition REPO_URL : string :=
  "https://github.com/Thrainkrilleve/miningtaxdiscordupdate.git".

Definition INSTALL_DIR_NAME : string := "aa-miningtaxes-discord".

(** The attributes that [__init__] sets. *)
Record installer : Type := {
  home_dir : path;
  install_dir : path;
  auth_path : path;
}.

(** [_detect_auth_path] *)
Definition detect_auth_path (home_dir : path) : Script path :=
  let aa_path := environ host "AA_PATH" in
  match aa_path with
  | Some p =>
      if env_truthy aa_path then sret (path_of p)
      else
        (there <- exists_now (path_join home_dir "myauth") ;;
         if there then sret (path_join home_dir "myauth")
         else sret (path_join home_dir "myauth"))%script
  | None =>
      (there <- exists_now (path_join home_dir "myauth") ;;
       if there then sret (path_join home_dir "myauth")
       else sret (path_join home_dir "myauth"))%script
  end.

(** [run_command(cmd, check, cwd, capture)].  [subprocess.run] raises
    [CalledProcessError] for a return code other than 0 when [check] is
    set; the handler prints and, under [check], exits.  The result is the
    return code of the completed process, or [None] from the last line of
    the handler. *)
Definition run_command (cmd : string) (check : bool) (cwd : option path)
    (capture : bool) : Script (option Z) :=
  fun st =>
    match subprocess_run host st cmd cwd capture with
    | (Exited returncode stderr, st') =>
        if check && negb (returncode =? 0)%Z then
          (Command cmd cwd capture check ::
           [Print (if capture then "✗ Error: " +:+ stderr
                   else "✗ Command failed: " +:+ cmd)],
           (if check then inl (SystemExit 1) else inr None),
           st')
        else ([Command cmd cwd capture check], inr (Some returncode), st')
    | (NotStarted message, st') =>
        ([Command cmd cwd capture check], inl (OSError message), st')
    | (RunInterrupted, st') =>
        ([Command cmd cwd capture check], inl KeyboardInterrupt, st')
    end.

(** [print_header(text)] *)
Definition print_header (text : string) : Script unit :=
  (print (Str.nl +:+ Str.repeat "=" 50) ;;;
   print text ;;;
   print (Str.repeat "=" 50 +:+ Str.nl))%script.

(** [check_prerequisites] *)
Definition check_prerequisites : Script bool :=
  if (euid host =? 0)%Z then
    (print "✗ Please do not run as root. Run as your allianceauth user." ;;;
     sys_exit 1)%script
  else
    let venv := environ host "VIRTUAL_ENV" in
    if negb (env_truthy venv) then
      (print "✗ Error: Virtual environment not activated!" ;;;
       print (Str.nl +:+
              "Please activate your Alliance Auth virtual environment first:")
       ;;;
       print "  source /home/allianceauth/venv/bin/activate" ;;;
       sys_exit 1)%script
    else
      (print ("✓ Virtual environment: " +:+ default "" venv) ;;;
       sret true)%script.

(** [clone_or_update_repo] *)
Definition clone_or_update_repo (self : installer) : Script unit :=
  (there <- exists_now (install_dir self) ;;
   if there then
     print ("📦 Updating existing installation at " +:+
            path_str (install_dir self) +:+ "...") ;;;
     _ <- run_command "git pull" true (Some (install_dir self)) true ;;
     print "✓ Repository updated"
   else
     print "📦 Cloning MiningTaxes with Discord integration..." ;;;
     _ <- run_command
            ("git clone " +:+ REPO_URL +:+ " " +:+ path_str (install_dir self))
            true None true ;;
     print ("✓ Repository cloned to " +:+ path_str (install_dir self)))%script.

(** [install_plugin] *)
Definition install_plugin (self : installer) : Script unit :=
  (print (Str.nl +:+ "📦 Installing MiningTaxes plugin...") ;;;
   _ <- run_command ("pip install -e " +:+ path_str (install_dir self))
          true None true ;;
   print "✓ Plugin installed")%script.

(** [install_dependencies] *)
Definition install_dependencies : Script unit :=
  (print (Str.nl +:+ "📦 Installing dependencies...") ;;;
   _ <- run_command "pip install django-celery-results" true None true ;;
   print "✓ Dependencies installed")%script.

(** [self.auth_path / "myauth" / "settings" / "local.py"] *)
Definition settings_file (self : installer) : path :=
  path_join (path_join (path_join (auth_path self) "myauth") "settings")
    "local.py".

(** [backup_settings]: the settings file that was copied, or [None]. *)
Definition backup_settings (self : installer) : Script (option path) :=
  (there <- exists_now (settings_file self) ;;
   if there then
     fun st =>
       let backup_name :=
         path_str (settings_file self) +:+ ".backup." +:+ timestamp host st in
       match copy2 host st (settings_file self) backup_name with
       | (Some message, st') =>
           ([CopyFile (settings_file self) backup_name],
            inl (OSError message), st')
       | (None, st') =>
           ([CopyFile (settings_file self) backup_name;
             Print ("✓ Settings backed up to " +:+ backup_name)],
            inr (Some (settings_file self)), st')
       end
   else
     print ("⚠ Warning: Settings file not found at " +:+
            path_str (settings_file self)) ;;;
     sret None)%script.

(** The lines [show_configuration_instructions] prints after its
    header. *)
Definition configuration_lines : list string :=
  [ "Add the following to your local.py:" +:+ Str.nl;
    "# 1. Installed Apps";
    "INSTALLED_APPS += [";
    "    'miningtaxes',";
    "    'django_celery_results',";
    "]" +:+ Str.nl;
    "# 2. Celery Configuration";
    "CELERY_RESULT_BACKEND = 'django-db'";
    "CELERY_CACHE_BACKEND = 'django-cache'" +:+ Str.nl;
    "# 3. Scheduled Tasks";
    "from celery.schedules import crontab" +:+ Str.nl;
    "CELERYBEAT_SCHEDULE['miningtaxes_update_daily'] = {";
    "    'task': 'miningtaxes.tasks.update_daily',";
    "    'schedule': crontab(minute=0, hour='1'),";
    "}" +:+ Str.nl;
    "CELERYBEAT_SCHEDULE['miningtaxes_notifications'] = {";
    "    'task': 'miningtaxes.tasks.notify_taxes_due',";
    "    'schedule': crontab(0, 0, day_of_month='2'),";
    "}" +:+ Str.nl;
    "CELERYBEAT_SCHEDULE['miningtaxes_apply_interest'] = {";
    "    'task': 'miningtaxes.tasks.apply_interest',";
    "    'schedule': crontab(0, 0, day_of_month='15'),";
    "}" +:+ Str.nl;
    "# 4. (Optional) Price Source Configuration";
    "MININGTAXES_PRICE_METHOD = 'Fuzzwork'  # or 'Janice'";
    "# MININGTAXES_PRICE_JANICE_API_KEY = 'your_key'  # if using Janice"
      +:+ Str.nl;
    "# 5. (Optional) Discord Notifications";
    "MININGTAXES_DISCORD_WEBHOOK_URL = 'https://discord.com/api/webhooks/...'";
    "MININGTAXES_DISCORD_CORP_WEBHOOK_URL = 'https://discord.com/api/webhooks/...'";
    "MININGTAXES_DISCORD_CORP_CHANNEL_ID = 1234567890" +:+ Str.nl;
    Str.repeat "=" 50 ].

(** [show_configuration_instructions] *)
Definition show_configuration_instructions : Script unit :=
  (print_header "CONFIGURATION REQUIRED" ;;;
   print_all configuration_lines)%script.

(** [run_migrations] *)
Definition run_migrations (self : installer) : Script unit :=
  (print (Str.nl +:+ "🔧 Running migrations...") ;;;
   _ <- run_command "python manage.py migrate" true (Some (auth_path self))
          false ;;
   print "✓ Migrations complete")%script.

(** [collect_static] *)
Definition collect_static (self : installer) : Script unit :=
  (print (Str.nl +:+ "🔧 Collecting static files...") ;;;
   _ <- run_command "python manage.py collectstatic --noinput" true
          (Some (auth_path self)) true ;;
   print "✓ Static files collected")%script.

(** [preload_prices] *)
Definition preload_prices (self : installer) : Script unit :=
  (print (Str.nl +:+
          "🔧 Preloading ore prices (this may take a minute)...") ;;;
   _ <- run_command "python manage.py miningtaxes_preload_prices" true
          (Some (auth_path self)) false ;;
   print "✓ Prices preloaded")%script.

(** [show_restart_instructions] *)
Definition show_restart_instructions : Script unit :=
  (print_header "RESTART SERVICES" ;;;
   print_all
     [ "Restart your Alliance Auth services:" +:+ Str.nl;
       "  sudo systemctl restart myauth-gunicorn";
       "  sudo systemctl restart myauth-worker";
       "  sudo systemctl restart myauth-beat";
       Str.nl +:+ "Or if using supervisor:";
       "  sudo supervisorctl restart myauth:" ])%script.

(** [show_next_steps] *)
Definition show_next_steps (self : installer) : Script unit :=
  (print_header "NEXT STEPS" ;;;
   print_all
     [ "1. Restart your Alliance Auth services (see above)";
       "2. Log in to Alliance Auth admin panel";
       "3. Navigate to MiningTaxes → Settings";
       "4. Configure tax rates and interest rate";
       "5. Add corp accountant characters";
       "6. (Optional) Configure Discord settings in admin panel" +:+ Str.nl;
       "📚 Documentation:";
       "   " +:+ path_str (install_dir self) +:+ "/README.md";
       "   " +:+ path_str (install_dir self) +:+ "/DISCORD_INTEGRATION.md";
       "   " +:+ path_str (install_dir self) +:+ "/DISCORD_DM_GUIDE.md";
       "   " +:+ path_str (install_dir self) +:+ "/DISCORD_QUICKSTART.md"
         +:+ Str.nl ])%script.

(** [input(prompt)] *)
Definition input (prompt : string) : Script string :=
  fun st =>
    match read_input host st prompt with
    | (Line text, st') => ([Prompt prompt], inr text, st')
    | (EndOfInput, st') => ([Prompt prompt], inl EOFError, st')
    | (InputInterrupted, st') => ([Prompt prompt], inl KeyboardInterrupt, st')
    end.

(** [install(skip_config)] *)
Definition install (self : installer) (skip_config : bool) : Script unit :=
  (print_header
     ("MiningTaxes Installation" +:+ Str.nl +:+
      "with Discord DM & Corp Summary Support") ;;;
   print "🔍 Checking prerequisites..." ;;;
   _ <- check_prerequisites ;;
   clone_or_update_repo self ;;;
   install_plugin self ;;;
   install_dependencies ;;;
   print (Str.nl +:+ "💾 Backing up settings...") ;;;
   _ <- backup_settings self ;;
   (if negb skip_config then
      show_configuration_instructions ;;;
      _ <- input (Str.nl +:+
                  "Press Enter when you have updated your local.py...") ;;
      sret tt
    else sret tt) ;;;
   run_migrations self ;;;
   collect_static self ;;;
   preload_prices self ;;;
   show_restart_instructions ;;;
   show_next_steps self ;;;
   print_header "✓ Installation Complete!")%script.

(** [update] *)
Definition update (self : installer) : Script unit :=
  (print_header "MiningTaxes Update" ;;;
   print "🔍 Checking prerequisites..." ;;;
   _ <- check_prerequisites ;;
   there <- exists_now (install_dir self) ;;
   (if negb there then
      print ("✗ Error: Installation not found at " +:+
             path_str (install_dir self)) ;;;
      print (Str.nl +:+ "Run with 'install' command first:") ;;;
      print ("  python3 " +:+ argv0 host +:+ " install") ;;;
      sys_exit 1
    else sret tt) ;;;
   clone_or_update_repo self ;;;
   install_plugin self ;;;
   run_migrations self ;;;
   collect_static self ;;;
   show_restart_instructions ;;;
   print_header "✓ Update Complete!")%script.

(** [shutil.rmtree(p)] *)
Definition remove_tree (p : path) : Script unit :=
  fun st =>
    match rmtree host st p with
    | (Some message, st') => ([RemoveTree p], inl (OSError message), st')
    | (None, st') => ([RemoveTree p], inr tt, st')
    end.

(** [uninstall] *)
Definition uninstall (self : installer) : Script unit :=
  (print_header "MiningTaxes Uninstall" ;;;
   response <- input ("Are you sure you want to uninstall? This will remove "
                      +:+ path_str (install_dir self) +:+ " [y/N]: ") ;;
   if negb (String.eqb (str_lower response) "y") then
     print "Uninstall cancelled."
   else
     print (Str.nl +:+ "🗑️  Uninstalling plugin...") ;;;
     _ <- run_command "pip uninstall aa-miningtaxes -y" false None true ;;
     there <- exists_now (install_dir self) ;;
     (if there then
        print ("🗑️  Removing " +:+ path_str (install_dir self) +:+ "...") ;;;
        remove_tree (install_dir self)
      else sret tt) ;;;
     print_all
       [ Str.nl +:+ "⚠️  Remember to:";
         "1. Remove miningtaxes from INSTALLED_APPS";
         "2. Remove CELERYBEAT_SCHEDULE entries";
         "3. Run: python manage.py migrate";
         "4. Restart your services" ] ;;;
     print_header "✓ Uninstall Complete!")%script.

(** The [command] argument, one of the three choices of the parser. *)
Inductive command : Type :=
  | CmdInstall
  | CmdUpdate
  | CmdUninstall.

(** [try: m  except KeyboardInterrupt: ...  except Exception as e: ...],
    the handlers of [main]. *)
Definition exit_on_error (m : Script unit) : Script unit :=
  fun st =>
    match m st with
    | (steps, inl KeyboardInterrupt, st') =>
        (steps ++ [Print (Str.nl +:+ Str.nl +:+ "✗ Cancelled by user")],
         inl (SystemExit 1), st')
    | (steps, inl e, st') =>
        if caught_as_exception e then
          (steps ++ [Print (Str.nl +:+ "✗ Error: " +:+ script_exn_str e)],
           inl (SystemExit 1), st')
        else (steps, inl e, st')
    | (steps, inr tt, st') => (steps, inr tt, st')
    end.

(** The [try] statement of [main], lines 313 to 325: the method that the
    command selects, under the two handlers.  [self] is the installer
    that line 311 constructs and [cmd] and [skip_config] are the
    arguments that [parse_args] returns; both calls stand before the
    [try], and an exception they raise is not handled by it. *)
Definition main (self : installer) (cmd : command) (skip_config : bool)
  : Script unit :=
  exit_on_error
    match cmd with
    | CmdInstall => install self skip_config
    | CmdUpdate => update self
    | CmdUninstall => uninstall self
    end.

(** *** Observations on a run of the script *)

(** The shell commands among the steps, with their working directory. *)
Fixpoint commands (steps : list (step path)) : list (string * option path) :=
  match steps with
  | [] => []
  | Command cmd cwd _ _ :: rest => (cmd, cwd) :: commands rest
  | _ :: rest => commands rest
  end.

(** A step that only prints. *)
Definition is_print (s : step path) : bool :=
  match s with Print _ => true | _ => false end.

Definition is_prompt (s : step path) : bool :=
  match s with Prompt _ => true | _ => false end.

Definition is_remove (s : step path) : bool :=
  match s with RemoveTree _ => true | _ => false end.

(** The commands of a full [install], from the state [st] in which it
    starts. *)
Definition install_plan (self : installer) (st : S)
  : list (string * option path) :=
  [ if path_exists host st (install_dir self)
    then ("git pull", Some (install_dir self))
    else ("git clone " +:+ REPO_URL +:+ " " +:+ path_str (install_dir self),
          None);
    ("pip install -e " +:+ path_str (install_dir self), None);
    ("pip install django-celery-results", None);
    ("python manage.py migrate", Some (auth_path self));
    ("python manage.py collectstatic --noinput", Some (auth_path self));
    ("python manage.py miningtaxes_preload_prices", Some (auth_path self)) ].

(** *** Runs that keep to a plan *)

(** [follows_at st plan m]: run from [st], [m] issues the commands of
    [plan] in order, all of them if it returns, some first ones if it
    raises. *)
Definition follows_at {A} (st : S) (plan : list (string * option path))
    (m : Script A) : Prop :=
  commands (fst (fst (m st))) `prefix_of` plan /\
  (forall a, snd (fst (m st)) = inr a -> commands (fst (fst (m st))) = plan).

(** [quiet m]: [m] runs no command and leaves the state as it is. *)
Definition quiet {A} (m : Script A) : Prop :=
  forall st, snd (m st) = st /\ commands (fst (fst (m st))) = [].

(** [all_steps P m]: every step of every run of [m] satisfies [P]. *)
Definition all_steps {A} (P : step path -> Prop) (m : Script A) : Prop :=
  forall st, Forall P (fst (fst (m st))).


End Installer.

(** Sample machines: paths are the strs that [str(p)] prints, and the
    state of a machine is the list of the paths that exist on it. *)
Module HostSample.

#[global] Instance posix_path : PathLib string :=
  {| path_of := fun s => s;
     path_join := fun p name => p +:+ "/" +:+ name;
     path_str := fun p => p |}.

Definition disk : Type := list string.

Definition on_disk (st : disk) (p : string) : bool :=
  existsb (String.eqb p) st.

(** The machine of the user with id [uid], in the virtual environment
    [venv], who answers [answer] to every question; every command ends
    with the return code [code], [copy2] creates its target and [rmtree]
    removes the directory. *)
Definition machine (uid : Z) (venv : option string) (answer : string)
    (code : Z) : Host string disk :=
  {| home := "/home/allianceauth";
     environ := fun name =>
       if String.eqb name "VIRTUAL_ENV" then venv else None;
     euid := uid;
     argv0 := "miningtaxdiscordupdate.py";
     path_exists := on_disk;
     subprocess_run := fun st cmd cwd capture =>
       (Exited code (if capture then "failed" else ""), st);
     copy2 := fun st src dst => (None, dst :: st);
     rmtree := fun st p =>
       (None, List.filter (fun q => negb (String.eqb q p)) st);
     read_input := fun st prompt => (Line answer, st);
     timestamp := fun _ => "20240501_120000" |}.

Definition venv : option string := Some "/home/allianceauth/venv".

(** Run by root. *)
Definition as_root : Host string disk := machine 0 venv "" 0.

(** The user of Alliance Auth, who answers [n]. *)
Definition declining : Host string disk := machine 1000 venv "n" 0.

(** The same user answers [Y], and [pip] fails. *)
Definition pip_fails : Host string disk := machine 1000 venv "Y" 1.

Definition self : installer :=
  {| home_dir := "/home/allianceauth";
     install_dir := "/home/allianceauth/aa-miningtaxes-discord";
     auth_path := "/home/allianceauth/myauth" |}.

(** Nothing is installed. *)
Definition fresh : disk := ["/home/allianceauth/myauth"].

Definition installed : disk :=
  ["/home/allianceauth/aa-miningtaxes-discord"; "/home/allianceauth/myauth"].

End HostSample.

(** * Properties *)

Lemma int_order : StrictWeakOrder Z.
Proof.
  split; simpl; intros.
  - apply Z.ltb_irrefl.
  - apply Z.ltb_lt in H. apply Z.ltb_ge. lia.
  - apply Z.ltb_ge in H, H0. apply Z.ltb_ge. lia.
Qed.

Example format_int_millions :
  IntBalance.format_2f 1234567%Z = Some "1,234,567.00".
Proof. vm_compute. reflexivity. Qed.

Example format_int_small : IntBalance.format_2f 125%Z = Some "125.00".
Proof. vm_compute. reflexivity. Qed.

Example format_int_negative :
  IntBalance.format_2f (-1000)%Z = Some "-1,000.00".
Proof. vm_compute. reflexivity. Qed.

(** Above 2^53 the int is rounded to a double: 2^53 + 1 is printed as
    2^53, and 2^53 + 3 as 2^53 + 4. *)
Example format_int_rounds :
  IntBalance.format_2f 9007199254740993%Z = Some "9,007,199,254,740,992.00" /\
  IntBalance.format_2f 9007199254740995%Z = Some "9,007,199,254,740,996.00".
Proof. split; vm_compute; reflexivity. Qed.

(** An int of 1025 bits does not convert to a float. *)
Example format_int_overflows : IntBalance.format_2f (2 ^ 1024)%Z = None.
Proof. vm_compute. reflexivity. Qed.

(** Below 2^53 in absolute value the digits are those of the int. *)
Lemma to_float_exact (z : Z) :
  (Z.abs z < 2 ^ 53)%Z -> IntBalance.to_float z = Some z.
Proof.
  intros Hz. unfold IntBalance.to_float. cbv zeta.
  destruct (Z.leb_spec (Z.log2 (Z.abs z) + 1 - 53) 0) as [_|Hbig];
    [reflexivity|].
  exfalso. destruct (Z.eq_dec (Z.abs z) 0%Z) as [H0|H0].
  - rewrite H0 in Hbig. simpl in Hbig. lia.
  - assert (Hlog : (Z.log2 (Z.abs z) < 53)%Z)
      by (apply Z.log2_lt_pow2; lia).
    lia.
Qed.

(** ** Strings *)

Lemma append_cons ch (a b : string) : String ch a +:+ b = String ch (a +:+ b).
Proof. reflexivity. Qed.

Lemma append_assoc (a b c : string) : (a +:+ b) +:+ c = a +:+ (b +:+ c).
Proof.
  induction a as [|ch a IH]; [reflexivity|].
  rewrite !append_cons. f_equal. exact IH.
Qed.

Lemma append_empty_r (a : string) : a +:+ "" = a.
Proof.
  induction a as [|ch a IH]; [reflexivity|].
  rewrite append_cons. f_equal. exact IH.
Qed.

(** *** Characters and columns

    The operations on strs count code points, as the vocabulary of the
    specification counts characters. *)

Lemma is_continuation_starts c :
  Str.is_continuation c = negb (starts_character c).
Proof.
  unfold Str.is_continuation, starts_character. cbv zeta.
  destruct (Nat.leb_spec 128 (nat_of_ascii c)),
    (Nat.ltb_spec (nat_of_ascii c) 192),
    (Nat.ltb_spec (nat_of_ascii c) 128),
    (Nat.leb_spec 192 (nat_of_ascii c)); simpl; try reflexivity; lia.
Qed.

Lemma chars_cons c s :
  chars (String c s) = if starts_character c then S (chars s) else chars s.
Proof. unfold chars. simpl. now destruct (starts_character c). Qed.

Lemma chars_app (a b : string) : chars (a +:+ b) = chars a + chars b.
Proof.
  induction a as [|c a IH]; [reflexivity|].
  rewrite append_cons, !chars_cons, IH. now destruct (starts_character c).
Qed.

Lemma repeat_spaces n : Str.repeat " " n = spaces n.
Proof.
  unfold spaces. induction n as [|n IH]; simpl; [reflexivity|].
  now rewrite IH.
Qed.

Lemma chars_spaces n : chars (spaces n) = n.
Proof.
  unfold spaces. induction n as [|n IH]; [reflexivity|].
  simpl List.repeat. simpl string_of_list_ascii. rewrite chars_cons, IH.
  reflexivity.
Qed.

Lemma len_chars s : Str.len s = chars s.
Proof.
  induction s as [|c s IH]; [reflexivity|].
  simpl. rewrite chars_cons, is_continuation_starts, IH.
  now destruct (starts_character c).
Qed.

Lemma ljust_left_aligned w s : Str.ljust w s = left_aligned w s.
Proof.
  unfold Str.ljust, left_aligned. now rewrite len_chars, repeat_spaces.
Qed.

Lemma rjust_right_aligned w s : Str.rjust w s = right_aligned w s.
Proof.
  unfold Str.rjust, right_aligned. now rewrite len_chars, repeat_spaces.
Qed.

Lemma chars_left_aligned w s : chars (left_aligned w s) = max w (chars s).
Proof. unfold left_aligned. rewrite chars_app, chars_spaces. lia. Qed.

Lemma chars_right_aligned w s : chars (right_aligned w s) = max w (chars s).
Proof. unfold right_aligned. rewrite chars_app, chars_spaces. lia. Qed.

(** [s[:n]] is the cut of [s] after [n] characters. *)
Lemma take_first_characters n s : first_characters n s (Str.take n s).
Proof.
  unfold first_characters. revert n.
  induction s as [|c s IH]; intros n.
  - exists "". repeat split. simpl. now rewrite Nat.min_0_r.
  - simpl Str.take. rewrite is_continuation_starts.
    destruct (starts_character c) eqn:Hc; simpl negb; cbv iota.
    + destruct n as [|n].
      * exists (String c s). repeat split. exact Hc.
      * destruct (IH n) as (rest & Hs & Hn & Hrest).
        exists rest. split; [|split; [|exact Hrest]].
        -- rewrite append_cons. now f_equal.
        -- rewrite !chars_cons, Hc, Hn. reflexivity.
    + destruct (IH n) as (rest & Hs & Hn & Hrest).
      exists rest. split; [|split; [|exact Hrest]].
      * rewrite append_cons. now f_equal.
      * rewrite !chars_cons, Hc, Hn. reflexivity.
Qed.

(** The cut is unique: a text has one prefix of [n] characters that ends
    where a character ends. *)
Lemma first_characters_unique n s cut cut' :
  first_characters n s cut -> first_characters n s cut' -> cut = cut'.
Proof.
  intros (rest & Hs & Hn & Hrest) (rest' & Hs' & Hn' & Hrest').
  rewrite <- Hn' in Hn. clear Hn'. subst s. clear n.
  revert cut' rest rest' Hs' Hn Hrest Hrest'.
  induction cut as [|c cut IH]; intros cut' rest rest' Hs Hn Hrest Hrest'.
  - destruct cut' as [|c' cut']; [reflexivity|]. exfalso.
    change (rest = String c' cut' +:+ rest') in Hs. subst rest.
    rewrite append_cons in Hrest.
    rewrite chars_cons, Hrest in Hn. discriminate.
  - destruct cut' as [|c' cut'].
    + exfalso. change (String c cut +:+ rest = rest') in Hs.
      rewrite append_cons in Hs. subst rest'.
      rewrite chars_cons, Hrest' in Hn. discriminate.
    + rewrite !append_cons in Hs. injection Hs as <- Hs.
      f_equal. apply (IH cut' rest rest' Hs); [|exact Hrest|exact Hrest'].
      rewrite !chars_cons in Hn. destruct (starts_character c); lia.
Qed.

(** ** Lists *)

Lemma In_firstn {A} (x : A) n l : In x (firstn n l) -> In x l.
Proof.
  intros Hx. rewrite <- (firstn_skipn n l). apply in_or_app. now left.
Qed.

Section ReporterFacts.

Context {num : Type} `{PyNumber num}.

Abbreviation record := (gmap string (pyval num)).

(** ** The filter *)

(** The filter raises exactly when some balance is not a number. *)
Lemma filter_outstanding_numeric (tax_data : list record) :
  forallb numeric_balance tax_data = true ->
  filter_outstanding tax_data = inr (List.filter qualifying tax_data).
Proof.
  induction tax_data as [|d rest IH]; simpl; [reflexivity|].
  intros [Hd Hrest]%andb_prop. rewrite (IH Hrest).
  unfold numeric_balance, qualifying in *.
  destruct (balance_of d); try discriminate. simpl. reflexivity.
Qed.

Lemma filter_outstanding_inr (tax_data q : list record) :
  filter_outstanding tax_data = inr q ->
  forallb numeric_balance tax_data = true /\
  q = List.filter qualifying tax_data.
Proof.
  revert q; induction tax_data as [|d rest IH]; simpl; intros q Hq.
  - split; congruence.
  - unfold numeric_balance, qualifying in *.
    destruct (balance_of d) as [| |n]; simpl in Hq; try discriminate.
    destruct (filter_outstanding rest) as [e|kept]; simpl in Hq;
      [discriminate|].
    destruct (IH kept eq_refl) as [Hnum Hkept]. split; [exact Hnum|].
    injection Hq as <-. now rewrite Hkept.
Qed.

Lemma filter_outstanding_inl (tax_data : list record) e :
  filter_outstanding tax_data = inl e ->
  forallb numeric_balance tax_data = false /\ e = TypeError.
Proof.
  induction tax_data as [|d rest IH]; simpl; [discriminate|].
  unfold numeric_balance in *.
  destruct (balance_of d) as [| |n]; simpl; intros He;
    try (split; congruence).
  destruct (filter_outstanding rest) as [e'|kept]; simpl in He;
    [|discriminate].
  injection He as <-. now apply IH.
Qed.

Lemma qualifying_numeric (d : record) :
  qualifying d = true -> numeric_balance d = true.
Proof.
  unfold qualifying, numeric_balance. now destruct (balance_of d).
Qed.

Lemma filter_qualifying_numeric (l : list record) :
  Forall (fun d => numeric_balance d = true) (List.filter qualifying l).
Proof.
  apply List.Forall_forall. intros d [_ Hq]%filter_In.
  now apply qualifying_numeric.
Qed.

(** ** The sort *)

Lemma py_lt_numeric (x y : record) :
  numeric_balance x = true -> numeric_balance y = true ->
  py_lt (balance_of y) (balance_of x)
  = inr (num_ltb (balance_num y) (balance_num x)).
Proof.
  unfold numeric_balance, balance_num.
  destruct (balance_of x), (balance_of y); try discriminate. reflexivity.
Qed.

Lemma insert_by_balance_perm (x : record) l :
  Permutation (insert_by_balance x l) (x :: l).
Proof.
  induction l as [|y l IH]; simpl; [reflexivity|].
  destruct (num_ltb _ _); [|reflexivity].
  rewrite IH. apply perm_swap.
Qed.

Lemma fold_insert_perm (l : list record) :
  Permutation (fold_right insert_by_balance [] l) l.
Proof.
  induction l as [|x l IH]; simpl; [reflexivity|].
  rewrite insert_by_balance_perm. now rewrite IH.
Qed.

Lemma sorted_by_balance_perm (l : list record) :
  Permutation (sorted_by_balance l) l.
Proof.
  unfold sorted_by_balance.
  rewrite <- Permutation_rev, fold_insert_perm. symmetry. apply Permutation_rev.
Qed.

(** On records with numeric balances the comparisons of the sort never
    raise, and the sort is the insertion on numbers. *)
Lemma insert_sorted_numeric (x : record) l :
  numeric_balance x = true ->
  Forall (fun d => numeric_balance d = true) l ->
  insert_sorted (balance_of x, x) (map (fun d => (balance_of d, d)) l)
  = inr (map (fun d => (balance_of d, d)) (insert_by_balance x l)).
Proof.
  intros Hx Hl. induction Hl as [|y l Hy Hl IH]; simpl; [reflexivity|].
  rewrite (py_lt_numeric x y Hx Hy). simpl.
  destruct (num_ltb _ _); [|reflexivity].
  rewrite IH. reflexivity.
Qed.

Lemma sort_ascending_numeric (l : list record) :
  Forall (fun d => numeric_balance d = true) l ->
  sort_ascending (map (fun d => (balance_of d, d)) l)
  = inr (map (fun d => (balance_of d, d))
           (fold_right insert_by_balance [] l)).
Proof.
  intros Hl. induction Hl as [|x l Hx Hl IH]; simpl; [reflexivity|].
  rewrite IH. simpl. apply insert_sorted_numeric; [exact Hx|].
  eapply Permutation_Forall; [symmetry; apply fold_insert_perm | exact Hl].
Qed.

Lemma sort_by_balance_reverse_numeric (l : list record) :
  Forall (fun d => numeric_balance d = true) l ->
  sort_by_balance_reverse l = inr (sorted_by_balance l).
Proof.
  intros Hl. unfold sort_by_balance_reverse, sorted_by_balance.
  rewrite <- map_rev, sort_ascending_numeric.
  - simpl. rewrite <- map_rev, map_map. simpl. now rewrite map_id.
  - eapply Permutation_Forall; [apply Permutation_rev | exact Hl].
Qed.

(** *** Order and stability of the sort *)

Section Order.

Hypothesis order : StrictWeakOrder num.

(** The insertion keeps an ascending list ascending. *)
Lemma insert_by_balance_ascending (x : record) l :
  StronglySorted (fun a b => not_below b a) l ->
  StronglySorted (fun a b => not_below b a) (insert_by_balance x l).
Proof.
  intros Hs. induction Hs as [|y l Hs IH Hy]; simpl.
  - constructor; constructor.
  - destruct (num_ltb (balance_num y) (balance_num x)) eqn:Hlt.
    + constructor; [exact IH|].
      eapply Permutation_Forall;
        [symmetry; apply insert_by_balance_perm|].
      constructor; [|exact Hy].
      unfold not_below. now apply (num_lt_asym order).
    + constructor; [now constructor|].
      constructor; [exact Hlt|].
      eapply List.Forall_impl; [|exact Hy]. intros z Hz.
      unfold not_below in *.
      exact (num_le_trans order _ _ _ Hlt Hz).
Qed.

Lemma fold_insert_ascending (l : list record) :
  StronglySorted (fun a b => not_below b a)
    (fold_right insert_by_balance [] l).
Proof.
  induction l as [|x l IH]; simpl; [constructor|].
  apply insert_by_balance_ascending. exact IH.
Qed.

Lemma StronglySorted_snoc {A} (R : A -> A -> Prop) l x :
  StronglySorted R l -> Forall (fun y => R y x) l ->
  StronglySorted R (l ++ [x]).
Proof.
  intros Hs Hx. induction Hs as [|y l Hs IH Hy]; simpl.
  - constructor; constructor.
  - inversion Hx as [|? ? Hyx Hlx]; subst.
    constructor; [now apply IH|].
    apply Forall_app; split; [exact Hy | now constructor].
Qed.

Lemma StronglySorted_reverse {A} (R : A -> A -> Prop) l :
  StronglySorted (fun a b => R b a) l -> StronglySorted R (rev l).
Proof.
  induction 1 as [|y l Hs IH Hy]; simpl; [constructor|].
  apply StronglySorted_snoc; [exact IH|].
  eapply Permutation_Forall; [apply Permutation_rev | exact Hy].
Qed.

(** The sorted list is in descending order: no record stands before one
    of higher balance. *)
Lemma sorted_by_balance_descending (l : list record) :
  StronglySorted not_below (sorted_by_balance l).
Proof.
  unfold sorted_by_balance. apply StronglySorted_reverse.
  apply fold_insert_ascending.
Qed.

(** Two tied records are not separated by the order. *)
Lemma tied_not_below k (x y : record) :
  tied_with k x = true -> tied_with k y = true ->
  num_ltb (balance_num y) (balance_num x) = false.
Proof.
  unfold tied_with.
  intros [Hx1 Hx2]%andb_prop [Hy1 Hy2]%andb_prop.
  apply negb_true_iff in Hx1, Hx2, Hy1, Hy2.
  exact (num_le_trans order _ _ _ Hx2 Hy1).
Qed.

Lemma insert_by_balance_stable k (x : record) l :
  List.filter (tied_with k) (insert_by_balance x l)
  = List.filter (tied_with k) (x :: l).
Proof.
  induction l as [|y l IH]; [reflexivity|].
  simpl insert_by_balance.
  destruct (num_ltb (balance_num y) (balance_num x)) eqn:Hlt;
    [|reflexivity].
  change (List.filter (tied_with k) (y :: insert_by_balance x l))
    with (if tied_with k y
          then y :: List.filter (tied_with k) (insert_by_balance x l)
          else List.filter (tied_with k) (insert_by_balance x l)).
  rewrite IH. simpl.
  destruct (tied_with k x) eqn:Hx, (tied_with k y) eqn:Hy; try reflexivity.
  rewrite (tied_not_below k x y Hx Hy) in Hlt. discriminate.
Qed.

Lemma fold_insert_stable k (l : list record) :
  List.filter (tied_with k) (fold_right insert_by_balance [] l)
  = List.filter (tied_with k) l.
Proof.
  induction l as [|x l IH]; [reflexivity|].
  simpl fold_right. rewrite insert_by_balance_stable. simpl.
  now rewrite IH.
Qed.

(** The sort is stable: the records tied at a balance keep the order they
    had before the sort. *)
Lemma sorted_by_balance_stable k (l : list record) :
  List.filter (tied_with k) (sorted_by_balance l)
  = List.filter (tied_with k) l.
Proof.
  unfold sorted_by_balance.
  rewrite filter_rev, fold_insert_stable, filter_rev. apply rev_involutive.
Qed.

End Order.

(** ** The report *)

Lemma sum_balances_numeric (l : list record) :
  Forall (fun d => numeric_balance d = true) l ->
  sum_balances l = inr (num_sum (map balance_num l)).
Proof.
  intros Hl. unfold sum_balances.
  assert (Hmap : res_mapM (fun d => py_as_num (balance_of d)) l
                 = inr (map balance_num l)).
  { induction Hl as [|d l Hd Hl IH]; simpl; [reflexivity|].
    rewrite IH. unfold numeric_balance, balance_num in *.
    destruct (balance_of d); try discriminate. reflexivity. }
  rewrite Hmap. reflexivity.
Qed.

Lemma format_balance_numeric (d : record) :
  numeric_balance d = true ->
  py_format_2f (py_get d "balance" (PyNum num_zero))
  = match num_format (balance_num d) with
    | Some text => inr text
    | None => inl OverflowError
    end.
Proof.
  unfold numeric_balance, balance_num, balance_of.
  destruct (py_get d "balance" (PyNum num_zero)); try discriminate.
  reflexivity.
Qed.

Lemma format_printable (n : num) :
  printable n = true ->
  exists text, num_format n = Some text /\ py_format_2f (PyNum n) = inr text.
Proof.
  unfold printable. simpl. destruct (num_format n) as [text|];
    [eauto | discriminate].
Qed.

Lemma format_inr (n : num) text :
  py_format_2f (PyNum n) = inr text -> num_format n = Some text.
Proof.
  simpl. destruct (num_format n); [now intros [= ->] | discriminate].
Qed.

(** *** The text of the report *)

Lemma separator_text : separator = ruler +:+ newline.
Proof. reflexivity. Qed.

Lemma table_head_text :
  table_head =
  "```" +:+ newline +:+
  "User                 Main Character                    Balance" +:+
  newline +:+ ruler +:+ newline.
Proof. reflexivity. Qed.

Lemma total_line_text total :
  total_line total =
  "TOTAL" +:+ spaces 40 +:+ " " +:+ right_aligned 13 total +:+ "M" +:+
  newline.
Proof.
  unfold total_line. rewrite ljust_left_aligned, rjust_right_aligned.
  unfold left_aligned. rewrite !append_assoc. reflexivity.
Qed.

Lemma overflow_line_text n :
  overflow_line n =
  newline +:+ "... and " +:+ str_of_nat n +:+ " more users" +:+ newline.
Proof. reflexivity. Qed.

Lemma row_text_is_row u m a :
  is_row u m a (row_text (Str.take 19 u) (Str.take 24 m) a).
Proof.
  exists (Str.take 19 u), (Str.take 24 m).
  split; [apply take_first_characters|].
  split; [apply take_first_characters|].
  unfold row_text. now rewrite !ljust_left_aligned, rjust_right_aligned.
Qed.

(** What a row is made of. *)
Lemma render_row_inr (d : record) row :
  render_row d = inr row ->
  exists u m n a,
    py_get d "username" (PyStr "Unknown") = PyStr u /\
    py_get d "main_character" (PyStr "N/A") = PyStr m /\
    py_get d "balance" (PyNum num_zero) = PyNum n /\
    num_format n = Some a /\
    row = row_text (Str.take 19 u) (Str.take 24 m) a.
Proof.
  unfold render_row. intros Hrow.
  destruct (py_get d "username" (PyStr "Unknown")) as [|u|];
    try discriminate.
  destruct (py_get d "main_character" (PyStr "N/A")) as [|m|];
    try discriminate.
  destruct (py_get d "balance" (PyNum num_zero)) as [| |n];
    try discriminate.
  cbn [py_slice res_bind py_format_2f] in Hrow.
  destruct (num_format n) as [a|] eqn:Ha; [|discriminate].
  cbn [res_bind] in Hrow. injection Hrow as <-.
  exists u, m, n, a. repeat split. exact Ha.
Qed.

(** A row that is rendered is the row of the record, as the
    specification describes it. *)
Lemma render_row_table_row (d : record) row :
  render_row d = inr row -> table_row d row.
Proof.
  intros (u & m & n & a & Hu & Hm & Hn & Ha & ->)%render_row_inr.
  exists u, m, a. unfold shown_text, shown_amount, py_get in *.
  destruct (d !! "username") as [[]|]; try discriminate;
    destruct (d !! "main_character") as [[]|]; try discriminate;
    destruct (d !! "balance") as [[]|]; try discriminate;
    simpl in Hu, Hm, Hn; injection Hu as Hu; injection Hm as Hm;
    injection Hn as Hn; subst;
    repeat split; try assumption; apply row_text_is_row.
Qed.

(** The row of a record without name starts with the placeholder in its
    column. *)
Lemma is_row_unknown m a row :
  is_row "Unknown" m a row ->
  exists rest, row = "Unknown" +:+ spaces 13 +:+ " " +:+ rest.
Proof.
  intros (name & main & Hname & _ & ->).
  rewrite (first_characters_unique _ _ _ _ Hname
             (take_first_characters 19 "Unknown")).
  change (Str.take 19 "Unknown") with "Unknown".
  unfold left_aligned at 1. change (20 - chars "Unknown") with 13.
  rewrite !append_assoc. eauto.
Qed.

Lemma is_row_no_main u a row :
  is_row u "N/A" a row ->
  exists name rest,
    chars name = 20 /\
    row = name +:+ " " +:+ "N/A" +:+ spaces 22 +:+ " " +:+ rest.
Proof.
  intros (name & main & (r & _ & Hname & _) & Hmain & ->).
  rewrite (first_characters_unique _ _ _ _ Hmain
             (take_first_characters 24 "N/A")).
  change (Str.take 24 "N/A") with "N/A".
  exists (left_aligned 20 name). eexists. split.
  - rewrite chars_left_aligned, Hname. lia.
  - unfold left_aligned at 2. change (25 - chars "N/A") with 22.
    rewrite !append_assoc. reflexivity.
Qed.

(** The loop appends one row per record, in order. *)
Lemma render_rows_inr (rows : list record) acc description :
  render_rows acc rows = inr description ->
  exists texts,
    Forall2 (fun d t => render_row d = inr t) rows texts /\
    description = acc +:+ Str.concat texts.
Proof.
  revert acc; induction rows as [|d rows IH]; simpl; intros acc Hr.
  - exists []. split; [constructor|].
    injection Hr as <-. simpl. now rewrite append_empty_r.
  - destruct (render_row d) as [e|row] eqn:Hrow; simpl in Hr;
      [discriminate|].
    destruct (IH _ Hr) as (texts & Hall & ->).
    exists (row :: texts). split; [now constructor|].
    simpl. apply append_assoc.
Qed.

Lemma render_row_well_formed (d : record) :
  well_formed d = true -> exists row, render_row d = inr row.
Proof.
  unfold well_formed. intros [[[Hu Hm]%andb_prop Hb]%andb_prop Hp]%andb_prop.
  unfold render_row. rewrite (format_balance_numeric d Hb).
  unfold printable in Hp.
  destruct (num_format (balance_num d)) as [text|]; [|discriminate].
  unfold py_get, str_or_absent in *.
  destruct (d !! "username") as [[]|]; try discriminate;
    destruct (d !! "main_character") as [[]|]; try discriminate;
    simpl; eauto.
Qed.

Lemma render_rows_well_formed (rows : list record) acc :
  Forall (fun d => well_formed d = true) rows ->
  exists description, render_rows acc rows = inr description.
Proof.
  intros Hwf. revert acc.
  induction Hwf as [|d rows Hd Hwf IH]; simpl; intros acc; [eauto|].
  destruct (render_row_well_formed d Hd) as [row ->]. simpl. apply IH.
Qed.

Lemma concat_string_concat (texts : list string) :
  Str.concat texts = String.concat "" texts.
Proof.
  induction texts as [|t texts IH]; [reflexivity|].
  simpl Str.concat. rewrite IH.
  destruct texts as [|t' texts]; [apply append_empty_r|reflexivity].
Qed.

(** The shape of the description: the head of the table, the rows of the
    first 25 records, the overflow line when there are more, the closing
    separator, the total line and the closing fence. *)
Lemma render_description_inr (outstanding : list record) total description :
  render_description outstanding total = inr description ->
  exists texts shown,
    Forall2 (fun d t => render_row d = inr t) (firstn 25 outstanding) texts /\
    num_format total = Some shown /\
    description =
      table_head +:+ Str.concat texts +:+
      (if (25 <? length outstanding)%nat
       then overflow_line (length outstanding - 25) else "") +:+
      separator +:+ total_line shown +:+ "```".
Proof.
  unfold render_description. intros Hd.
  destruct (render_rows table_head (firstn 25 outstanding)) as [e|rows]
    eqn:Hrows; simpl in Hd; [discriminate|].
  destruct (render_rows_inr _ _ _ Hrows) as (texts & Hall & ->).
  destruct (num_format total) as [shown|] eqn:Hshown; [|discriminate].
  exists texts, shown. split; [exact Hall|]. split; [reflexivity|].
  simpl in Hd. injection Hd as <-.
  destruct (25 <? length outstanding)%nat; rewrite !append_assoc;
    reflexivity.
Qed.

(** The fields: the summary, and the top debtors when there are three
    records or more. *)
Lemma build_fields_inr (outstanding : list record) total fields :
  build_fields outstanding total = inr fields ->
  exists shown,
    num_format total = Some shown /\
    match outstanding with
    | d1 :: d2 :: d3 :: _ =>
        exists lines,
          debtor_lines 0 [d1; d2; d3] = inr lines /\
          fields = [summary_field (length outstanding) shown;
                    top_debtors_field (Str.join Str.nl lines)]
    | _ => fields = [summary_field (length outstanding) shown]
    end.
Proof.
  unfold build_fields. intros Hfields.
  destruct (py_format_2f (PyNum total)) as [e|shown] eqn:Hshown;
    [discriminate|].
  apply format_inr in Hshown. cbn [res_bind] in Hfields.
  exists shown. split; [exact Hshown|].
  destruct outstanding as [|d1 [|d2 [|d3 rest]]];
    try (injection Hfields as <-; reflexivity).
  change (3 <=? length (d1 :: d2 :: d3 :: rest))%nat with true in Hfields.
  change (firstn 3 (d1 :: d2 :: d3 :: rest)) with [d1; d2; d3] in Hfields.
  cbv beta iota in Hfields.
  destruct (debtor_lines 0 [d1; d2; d3]) as [e|lines];
    cbn [res_bind] in Hfields; [discriminate|].
  injection Hfields as <-. eauto.
Qed.

(** A line of the top debtors, for a record whose name is a str or
    absent. *)
Lemma debtor_lines_inr i (d : record) rest lines :
  debtor_lines i (d :: rest) = inr lines ->
  str_or_absent d "username" = true ->
  exists line lines',
    lines = line :: lines' /\
    debtor_line (str_of_nat (i + 1)) d line /\
    debtor_lines (S i) rest = inr lines'.
Proof.
  simpl. unfold debtor_line, shown_text, shown_amount, str_or_absent, py_get.
  intros Hlines Hname.
  destruct (d !! "balance") as [[| |n]|]; try discriminate; simpl in Hlines;
    match type of Hlines with
    | context [num_format ?x] =>
        destruct (num_format x) as [amount|]; [|discriminate]
    end;
    simpl in Hlines;
    destruct (debtor_lines (S i) rest) as [e|lines']; try discriminate;
    simpl in Hlines; injection Hlines as <-;
    destruct (d !! "username") as [[|username|]|]; try discriminate;
    simpl; eexists _, lines'; (split; [reflexivity|]);
    (split; [|reflexivity]); eexists _, amount; repeat split.
Qed.

Lemma render_row_name (d : record) row :
  render_row d = inr row -> str_or_absent d "username" = true.
Proof.
  unfold render_row, str_or_absent, py_get.
  now destruct (d !! "username") as [[]|].
Qed.

Lemma outstanding_of_numeric (tax_data : list record) :
  Forall (fun d => numeric_balance d = true) (outstanding_of tax_data).
Proof.
  eapply Permutation_Forall;
    [symmetry; apply sorted_by_balance_perm
    | apply filter_qualifying_numeric].
Qed.

Lemma outstanding_of_length (tax_data : list record) :
  length (outstanding_of tax_data)
  = length (List.filter qualifying tax_data).
Proof. apply Permutation_length, sorted_by_balance_perm. Qed.

(** What [build_report] returns when it does not raise: nothing for an
    input without qualifying record, and otherwise the report of the
    sorted qualifying records. *)
Lemma build_report_inr (tax_data : list record) r :
  build_report tax_data = inr r ->
  forallb numeric_balance tax_data = true /\
  match r with
  | None => List.filter qualifying tax_data = []
  | Some rep =>
      List.filter qualifying tax_data <> [] /\
      rep_total_outstanding rep
      = num_sum (map balance_num (outstanding_of tax_data)) /\
      rep_total_users rep = length (outstanding_of tax_data) /\
      render_description (outstanding_of tax_data) (rep_total_outstanding rep)
      = inr (rep_description rep) /\
      build_fields (outstanding_of tax_data) (rep_total_outstanding rep)
      = inr (rep_fields rep)
  end.
Proof.
  unfold build_report. intros Hb.
  destruct (filter_outstanding tax_data) as [e|q] eqn:Hq; simpl in Hb;
    [discriminate|].
  destruct (filter_outstanding_inr _ _ Hq) as [Hnum ->].
  split; [exact Hnum|].
  destruct (List.filter qualifying tax_data) as [|d q] eqn:Hf.
  - injection Hb as <-. reflexivity.
  - rewrite <- Hf in Hb.
    rewrite (sort_by_balance_reverse_numeric _
               (filter_qualifying_numeric tax_data)) in Hb.
    fold (outstanding_of tax_data) in Hb. simpl in Hb.
    rewrite (sum_balances_numeric _ (outstanding_of_numeric tax_data)) in Hb.
    simpl in Hb.
    destruct (render_description _ _) as [e|description] eqn:Hd;
      simpl in Hb; [discriminate|].
    destruct (build_fields _ _) as [e|fields] eqn:Hfields; simpl in Hb;
      [discriminate|].
    injection Hb as <-. simpl.
    repeat split; try reflexivity; try assumption. discriminate.
Qed.

Lemma build_report_nothing (tax_data : list record) :
  forallb numeric_balance tax_data = true ->
  List.filter qualifying tax_data = [] ->
  build_report tax_data = inr None.
Proof.
  intros Hnum Hf. unfold build_report.
  rewrite (filter_outstanding_numeric _ Hnum), Hf. reflexivity.
Qed.

(** A raising filter is the only way to raise without a qualifying record
    having been found: the report then is not built. *)
Lemma build_report_not_numeric (tax_data : list record) :
  forallb numeric_balance tax_data = false ->
  build_report tax_data = inl TypeError.
Proof.
  intros Hnum. unfold build_report.
  destruct (filter_outstanding tax_data) as [e|q] eqn:Hq.
  - apply filter_outstanding_inl in Hq as [_ ->]. reflexivity.
  - apply filter_outstanding_inr in Hq as [Hq _]. congruence.
Qed.

Lemma debtor_lines_well_formed i (l : list record) :
  Forall (fun d => well_formed d = true) l ->
  exists lines, debtor_lines i l = inr lines.
Proof.
  intros Hwf. revert i.
  induction Hwf as [|d l Hd Hwf IH]; intros i; simpl; [eauto|].
  unfold well_formed in Hd.
  apply andb_prop in Hd as [[_ Hb]%andb_prop Hp].
  rewrite (format_balance_numeric d Hb). unfold printable in Hp.
  destruct (num_format (balance_num d)); [|discriminate]. simpl.
  destruct (IH (S i)) as [lines ->]. simpl. eauto.
Qed.

(** On records of the documented shape, with a total that can be
    printed, the report is always built. *)
Lemma build_report_well_formed (tax_data : list record) :
  Forall (fun d => well_formed d = true) tax_data ->
  printable (num_sum (map balance_num (outstanding_of tax_data))) = true ->
  exists r, build_report tax_data = inr r.
Proof.
  intros Hwf Htotal.
  assert (Hnum : forallb numeric_balance tax_data = true).
  { apply forallb_forall. intros d Hd.
    eapply List.Forall_forall in Hwf; [|exact Hd].
    unfold well_formed in Hwf.
    now apply andb_prop in Hwf as [[_ ?]%andb_prop _]. }
  unfold build_report. rewrite (filter_outstanding_numeric _ Hnum).
  cbn [res_bind].
  destruct (List.filter qualifying tax_data) as [|d q] eqn:Hf; [eauto|].
  rewrite <- Hf.
  rewrite (sort_by_balance_reverse_numeric _
             (filter_qualifying_numeric tax_data)).
  fold (outstanding_of tax_data). cbn [res_bind].
  rewrite (sum_balances_numeric _ (outstanding_of_numeric tax_data)).
  cbn [res_bind].
  assert (Hwf' : Forall (fun d => well_formed d = true)
                   (outstanding_of tax_data)).
  { apply List.Forall_forall. intros x Hx.
    eapply Permutation_in in Hx; [|apply sorted_by_balance_perm].
    apply filter_In in Hx as [Hx _].
    eapply List.Forall_forall in Hwf; eauto. }
  destruct (format_printable _ Htotal) as (shown & Hshown & Hformat).
  unfold render_description.
  destruct (render_rows_well_formed (firstn 25 (outstanding_of tax_data))
              table_head) as [rows ->].
  { apply List.Forall_forall. intros x Hx%In_firstn.
    eapply List.Forall_forall in Hwf'; eauto. }
  cbn [res_bind]. rewrite Hformat. cbn [res_bind].
  unfold build_fields. rewrite Hformat. cbn [res_bind].
  destruct (3 <=? length (outstanding_of tax_data))%nat; [|eauto].
  destruct (debtor_lines_well_formed 0 (firstn 3 (outstanding_of tax_data)))
    as [lines ->]; [|cbn [res_bind]; eauto].
  apply List.Forall_forall. intros x Hx%In_firstn.
  eapply List.Forall_forall in Hwf'; eauto.
Qed.

(** With a qualifying record among records of the documented shape, a
    report is built. *)
Lemma build_report_reports (tax_data : list record) :
  Forall (fun d => well_formed d = true) tax_data ->
  printable (num_sum (map balance_num (outstanding_of tax_data))) = true ->
  List.filter qualifying tax_data <> [] ->
  exists rep, build_report tax_data = inr (Some rep).
Proof.
  intros Hwf Htotal Hsome.
  destruct (build_report_well_formed _ Hwf Htotal) as [[rep|] Hrep];
    [eauto|].
  apply build_report_inr in Hrep as [_ Hnone]. contradiction.
Qed.

(** ** Runs of the function *)

Lemma bind_lift {A B} (r : Res A) (k : A -> M num B) :
  bind (lift r) k
  = match r return M num B with inl e => raise e | inr a => k a end.
Proof.
  unfold bind, lift. destruct r as [e|a]; [reflexivity|].
  now destruct (k a).
Qed.

(** The body of the outer [try], by the outcome of [build_report]. *)
Lemma send_body_eq (w : Env) url (tax_data : list record) chan :
  send_body w url tax_data chan =
  match build_report tax_data with
  | inl e => raise e
  | inr None => ret (Some true)
  | inr (Some rep) => dispatch w url chan rep
  end.
Proof.
  unfold send_body. rewrite bind_lift.
  now destruct (build_report tax_data) as [e|[rep|]].
Qed.

(** The webhook path: one request, then the log line of its outcome. *)
Lemma send_via_webhook_eq (w : Env) u (rep : report num) :
  send_via_webhook w u rep =
  match http_post w u (report_payload w rep) with
  | None => ([HttpPost u (report_payload w rep)], inl RequestException)
  | Some status =>
      if status_ok status
      then ([HttpPost u (report_payload w rep);
             Log (LogSent (rep_total_users rep) (rep_total_outstanding rep))],
            inr true)
      else ([HttpPost u (report_payload w rep);
             Log (LogPostFailed status)],
            inr false)
  end.
Proof.
  unfold send_via_webhook. cbv zeta.
  destruct (http_post w u (report_payload w rep)) as [status|];
    [|reflexivity].
  now destruct (status_ok status).
Qed.

(** The bot path, when the library is there. *)
Lemma send_via_bot_eq (w : Env) chan (rep : report num) send_message :
  bot w = Some send_message ->
  send_via_bot w chan rep =
  match py_int w chan with
  | inl e => raise e
  | inr c =>
      match send_message c (report_embed w rep) with
      | None =>
          ([BotMessage c (report_embed w rep);
            Log (LogQueued (rep_total_users rep)
                   (rep_total_outstanding rep))],
           inr true)
      | Some x => ([BotMessage c (report_embed w rep)], inl x)
      end
  end.
Proof.
  intros Hbot. unfold send_via_bot. rewrite Hbot. cbv zeta.
  destruct (py_int w chan) as [e|c]; [reflexivity|].
  simpl. now destruct (send_message c (report_embed w rep)).
Qed.

(** [int(channel_id)] raises [ValueError] or [TypeError], which the inner
    handler does not catch. *)
Lemma py_int_not_import_error (w : Env) chan e :
  py_int w chan = inl e -> is_import_error e = false.
Proof.
  destruct chan as [|z|s]; simpl; try destruct (int_of_str w s);
    intros [= <-]; reflexivity.
Qed.

Lemma bind_prefix {A B} evs (m : M num A) (k : A -> M num B) :
  bind (let '(evs', r) := m in (evs ++ evs', r)) k
  = let '(evs', r) := bind m k in (evs ++ evs', r).
Proof.
  destruct m as [evs1 [e|a]]; simpl; [reflexivity|].
  destruct (k a) as [evs2 r]. now rewrite app_assoc.
Qed.

(** The fallback: the log line, then the webhook path if there is a
    webhook, and [False] after a second log line if there is none. *)
Lemma fallback_eq (w : Env) url (rep : report num) :
  fallback w url rep =
  match url with
  | Some u =>
      if url_truthy url then
        let '(evs, r) := send_via_webhook w u rep in
        (Log LogBotUnavailable :: evs,
         match r with inl e => inl e | inr b => inr (Some b) end)
      else ([Log LogBotUnavailable; Log LogNoFallback], inr (Some false))
  | None => ([Log LogBotUnavailable; Log LogNoFallback], inr (Some false))
  end.
Proof.
  unfold fallback, bot_unavailable.
  destruct url as [u|]; [|reflexivity].
  destruct (url_truthy (Some u)); [|reflexivity]. simpl.
  destruct (send_via_webhook w u rep) as [evs [e|b]]; simpl;
    rewrite ?app_nil_r; reflexivity.
Qed.

(** With a channel and the bot library, [dispatch] is the bot path; an
    [ImportError] of [send_message] leads to the fallback, after the
    call. *)
Lemma dispatch_bot (w : Env) url chan (rep : report num) send_message :
  chan_truthy chan = true -> bot w = Some send_message ->
  dispatch w url chan rep =
  match py_int w chan with
  | inl e => raise e
  | inr c =>
      match send_message c (report_embed w rep) with
      | None =>
          ([BotMessage c (report_embed w rep);
            Log (LogQueued (rep_total_users rep)
                   (rep_total_outstanding rep))],
           inr (Some true))
      | Some x =>
          if is_import_error x then
            let '(evs, r) := fallback w url rep in
            (BotMessage c (report_embed w rep) :: evs, r)
          else ([BotMessage c (report_embed w rep)], inl x)
      end
  end.
Proof.
  intros Hchan Hbot. unfold dispatch.
  rewrite Hchan, (send_via_bot_eq _ _ _ _ Hbot).
  destruct (py_int w chan) as [e|c] eqn:Hint.
  - apply py_int_not_import_error in Hint.
    unfold try_except, bind, raise. now rewrite Hint.
  - destruct (send_message c (report_embed w rep)) as [x|];
      [|reflexivity].
    unfold try_except at 1. unfold bind at 2.
    destruct (is_import_error x); [|reflexivity].
    rewrite bind_prefix. reflexivity.
Qed.

(** With a channel but without the bot library, [dispatch] is the
    fallback. *)
Lemma dispatch_no_bot (w : Env) url chan (rep : report num) :
  chan_truthy chan = true -> bot w = None ->
  dispatch w url chan rep = fallback w url rep.
Proof.
  intros Hchan Hbot. unfold dispatch, fallback, send_via_bot.
  rewrite Hchan, Hbot. f_equal.
  unfold try_except, bind, raise. simpl.
  now destruct (bot_unavailable url).
Qed.

Lemma dispatch_fallback (w : Env) u chan (rep : report num) :
  chan_truthy chan = true -> bot w = None -> url_truthy (Some u) = true ->
  dispatch w (Some u) chan rep =
  let '(evs, r) := send_via_webhook w u rep in
  (Log LogBotUnavailable :: evs,
   match r with inl e => inl e | inr b => inr (Some b) end).
Proof.
  intros Hchan Hbot Hurl.
  now rewrite (dispatch_no_bot _ _ _ _ Hchan Hbot), fallback_eq, Hurl.
Qed.

Lemma dispatch_no_fallback (w : Env) url chan (rep : report num) :
  chan_truthy chan = true -> bot w = None -> url_truthy url = false ->
  dispatch w url chan rep
  = ([Log LogBotUnavailable; Log LogNoFallback], inr (Some false)).
Proof.
  intros Hchan Hbot Hurl.
  rewrite (dispatch_no_bot _ _ _ _ Hchan Hbot), fallback_eq, Hurl.
  now destruct url.
Qed.

(** Without a channel, [dispatch] is the webhook path. *)
Lemma dispatch_webhook (w : Env) u chan (rep : report num) :
  chan_truthy chan = false -> url_truthy (Some u) = true ->
  dispatch w (Some u) chan rep =
  let '(evs, r) := send_via_webhook w u rep in
  (evs, match r with inl e => inl e | inr b => inr (Some b) end).
Proof.
  intros Hchan Hurl. unfold dispatch. rewrite Hchan, Hurl. simpl.
  destruct (send_via_webhook w u rep) as [evs [e|b]]; simpl;
    rewrite ?app_nil_r; reflexivity.
Qed.

(** The whole function: the guard, then the body under the handler of
    the outer [try]. *)
Lemma send_eq (w : Env) url (tax_data : list record) chan :
  send_corp_tax_summary w url tax_data chan =
  if no_destination_or_no_data url tax_data chan then ([], inr (Some false))
  else
    match send_body w url tax_data chan with
    | (evs, inl e) => (evs ++ [Log (LogError e)], inr (Some false))
    | (evs, inr r) => (evs, inr r)
    end.
Proof.
  unfold send_corp_tax_summary.
  destruct (no_destination_or_no_data url tax_data chan); [reflexivity|].
  unfold try_except.
  now destruct (send_body w url tax_data chan) as [evs [e|r]].
Qed.

(** The guard returns [False] without any event. *)
Lemma send_guarded (w : Env) url (tax_data : list record) chan :
  no_destination_or_no_data url tax_data chan = true ->
  send_corp_tax_summary w url tax_data chan = ([], inr (Some false)).
Proof. intros Hguard. now rewrite send_eq, Hguard. Qed.

(** Only the truth value of a falsy [channel_id] matters. *)
Lemma dispatch_falsy_channel (w : Env) url chan (rep : report num) :
  chan_truthy chan = false ->
  dispatch w url chan rep = dispatch w url ChanNone rep.
Proof. intros Hchan. unfold dispatch. now rewrite Hchan. Qed.

(** The fallback ends in a [return] of a bool or in an exception when a
    webhook is given, and in [return False] when none is. *)
Lemma fallback_returns_bool (w : Env) url (rep : report num) :
  snd (fallback w url rep) <> inr None.
Proof.
  rewrite fallback_eq. destruct url as [u|]; [|discriminate].
  destruct (url_truthy (Some u)); [|discriminate].
  destruct (send_via_webhook w u rep) as [evs [e|b]]; discriminate.
Qed.

(** Past the guard, [dispatch] ends in a [return] of a bool or in an
    exception, never at the end of the function. *)
Lemma dispatch_returns_bool (w : Env) url (tax_data : list record) chan
    (rep : report num) :
  no_destination_or_no_data url tax_data chan = false ->
  snd (dispatch w url chan rep) <> inr None.
Proof.
  unfold no_destination_or_no_data. intros Hguard.
  apply orb_false_iff in Hguard as [Hdest _].
  destruct (chan_truthy chan) eqn:Hchan.
  - destruct (bot w) as [send_message|] eqn:Hbot.
    + rewrite (dispatch_bot _ _ _ _ _ Hchan Hbot).
      destruct (py_int w chan) as [e|c]; [discriminate|].
      destruct (send_message c (report_embed w rep)) as [x|];
        [|discriminate].
      destruct (is_import_error x); [|discriminate].
      pose proof (fallback_returns_bool w url rep) as Hfall.
      now destruct (fallback w url rep).
    + rewrite (dispatch_no_bot _ _ _ _ Hchan Hbot).
      apply fallback_returns_bool.
  - destruct (url_truthy url) eqn:Hurl; [|discriminate].
    destruct url as [u|]; [|discriminate].
    rewrite (dispatch_webhook _ _ _ _ Hchan Hurl).
    destruct (send_via_webhook w u rep) as [evs [e|b]]; discriminate.
Qed.

(** The function always returns a bool. *)
Lemma send_returns_bool (w : Env) url (tax_data : list record) chan :
  exists b,
    snd (send_corp_tax_summary w url tax_data chan) = inr (Some b).
Proof.
  rewrite send_eq.
  destruct (no_destination_or_no_data url tax_data chan) eqn:Hguard;
    [now exists false|].
  destruct (send_body w url tax_data chan) as [evs [e|[b|]]] eqn:Hbody;
    simpl; eauto.
  exfalso. rewrite send_body_eq in Hbody.
  destruct (build_report tax_data) as [e|[rep|]]; try discriminate.
  apply (dispatch_returns_bool w url tax_data chan rep Hguard).
  now rewrite Hbody.
Qed.

(** When the webhook path returns [False], its last event is the
    warning. *)
Lemma send_via_webhook_false_logged (w : Env) u (rep : report num) before :
  snd (send_via_webhook w u rep) = inr false ->
  exists evs ev,
    before ++ fst (send_via_webhook w u rep) = evs ++ [ev] /\
    is_failure_log ev = true.
Proof.
  rewrite send_via_webhook_eq.
  destruct (http_post w u (report_payload w rep)) as [status|];
    [|discriminate].
  destruct (status_ok status); [discriminate|]. intros _.
  exists (before ++ [HttpPost u (report_payload w rep)]),
    (Log (LogPostFailed status)).
  split; [|reflexivity]. now rewrite <- app_assoc.
Qed.

Lemma fallback_false_logged (w : Env) url (rep : report num) before :
  snd (fallback w url rep) = inr (Some false) ->
  exists evs ev,
    before ++ fst (fallback w url rep) = evs ++ [ev] /\
    is_failure_log ev = true.
Proof.
  rewrite fallback_eq.
  assert (Hnone : exists evs ev,
    before ++ [Log LogBotUnavailable; Log LogNoFallback] = evs ++ [ev] /\
    is_failure_log ev = true).
  { exists (before ++ [Log LogBotUnavailable]), (Log LogNoFallback).
    split; [|reflexivity]. now rewrite <- app_assoc. }
  destruct url as [u|]; [|intros _; exact Hnone].
  destruct (url_truthy (Some u)); [|intros _; exact Hnone].
  pose proof (send_via_webhook_false_logged w u rep
                (before ++ [Log LogBotUnavailable])) as Hweb.
  destruct (send_via_webhook w u rep) as [evs [e|b]]; simpl in *;
    [discriminate|].
  intros [= ->]. destruct (Hweb eq_refl) as (evs' & ev & Hevs & Hev).
  exists evs', ev. split; [|exact Hev].
  rewrite <- Hevs, <- app_assoc. reflexivity.
Qed.

(** When [dispatch] returns [False], its last event is the log line of
    the failure. *)
Lemma dispatch_false_logged (w : Env) url chan (rep : report num) :
  snd (dispatch w url chan rep) = inr (Some false) ->
  exists evs ev,
    fst (dispatch w url chan rep) = evs ++ [ev] /\ is_failure_log ev = true.
Proof.
  destruct (chan_truthy chan) eqn:Hchan.
  - destruct (bot w) as [send_message|] eqn:Hbot.
    + rewrite (dispatch_bot _ _ _ _ _ Hchan Hbot).
      destruct (py_int w chan) as [e|c]; [discriminate|].
      destruct (send_message c (report_embed w rep)) as [x|];
        [|discriminate].
      destruct (is_import_error x); [|discriminate].
      pose proof (fallback_false_logged w url rep
                    [BotMessage c (report_embed w rep)]) as Hfall.
      destruct (fallback w url rep) as [evs r]. exact Hfall.
    + rewrite (dispatch_no_bot _ _ _ _ Hchan Hbot).
      apply (fallback_false_logged w url rep []).
  - destruct url as [u|]; [destruct (url_truthy (Some u)) eqn:Hurl|].
    + rewrite (dispatch_webhook _ _ _ _ Hchan Hurl).
      pose proof (send_via_webhook_false_logged w u rep []) as Hweb.
      destruct (send_via_webhook w u rep) as [evs [e|b]]; simpl in *;
        [discriminate|].
      intros [= ->]. now apply Hweb.
    + unfold dispatch. rewrite Hchan, Hurl. discriminate.
    + unfold dispatch. rewrite Hchan. discriminate.
Qed.

(** *** The outbound calls of a run *)

Lemma http_posts_outbound (evs : list (event num)) :
  http_posts evs = List.filter is_http_post (outbound evs).
Proof.
  induction evs as [|[c e|u p|r] evs IH]; simpl; try (now rewrite IH).
  reflexivity.
Qed.

Lemma bot_messages_outbound (evs : list (event num)) :
  bot_messages evs = List.filter is_bot_message (outbound evs).
Proof.
  induction evs as [|[c e|u p|r] evs IH]; simpl; try (now rewrite IH).
  reflexivity.
Qed.

Lemma outbound_app (evs evs' : list (event num)) :
  outbound (evs ++ evs') = outbound evs ++ outbound evs'.
Proof. apply List.filter_app. Qed.

Lemma send_via_webhook_outbound (w : Env) u (rep : report num) :
  outbound (fst (send_via_webhook w u rep))
  = [HttpPost u (report_payload w rep)].
Proof.
  rewrite send_via_webhook_eq.
  destruct (http_post w u (report_payload w rep)) as [status|];
    [|reflexivity].
  now destruct (status_ok status).
Qed.

Lemma fallback_outbound (w : Env) url (rep : report num) :
  outbound (fst (fallback w url rep)) = webhook_calls w url rep.
Proof.
  rewrite fallback_eq. unfold webhook_calls.
  destruct url as [u|]; [|reflexivity].
  destruct (url_truthy (Some u)); [|reflexivity].
  pose proof (send_via_webhook_outbound w u rep) as Hout.
  destruct (send_via_webhook w u rep) as [evs r]. exact Hout.
Qed.

(** The outbound calls of [dispatch].  With a channel and the bot
    library: the bot message, when [int(channel_id)] succeeds, followed
    by the request to the webhook only when [send_message] raises an
    [ImportError].  Otherwise: the request to the webhook, if there is
    one. *)
Lemma dispatch_outbound (w : Env) url chan (rep : report num) :
  outbound (fst (dispatch w url chan rep)) =
  if chan_truthy chan then
    match bot w with
    | Some send_message =>
        match py_int w chan with
        | inr c =>
            BotMessage c (report_embed w rep) ::
            match send_message c (report_embed w rep) with
            | Some x =>
                if is_import_error x then webhook_calls w url rep else []
            | None => []
            end
        | inl _ => []
        end
    | None => webhook_calls w url rep
    end
  else webhook_calls w url rep.
Proof.
  destruct (chan_truthy chan) eqn:Hchan.
  - destruct (bot w) as [send_message|] eqn:Hbot.
    + rewrite (dispatch_bot _ _ _ _ _ Hchan Hbot).
      destruct (py_int w chan) as [e|c]; [reflexivity|].
      destruct (send_message c (report_embed w rep)) as [x|];
        [|reflexivity].
      destruct (is_import_error x); [|reflexivity].
      pose proof (fallback_outbound w url rep) as Hout.
      destruct (fallback w url rep) as [evs r]. simpl in *.
      now rewrite Hout.
    + rewrite (dispatch_no_bot _ _ _ _ Hchan Hbot).
      apply fallback_outbound.
  - unfold webhook_calls. destruct url as [u|].
    + destruct (url_truthy (Some u)) eqn:Hurl.
      * rewrite (dispatch_webhook _ _ _ _ Hchan Hurl).
        pose proof (send_via_webhook_outbound w u rep) as Hout.
        destruct (send_via_webhook w u rep) as [evs r]. exact Hout.
      * unfold dispatch. now rewrite Hchan, Hurl.
    + unfold dispatch. now rewrite Hchan.
Qed.

(** The outbound calls of the function: those of [dispatch] when a report
    was built, none otherwise. *)
Lemma send_outbound (w : Env) url (tax_data : list record) chan :
  outbound (events (send_corp_tax_summary w url tax_data chan)) =
  if no_destination_or_no_data url tax_data chan then []
  else
    match build_report tax_data with
    | inr (Some rep) => outbound (fst (dispatch w url chan rep))
    | inr None | inl _ => []
    end.
Proof.
  unfold events. rewrite send_eq.
  destruct (no_destination_or_no_data url tax_data chan); [reflexivity|].
  rewrite send_body_eq.
  destruct (build_report tax_data) as [e|[rep|]]; try reflexivity.
  destruct (dispatch w url chan rep) as [evs [e|r]]; simpl; [|reflexivity].
  rewrite outbound_app. simpl. apply app_nil_r.
Qed.

(** The description of a report that is built, spelt out. *)
Lemma description_text (tax_data : list record) rep :
  build_report tax_data = inr (Some rep) ->
  exists rows shown,
    Forall2 table_row (firstn 25 (outstanding_of tax_data)) rows /\
    num_format (num_sum (map balance_num (outstanding_of tax_data)))
    = Some shown /\
    rep_description rep =
      "```" +:+ newline +:+
      "User                 Main Character                    Balance" +:+
      newline +:+ ruler +:+ newline +:+
      String.concat "" rows +:+
      (if (25 <? length (outstanding_of tax_data))%nat
       then newline +:+ "... and " +:+
            str_of_nat (length (outstanding_of tax_data) - 25) +:+
            " more users" +:+ newline
       else "") +:+
      ruler +:+ newline +:+
      "TOTAL" +:+ spaces 40 +:+ " " +:+ right_aligned 13 shown +:+ "M" +:+
      newline +:+
      "```".
Proof.
  intros Hrep.
  apply build_report_inr in Hrep as (_ & _ & Htotal & _ & Hdescr & _).
  rewrite Htotal in Hdescr.
  apply render_description_inr in Hdescr as (rows & shown & Hrows & Hshown & ->).
  exists rows, shown. split; [|split; [exact Hshown|]].
  - eapply Forall2_impl; [exact Hrows|]. intros d row.
    apply render_row_table_row.
  - rewrite table_head_text, concat_string_concat, separator_text,
      total_line_text, overflow_line_text.
    destruct (25 <? length (outstanding_of tax_data))%nat;
      rewrite !append_assoc; reflexivity.
Qed.

End ReporterFacts.

(** * The claims of the specification *)

Section Claims.

Context {num : Type} `{PyNumber num}.

Abbreviation record := (gmap string (pyval num)).

(** C7.  If both [webhook_url] and [channel_id] are absent, or the input
    list is empty, [send_corp_tax_summary] returns [False] at once: the
    run has no event at all, neither an outbound call nor a log line,
    whatever the records and whatever the environment. *)
Theorem no_destination_or_empty_returns_false (w : Env) url
    (tax_data : list record) chan :
  (url_truthy url = false /\ chan_truthy chan = false) \/ tax_data = [] ->
  send_corp_tax_summary w url tax_data chan = ([], inr (Some false)).
Proof.
  intros Hguard. apply send_guarded.
  unfold no_destination_or_no_data.
  destruct Hguard as [[-> ->]| ->]; [reflexivity|].
  apply orb_true_r.
Qed.

(** C9.  [send_corp_tax_summary] never raises to its caller: every run
    ends with a returned bool.  Whenever the body of the [try] block
    raises, during rendering or during dispatch, the function logs the
    error after the events of the body and returns [False]; and whenever
    a call with data and a destination returns [False], the last event of
    the run is the log line of the failure. *)
Theorem never_raises_to_caller (w : Env) url (tax_data : list record) chan :
  let run := send_corp_tax_summary w url tax_data chan in
  raised run = None /\
  (exists b, returned run = Some (Some b)) /\
  (forall e,
     no_destination_or_no_data url tax_data chan = false ->
     raised (send_body w url tax_data chan) = Some e ->
     returned run = Some (Some false) /\
     events run
     = events (send_body w url tax_data chan) ++ [Log (LogError e)]) /\
  (no_destination_or_no_data url tax_data chan = false ->
   returned run = Some (Some false) ->
   exists evs ev, events run = evs ++ [ev] /\ is_failure_log ev = true).
Proof.
  cbv zeta. unfold raised, returned, events.
  destruct (send_returns_bool w url tax_data chan) as [b Hb].
  split; [now rewrite Hb|]. split; [exists b; now rewrite Hb|].
  clear b Hb. split.
  - intros e Hguard Hraise. rewrite send_eq, Hguard.
    destruct (send_body w url tax_data chan) as [evs [e'|r]];
      simpl in *; [|discriminate].
    injection Hraise as ->. split; reflexivity.
  - intros Hguard. rewrite send_eq, Hguard, send_body_eq.
    destruct (build_report tax_data) as [e|[rep|]]; simpl.
    + intros _. exists [], (Log (LogError e)). now split.
    + pose proof (dispatch_false_logged w url chan rep) as Hlog.
      destruct (dispatch w url chan rep) as [evs [e|r]]; simpl in *.
      * intros _. exists evs, (Log (LogError e)). now split.
      * intros [= ->]. now apply Hlog.
    + discriminate.
Qed.

(** C10.  A falsy [channel_id] (the int 0, the empty str) is treated as
    an absent one: the run is the run with [channel_id=None], no bot
    message is sent, every outbound call is a request to [webhook_url],
    and without a [webhook_url] the call returns [False] with no event. *)
Theorem falsy_channel_is_absent (w : Env) url (tax_data : list record) chan :
  chan_truthy chan = false ->
  let run := send_corp_tax_summary w url tax_data chan in
  run = send_corp_tax_summary w url tax_data ChanNone /\
  bot_messages (events run) = [] /\
  (forall ev, In ev (outbound (events run)) ->
     exists u p, url = Some u /\ ev = HttpPost u p) /\
  (url_truthy url = false -> run = ([], inr (Some false))).
Proof.
  intros Hchan. cbv zeta.
  assert (Hout : forall ev,
    In ev (outbound (events (send_corp_tax_summary w url tax_data chan))) ->
    exists u p, url = Some u /\ ev = HttpPost u p).
  { intros ev. rewrite send_outbound.
    destruct (no_destination_or_no_data url tax_data chan); [intros []|].
    destruct (build_report tax_data) as [e|[rep|]]; try (intros []).
    rewrite dispatch_outbound, Hchan. unfold webhook_calls.
    destruct url as [u|]; [|intros []].
    destruct (url_truthy (Some u)); [|intros []].
    intros [<-|[]]. eauto. }
  repeat split.
  - rewrite !send_eq, !send_body_eq.
    unfold no_destination_or_no_data. rewrite Hchan. simpl chan_truthy.
    destruct (_ || _); [reflexivity|].
    destruct (build_report tax_data) as [e|[rep|]]; try reflexivity.
    now rewrite (dispatch_falsy_channel _ _ _ _ Hchan).
  - destruct (bot_messages _) as [|ev evs] eqn:Hbots; [reflexivity|].
    assert (Hin : In ev (bot_messages
      (events (send_corp_tax_summary w url tax_data chan))))
      by (rewrite Hbots; now left).
    apply filter_In in Hin as [Hin Hbot].
    destruct (Hout ev) as (u & p & _ & ->); [|discriminate].
    apply filter_In. split; [exact Hin|]. now destruct ev.
  - exact Hout.
  - intros Hurl. apply send_guarded.
    unfold no_destination_or_no_data. now rewrite Hurl, Hchan.
Qed.

(** C6, amended.  For every input list with no qualifying record the
    function performs no outbound call.  It returns [True] when the list
    is not empty, a destination is given and every balance present is a
    number; it returns [False] otherwise: at the guard for an empty list
    or no destination, and from the handler when a balance that is not a
    number makes the filter raise. *)
Theorem nothing_to_report (w : Env) url (tax_data : list record) chan :
  List.filter qualifying tax_data = [] ->
  let run := send_corp_tax_summary w url tax_data chan in
  outbound (events run) = [] /\
  returned run
  = Some (Some (negb (no_destination_or_no_data url tax_data chan)
                && forallb numeric_balance tax_data)).
Proof.
  intros Hnone. cbv zeta. split.
  - rewrite send_outbound.
    destruct (no_destination_or_no_data url tax_data chan); [reflexivity|].
    destruct (build_report tax_data) as [e|[rep|]] eqn:Hrep;
      try reflexivity.
    apply build_report_inr in Hrep as (_ & Hsome & _). contradiction.
  - unfold returned. rewrite send_eq, send_body_eq.
    destruct (no_destination_or_no_data url tax_data chan); [reflexivity|].
    destruct (forallb numeric_balance tax_data) eqn:Hnum.
    + now rewrite (build_report_nothing _ Hnum Hnone).
    + now rewrite (build_report_not_numeric _ Hnum).
Qed.

(** C1, amended.  With a [channel_id] given: when the bot library is
    imported and the call of [send_message] does not raise an
    [ImportError], no request goes to the webhook and every outbound call
    is a bot message, also when [webhook_url] is given.  When moreover
    the call reaches the dispatch, that is when a report was built from
    at least one qualifying record: with the library imported and
    [int(channel_id)] succeeding, the first outbound call is the bot
    message to [int(channel_id)], and it is the only one unless
    [send_message] raises an [ImportError]; when the import fails, or
    when [send_message] raises an [ImportError], the fallback follows:
    one POST of the report to [webhook_url] if there is one, and
    otherwise no further outbound call and the result [False]. *)
Theorem dispatch_fallback_order (w : Env) url (tax_data : list record) chan :
  chan_truthy chan = true ->
  let run := send_corp_tax_summary w url tax_data chan in
  (forall send_message,
     bot w = Some send_message ->
     (forall c e x, send_message c e = Some x -> is_import_error x = false) ->
     http_posts (events run) = [] /\
     outbound (events run) = bot_messages (events run)) /\
  (forall rep, build_report tax_data = inr (Some rep) ->
     let after_import_error :=
       fun (before : list (event num)) =>
         if url_truthy url then
           exists u, url = Some u /\
             outbound (events run)
             = before ++ [HttpPost u (report_payload w rep)] /\
             length (http_posts (events run)) = 1
         else
           outbound (events run) = before /\
           returned run = Some (Some false) in
     match bot w with
     | Some send_message =>
         forall c, py_int w chan = inr c ->
           match send_message c (report_embed w rep) with
           | None => outbound (events run) = [BotMessage c (report_embed w rep)]
           | Some x =>
               if is_import_error x
               then after_import_error [BotMessage c (report_embed w rep)]
               else outbound (events run)
                    = [BotMessage c (report_embed w rep)]
           end
     | None => after_import_error []
     end).
Proof.
  intros Hchan. cbv zeta.
  assert (Hguard : tax_data <> [] ->
            no_destination_or_no_data url tax_data chan = false).
  { unfold no_destination_or_no_data. rewrite Hchan, andb_false_r.
    now destruct tax_data. }
  split.
  - intros send_message Hbot Hsend.
    rewrite http_posts_outbound, bot_messages_outbound, send_outbound.
    destruct (no_destination_or_no_data url tax_data chan);
      [now split|].
    destruct (build_report tax_data) as [e|[rep|]]; try (now split).
    rewrite dispatch_outbound, Hchan, Hbot.
    destruct (py_int w chan) as [e|c]; [now split|].
    destruct (send_message c (report_embed w rep)) as [x|] eqn:Hx;
      [|now split].
    rewrite (Hsend _ _ _ Hx). now split.
  - intros rep Hrep.
    assert (Hne : tax_data <> []).
    { intros ->. discriminate. }
    specialize (Hguard Hne).
    assert (Hout : outbound
              (events (send_corp_tax_summary w url tax_data chan))
            = outbound (fst (dispatch w url chan rep))).
    { now rewrite send_outbound, Hguard, Hrep. }
    assert (Hrun : send_corp_tax_summary w url tax_data chan =
              match dispatch w url chan rep with
              | (evs, inl e) => (evs ++ [Log (LogError e)], inr (Some false))
              | (evs, inr r) => (evs, inr r)
              end).
    { now rewrite send_eq, Hguard, send_body_eq, Hrep. }
    destruct (bot w) as [send_message|] eqn:Hbot.
    + intros c Hc.
      rewrite http_posts_outbound, Hout, dispatch_outbound, Hchan, Hbot, Hc.
      destruct (send_message c (report_embed w rep)) as [x|] eqn:Hx;
        [|reflexivity].
      destruct (is_import_error x) eqn:Himp; [|reflexivity].
      unfold webhook_calls.
      destruct (url_truthy url) eqn:Hurl.
      * destruct url as [u|]; [|discriminate]. exists u. repeat split.
      * split; [now destruct url|].
        unfold returned. rewrite Hrun.
        rewrite (dispatch_bot _ _ _ _ _ Hchan Hbot), Hc, Hx, Himp.
        rewrite fallback_eq, Hurl. now destruct url.
    + rewrite http_posts_outbound, Hout, dispatch_outbound, Hchan, Hbot.
      unfold webhook_calls.
      destruct (url_truthy url) eqn:Hurl.
      * destruct url as [u|]; [|discriminate]. exists u. repeat split.
      * split; [now destruct url|].
        unfold returned. rewrite Hrun.
        now rewrite (dispatch_no_fallback _ _ _ _ Hchan Hbot Hurl).
Qed.

(** C2.  For an input with at least one qualifying record, the amount
    on the TOTAL line of the rendered report is the printed sum of the
    balances of all the qualifying records, while the table shows the
    first 25 of them only.  The description is spelt out: the head of the
    table, the rows, the overflow line, the ruler, the TOTAL line and the
    closing fence.  The report is rendered whenever the records have the
    documented shape and the total can be printed. *)
Theorem total_line_sums_all_outstanding (tax_data : list record) :
  List.filter qualifying tax_data <> [] ->
  let outstanding := outstanding_of tax_data in
  let total := num_sum (map balance_num outstanding) in
  Permutation outstanding (List.filter qualifying tax_data) /\
  (Forall (fun d => well_formed d = true) tax_data ->
   printable total = true ->
   exists rep, build_report tax_data = inr (Some rep)) /\
  (forall rep, build_report tax_data = inr (Some rep) ->
   rep_total_outstanding rep = total /\
   exists rows shown,
     Forall2 table_row (firstn 25 outstanding) rows /\
     num_format total = Some shown /\
     rep_description rep =
       "```" +:+ newline +:+
       "User                 Main Character                    Balance" +:+
       newline +:+ ruler +:+ newline +:+
       String.concat "" rows +:+
       (if (25 <? length outstanding)%nat
        then newline +:+ "... and " +:+
             str_of_nat (length outstanding - 25) +:+ " more users" +:+
             newline
        else "") +:+
       ruler +:+ newline +:+
       "TOTAL" +:+ spaces 40 +:+ " " +:+ right_aligned 13 shown +:+ "M" +:+
       newline +:+
       "```").
Proof.
  intros Hsome. cbv zeta.
  split; [apply sorted_by_balance_perm|].
  split; [intros Hwf Htotal; now apply build_report_reports|].
  intros rep Hrep. split.
  - now apply build_report_inr in Hrep as (_ & _ & Htotal & _).
  - destruct (description_text _ _ Hrep) as (rows & shown & Hrows & Hshown & ->).
    exists rows, shown. repeat split; assumption.
Qed.

(** C3.  For more than 25 qualifying records, the table of the rendered
    report has exactly 25 rows, those of the first 25 records of the
    sorted list, followed by the line "... and N more users" where N is
    the number of qualifying records minus 25.  The report is rendered
    whenever the records have the documented shape and the total can be
    printed. *)
Theorem overflow_after_25_rows (tax_data : list record) :
  25 < length (List.filter qualifying tax_data) ->
  (Forall (fun d => well_formed d = true) tax_data ->
   printable (num_sum (map balance_num (outstanding_of tax_data))) = true ->
   exists rep, build_report tax_data = inr (Some rep)) /\
  (forall rep, build_report tax_data = inr (Some rep) ->
   exists rows rest,
     length rows = 25 /\
     Forall2 table_row (firstn 25 (outstanding_of tax_data)) rows /\
     rep_description rep =
       "```" +:+ newline +:+
       "User                 Main Character                    Balance" +:+
       newline +:+ ruler +:+ newline +:+
       String.concat "" rows +:+
       newline +:+ "... and " +:+
       str_of_nat (length (List.filter qualifying tax_data) - 25) +:+
       " more users" +:+ newline +:+
       ruler +:+ newline +:+ rest).
Proof.
  intros Hmany. split.
  - intros Hwf Htotal. apply build_report_reports; [exact Hwf|exact Htotal|].
    intros Hnil. rewrite Hnil in Hmany. simpl in Hmany. lia.
  - intros rep Hrep.
    destruct (description_text _ _ Hrep) as (rows & shown & Hrows & _ & ->).
    rewrite <- outstanding_of_length in *.
    exists rows. eexists. split; [|split; [exact Hrows|]].
    + rewrite <- (Forall2_length _ _ _ Hrows), length_firstn. lia.
    + replace (25 <? length (outstanding_of tax_data))%nat with true
        by (symmetry; apply Nat.ltb_lt; exact Hmany).
      rewrite !append_assoc. reflexivity.
Qed.

(** C4.  With three qualifying records or more, a rendered report has
    a top debtors field after the summary, listing the first three
    records of the sorted list, numbered 1 to 3, each with its user name
    and its printed balance; their balances descend and no other
    qualifying record has a higher one.  With fewer than three, the
    summary is the only field. *)
Theorem top_debtors_block (tax_data : list record) rep :
  StrictWeakOrder num ->
  build_report tax_data = inr (Some rep) ->
  let outstanding := outstanding_of tax_data in
  exists total,
    num_format (num_sum (map balance_num outstanding)) = Some total /\
    let summary :=
      {| field_name := "📊 Summary";
         field_value :=
           "**" +:+ str_of_nat (length outstanding) +:+
           "** users owe taxes" +:+ newline +:+
           "**" +:+ total +:+ " M ISK** total outstanding";
         field_inline := false |} in
    (3 <= length (List.filter qualifying tax_data) ->
     exists d1 d2 d3 others line1 line2 line3,
       outstanding = d1 :: d2 :: d3 :: others /\
       debtor_line "1" d1 line1 /\
       debtor_line "2" d2 line2 /\
       debtor_line "3" d3 line3 /\
       rep_fields rep =
         [summary;
          {| field_name := "🔥 Top Debtors";
             field_value :=
               line1 +:+ newline +:+ line2 +:+ newline +:+ line3;
             field_inline := false |}] /\
       not_below d1 d2 /\ not_below d2 d3 /\
       Forall (fun d => not_below d3 d) others) /\
    (length (List.filter qualifying tax_data) < 3 ->
     rep_fields rep = [summary]).
Proof.
  intros order Hrep. cbv zeta.
  destruct (description_text _ _ Hrep) as (rows & _ & Hrows & _ & _).
  apply build_report_inr in Hrep as (_ & _ & Htotal & _ & _ & Hfields).
  rewrite Htotal in Hfields.
  apply build_fields_inr in Hfields as (total & Hshown & Hfields).
  exists total. split; [exact Hshown|].
  rewrite <- outstanding_of_length.
  pose proof (sorted_by_balance_descending order
                (List.filter qualifying tax_data)) as Hsorted.
  fold (outstanding_of tax_data) in Hsorted.
  destruct (outstanding_of tax_data) as [|d1 [|d2 [|d3 others]]];
    simpl length; split; try lia; intros _; try exact Hfields.
  destruct Hfields as (lines & Hlines & ->).
  assert (Hnames : str_or_absent d1 "username" = true /\
                   str_or_absent d2 "username" = true /\
                   str_or_absent d3 "username" = true).
  { simpl firstn in Hrows.
    inversion Hrows as [|? r1 ? ? H1 Hrows1]; subst.
    inversion Hrows1 as [|? r2 ? ? H2 Hrows2]; subst.
    inversion Hrows2 as [|? r3 ? ? H3 _]; subst.
    unfold table_row, shown_text, str_or_absent in *.
    destruct H1 as (? & ? & ? & H1 & _), H2 as (? & ? & ? & H2 & _),
      H3 as (? & ? & ? & H3 & _).
    destruct (d1 !! "username") as [[]|]; try contradiction;
      destruct (d2 !! "username") as [[]|]; try contradiction;
      destruct (d3 !! "username") as [[]|]; try contradiction;
      repeat split. }
  destruct Hnames as (Hn1 & Hn2 & Hn3).
  apply debtor_lines_inr in Hlines as (line1 & lines1 & -> & Hl1 & Hlines);
    [|exact Hn1].
  apply debtor_lines_inr in Hlines as (line2 & lines2 & -> & Hl2 & Hlines);
    [|exact Hn2].
  apply debtor_lines_inr in Hlines as (line3 & lines3 & -> & Hl3 & Hlines);
    [|exact Hn3].
  injection Hlines as <-.
  exists d1, d2, d3, others, line1, line2, line3.
  split; [reflexivity|].
  split; [exact Hl1|]. split; [exact Hl2|]. split; [exact Hl3|].
  split; [reflexivity|].
  apply StronglySorted_inv in Hsorted as [Hsorted H1].
  apply StronglySorted_inv in Hsorted as [Hsorted H2].
  apply StronglySorted_inv in Hsorted as [_ H3].
  inversion H1; subst. inversion H2; subst. auto.
Qed.

(** C5.  The qualifying records are sorted by descending balance, and
    the sort is stable: the sort of the filtered list returns a
    permutation of the qualifying records in which no record stands
    before one of higher balance, and in which the records tied at any
    balance keep the order they had in the input list.  The rows of a
    rendered report follow that order. *)
Theorem sort_descending_stable (tax_data kept : list record) :
  StrictWeakOrder num ->
  filter_outstanding tax_data = inr kept ->
  exists sorted,
    sort_by_balance_reverse kept = inr sorted /\
    Permutation sorted (List.filter qualifying tax_data) /\
    StronglySorted not_below sorted /\
    (forall k,
       List.filter (tied_with k) sorted
       = List.filter (tied_with k) (List.filter qualifying tax_data)) /\
    (forall rep, build_report tax_data = inr (Some rep) ->
       exists texts rest,
         Forall2 (fun d t => render_row d = inr t) (firstn 25 sorted) texts /\
         rep_description rep = table_head +:+ Str.concat texts +:+ rest).
Proof.
  intros order Hkept.
  apply filter_outstanding_inr in Hkept as [_ ->].
  exists (outstanding_of tax_data). repeat split.
  - apply sort_by_balance_reverse_numeric, filter_qualifying_numeric.
  - apply sorted_by_balance_perm.
  - now apply sorted_by_balance_descending.
  - intros k. now apply sorted_by_balance_stable.
  - intros rep Hrep.
    apply build_report_inr in Hrep as (_ & _ & _ & _ & Hdescr & _).
    apply render_description_inr in Hdescr
      as (texts & shown & Hrows & _ & ->).
    eauto.
Qed.

(** C8, amended.  A record with missing keys is rendered with
    placeholders: in every row that is rendered, a missing [username]
    shows as "Unknown", also among the top debtors, a missing
    [main_character] as "N/A", and a missing [balance] counts as the int
    0, in the filter and in the row.  A record whose fields are missing
    or of the documented types always gives a row.  A field that is
    present with another type gets no placeholder: a [username] that is
    not a str makes the rendering raise [TypeError], and the function then
    logs the error, sends nothing and returns [False]. *)
Theorem absent_fields_use_placeholders (d : record) :
  (forall row, render_row d = inr row ->
     table_row d row /\
     (d !! "username" = None ->
      exists rest, row = "Unknown" +:+ spaces 13 +:+ " " +:+ rest) /\
     (d !! "main_character" = None ->
      exists name rest,
        chars name = 20 /\
        row = name +:+ " " +:+ "N/A" +:+ spaces 22 +:+ " " +:+ rest) /\
     (d !! "balance" = None ->
      exists amount rest,
        num_format num_zero = Some amount /\
        row = rest +:+ right_aligned 13 amount +:+ "M" +:+ newline)) /\
  (d !! "username" = None ->
   forall i lines, debtor_lines i [d] = inr lines ->
     exists amount,
       shown_amount d amount /\
       lines = [str_of_nat (i + 1) +:+ ". **" +:+ "Unknown" +:+ "** - " +:+
                amount +:+ "M ISK"]) /\
  (d !! "balance" = None ->
   py_gt_zero (balance_of d) = inr (num_ltb num_zero num_zero)) /\
  (well_formed d = true -> exists row, render_row d = inr row) /\
  (str_or_absent d "username" = false ->
   render_row d = inl TypeError /\
   (qualifying d = true ->
    forall w url chan,
      no_destination_or_no_data url [d] chan = false ->
      send_corp_tax_summary w url [d] chan
      = ([Log (LogError TypeError)], inr (Some false)))).
Proof.
  split; [|split; [|split; [|split]]].
  - intros row Hrow.
    pose proof (render_row_table_row d row Hrow) as Htable.
    split; [exact Htable|].
    destruct Htable as (u & m & a & Hu & Hm & Ha & Hr).
    unfold shown_text, shown_amount in *. split; [|split].
    + intros Hnone. rewrite Hnone in Hu. subst u.
      now apply is_row_unknown in Hr.
    + intros Hnone. rewrite Hnone in Hm. subst m.
      now apply is_row_no_main in Hr.
    + intros Hnone. rewrite Hnone in Ha.
      destruct Hr as (name & main & _ & _ & ->).
      exists a. eexists. split; [exact Ha|].
      rewrite <- !append_assoc. reflexivity.
  - intros Hnone i lines Hlines.
    apply debtor_lines_inr in Hlines
      as (line & lines' & -> & (u & a & Hu & Ha & ->) & Hrest);
      [|unfold str_or_absent; now rewrite Hnone].
    injection Hrest as <-.
    unfold shown_text in Hu. rewrite Hnone in Hu. subst u.
    exists a. split; [exact Ha|reflexivity].
  - intros Hnone. unfold balance_of, py_get. now rewrite Hnone.
  - apply render_row_well_formed.
  - intros Hname.
    assert (Hrow : render_row d = inl TypeError).
    { unfold render_row, str_or_absent, py_get in *.
      destruct (d !! "username") as [[]|]; try discriminate; reflexivity. }
    split; [exact Hrow|].
    intros Hq w url chan Hguard.
    rewrite send_eq, Hguard, send_body_eq.
    assert (Hnum : forallb numeric_balance [d] = true).
    { simpl. now rewrite (qualifying_numeric d Hq). }
    unfold build_report.
    rewrite (filter_outstanding_numeric _ Hnum). simpl List.filter.
    rewrite Hq. cbn [res_bind].
    assert (Hsort : sort_by_balance_reverse [d] = inr [d]) by reflexivity.
    rewrite Hsort. cbn [res_bind].
    rewrite sum_balances_numeric
      by (constructor; [now apply qualifying_numeric | constructor]).
    cbn [res_bind]. unfold render_description.
    change (firstn 25 [d]) with [d]. cbn [render_rows].
    rewrite Hrow. reflexivity.
Qed.

End Claims.

(** * The claims on sample inputs *)

(** No destination: the guard returns [False] although a record
    qualifies. *)
Lemma no_destination_witness :
  ((url_truthy None = false /\ chan_truthy ChanNone = false)
   \/ [Sample.john] = []) /\
  send_corp_tax_summary Sample.with_bot None [Sample.john] ChanNone
  = ([], inr (Some false)).
Proof.
  split; [left; split; reflexivity|].
  apply (no_destination_or_empty_returns_false Sample.with_bot None
           [Sample.john] ChanNone).
  left; split; reflexivity.
Defined.

(** The broker is down: [send_message] raises, the handler logs the error
    after the bot message and the function returns [False]. *)
Lemma never_raises_witness :
  no_destination_or_no_data (Some Sample.webhook) [Sample.john] (ChanInt 123)
  = false /\
  raised (send_body Sample.failing (Some Sample.webhook) [Sample.john]
            (ChanInt 123)) = Some BrokerError /\
  returned (send_corp_tax_summary Sample.failing (Some Sample.webhook)
              [Sample.john] (ChanInt 123)) = Some (Some false) /\
  events (send_corp_tax_summary Sample.failing (Some Sample.webhook)
            [Sample.john] (ChanInt 123))
  = events (send_body Sample.failing (Some Sample.webhook) [Sample.john]
              (ChanInt 123)) ++ [Log (LogError BrokerError)].
Proof.
  split; [reflexivity|]. split; [reflexivity|].
  apply (never_raises_to_caller Sample.failing (Some Sample.webhook)
           [Sample.john] (ChanInt 123)).
  - reflexivity.
  - reflexivity.
Defined.

(** [channel_id=0] with a webhook: the run of [channel_id=None]. *)
Lemma falsy_channel_witness :
  chan_truthy (ChanInt 0) = false /\
  send_corp_tax_summary Sample.with_bot (Some Sample.webhook) [Sample.john]
    (ChanInt 0)
  = send_corp_tax_summary Sample.with_bot (Some Sample.webhook)
      [Sample.john] ChanNone.
Proof.
  split; [reflexivity|].
  apply (falsy_channel_is_absent Sample.with_bot (Some Sample.webhook)
           [Sample.john] (ChanInt 0)).
  reflexivity.
Defined.

(** [channel_id=""] without a webhook returns [False] although the bot
    library is there. *)
Example empty_channel_without_webhook :
  send_corp_tax_summary Sample.with_bot None [Sample.john] (ChanStr "")
  = ([], inr (Some false)).
Proof. reflexivity. Qed.

(** C6 as stated fails on the empty list: no record qualifies, and the
    function returns [False]. *)
Lemma empty_list_returns_false :
  List.filter qualifying ([] : list (gmap string (pyval Z))) = [] /\
  returned (send_corp_tax_summary Sample.with_bot (Some Sample.webhook) []
              ChanNone) <> Some (Some true).
Proof. split; [reflexivity|]. vm_compute. discriminate. Qed.

(** Nobody owes anything: [True], and nothing is sent. *)
Lemma nothing_to_report_witness :
  List.filter qualifying [Sample.paid_up; Sample.no_balance] = [] /\
  outbound (events (send_corp_tax_summary Sample.with_bot
                      (Some Sample.webhook)
                      [Sample.paid_up; Sample.no_balance] (ChanInt 123)))
  = [] /\
  returned (send_corp_tax_summary Sample.with_bot (Some Sample.webhook)
              [Sample.paid_up; Sample.no_balance] (ChanInt 123))
  = Some (Some true).
Proof.
  split; [reflexivity|].
  apply (nothing_to_report Sample.with_bot (Some Sample.webhook)
           [Sample.paid_up; Sample.no_balance] (ChanInt 123)).
  reflexivity.
Defined.

(** A balance that is [None] makes the filter raise: [False]. *)
Example none_balance_returns_false :
  send_corp_tax_summary Sample.with_bot (Some Sample.webhook)
    [Sample.paid_up; Sample.bad_balance] ChanNone
  = ([Log (LogError TypeError)], inr (Some false)).
Proof. reflexivity. Qed.

(** C1 as stated fails when nobody owes anything: a channel is given,
    the bot library is missing and a webhook is given, yet no request is
    made (and the function returns [True]). *)
Lemma fallback_post_needs_a_report :
  chan_truthy (ChanInt 123) = true /\
  bot Sample.without_bot = None /\
  url_truthy (Some Sample.webhook) = true /\
  length (http_posts (events (send_corp_tax_summary Sample.without_bot
                                (Some Sample.webhook) [Sample.paid_up]
                                (ChanInt 123)))) <> 1.
Proof. repeat split. vm_compute. discriminate. Qed.

(** It fails as well when the library is imported and [send_message]
    raises an [ImportError] of its own: the bot call is made, the handler
    takes the exception for a missing library, and the report is posted
    to the webhook. *)
Example import_error_of_send_message :
  bot Sample.half_installed <> None /\
  send_corp_tax_summary Sample.half_installed (Some Sample.webhook)
    [Sample.john] (ChanInt 123)
  = ([BotMessage 123
        (report_embed Sample.half_installed (Sample.built [Sample.john]));
      Log LogBotUnavailable;
      HttpPost Sample.webhook
        (report_payload Sample.half_installed (Sample.built [Sample.john]));
      Log (LogSent 1 125%Z)],
     inr (Some true)).
Proof. split; [discriminate|reflexivity]. Qed.

(** A channel, a webhook and a debtor.  Without the bot library: one POST
    of the report to the webhook.  With a [send_message] that raises
    [ImportError]: the bot message, then the POST.  With a working bot:
    the bot message only. *)
Lemma dispatch_fallback_witness :
  chan_truthy (ChanInt 123) = true /\
  build_report [Sample.john] = inr (Some (Sample.built [Sample.john])) /\
  outbound (events (send_corp_tax_summary Sample.without_bot
                      (Some Sample.webhook) [Sample.john] (ChanInt 123)))
  = [HttpPost Sample.webhook
       (report_payload Sample.without_bot (Sample.built [Sample.john]))] /\
  outbound (events (send_corp_tax_summary Sample.half_installed
                      (Some Sample.webhook) [Sample.john] (ChanInt 123)))
  = [BotMessage 123
       (report_embed Sample.half_installed (Sample.built [Sample.john]));
     HttpPost Sample.webhook
       (report_payload Sample.half_installed (Sample.built [Sample.john]))] /\
  outbound (events (send_corp_tax_summary Sample.with_bot
                      (Some Sample.webhook) [Sample.john] (ChanInt 123)))
  = [BotMessage 123
       (report_embed Sample.with_bot (Sample.built [Sample.john]))].
Proof.
  split; [reflexivity|]. split; [reflexivity|].
  assert (Hrep : build_report [Sample.john]
                 = inr (Some (Sample.built [Sample.john])))
    by reflexivity.
  split; [|split].
  - destruct (dispatch_fallback_order Sample.without_bot (Some Sample.webhook)
                [Sample.john] (ChanInt 123) eq_refl) as [_ Hreport].
    destruct (Hreport _ Hrep) as (u & Hu & Hout & _).
    injection Hu as <-. exact Hout.
  - destruct (dispatch_fallback_order Sample.half_installed
                (Some Sample.webhook) [Sample.john] (ChanInt 123) eq_refl)
      as [_ Hreport].
    destruct (Hreport _ Hrep 123%Z eq_refl) as (u & Hu & Hout & _).
    injection Hu as <-. exact Hout.
  - destruct (dispatch_fallback_order Sample.with_bot (Some Sample.webhook)
                [Sample.john] (ChanInt 123) eq_refl) as [_ Hreport].
    exact (Hreport _ Hrep 123%Z eq_refl).
Defined.

(** 27 pilots owe 1 to 27 millions: the TOTAL line shows the sum of all
    27 balances, 378, not the 375 of the first 25 rows.  The description
    is, line by line, the text that Python renders. *)
Lemma total_line_witness :
  List.filter qualifying (Sample.pilots 27) <> [] /\
  build_report (Sample.pilots 27)
  = inr (Some (Sample.built (Sample.pilots 27))) /\
  num_sum (map balance_num (outstanding_of (Sample.pilots 27))) = 378%Z /\
  rep_total_outstanding (Sample.built (Sample.pilots 27)) = 378%Z /\
  (exists rows,
     Forall2 table_row (firstn 25 (outstanding_of (Sample.pilots 27))) rows /\
     rep_description (Sample.built (Sample.pilots 27)) =
       "```" +:+ newline +:+
       "User                 Main Character                    Balance" +:+
       newline +:+ ruler +:+ newline +:+
       String.concat "" rows +:+
       (newline +:+ "... and " +:+ "2" +:+ " more users" +:+ newline) +:+
       ruler +:+ newline +:+
       "TOTAL                                                378.00M" +:+
       newline +:+
       "```") /\
  rep_description (Sample.built (Sample.pilots 27))
  = String.concat newline Sample.description_of_27_pilots.
Proof.
  assert (Hsome : List.filter qualifying (Sample.pilots 27) <> []).
  { intros Hnil. apply (f_equal (@length _)) in Hnil.
    vm_compute in Hnil. discriminate. }
  assert (Hrep : build_report (Sample.pilots 27)
                 = inr (Some (Sample.built (Sample.pilots 27))))
    by reflexivity.
  assert (Htotal : num_sum (map balance_num
                              (outstanding_of (Sample.pilots 27))) = 378%Z)
    by reflexivity.
  split; [exact Hsome|]. split; [exact Hrep|]. split; [exact Htotal|].
  destruct (total_line_sums_all_outstanding (Sample.pilots 27) Hsome)
    as (_ & _ & Hshape).
  destruct (Hshape _ Hrep) as (Hsum & rows & shown & Hrows & Hshown & Hdescr).
  split; [now rewrite Hsum|]. split; [|reflexivity].
  exists rows. split; [exact Hrows|].
  rewrite Htotal in Hshown. injection Hshown as <-.
  exact Hdescr.
Defined.

Example total_of_the_first_25_pilots :
  fold_left Z.add
    (map balance_num (firstn 25 (outstanding_of (Sample.pilots 27)))) 0%Z
  = 375%Z.
Proof. reflexivity. Qed.

(** 27 pilots: 25 rows, those of the pilots 27 down to 3, and the line
    "... and 2 more users". *)
Lemma overflow_witness :
  25 < length (List.filter qualifying (Sample.pilots 27)) /\
  build_report (Sample.pilots 27)
  = inr (Some (Sample.built (Sample.pilots 27))) /\
  (exists rows rest,
     length rows = 25 /\
     Forall2 table_row (firstn 25 (outstanding_of (Sample.pilots 27))) rows /\
     rep_description (Sample.built (Sample.pilots 27)) =
       "```" +:+ newline +:+
       "User                 Main Character                    Balance" +:+
       newline +:+ ruler +:+ newline +:+
       String.concat "" rows +:+
       newline +:+ "... and " +:+ "2" +:+ " more users" +:+ newline +:+
       ruler +:+ newline +:+ rest) /\
  rep_description (Sample.built (Sample.pilots 27))
  = String.concat newline
      (firstn 3 Sample.description_of_27_pilots ++
       map (fun i =>
              "pilot_" +:+ str_of_nat i +:+ spaces (14 - chars (str_of_nat i))
              +:+ " " +:+ "N/A" +:+ spaces 22 +:+ " " +:+
              right_aligned 13 (str_of_nat i +:+ ".00") +:+ "M")
         (rev (seq 3 25)) ++
       [""; "... and 2 more users"] ++
       skipn 30 Sample.description_of_27_pilots).
Proof.
  assert (Hmany : 25 < length (List.filter qualifying (Sample.pilots 27)))
    by (vm_compute; lia).
  split; [exact Hmany|]. split; [reflexivity|].
  split; [|reflexivity].
  destruct (overflow_after_25_rows (Sample.pilots 27) Hmany) as [_ Hshape].
  exact (Hshape (Sample.built (Sample.pilots 27)) eq_refl).
Defined.

(** 25 pilots: no overflow line. *)
Example no_overflow_for_25_pilots :
  rep_description (Sample.built (Sample.pilots 25)) =
  String.concat newline
    (firstn 3 Sample.description_of_27_pilots ++
     skipn 5 (firstn 28 Sample.description_of_27_pilots) ++
     ["pilot_2              N/A                                2.00M";
      "pilot_1              N/A                                1.00M";
      "============================================================";
      "TOTAL                                                325.00M";
      "```"]).
Proof. reflexivity. Qed.

(** Four debtors: the top debtors are zed, john and joan, in this
    order. *)
Lemma top_debtors_witness :
  build_report Sample.five = inr (Some (Sample.built Sample.five)) /\
  3 <= length (List.filter qualifying Sample.five) /\
  outstanding_of Sample.five
  = [Sample.zed; Sample.john; Sample.joan; Sample.jane] /\
  (exists d1 d2 d3 others line1 line2 line3,
     outstanding_of Sample.five = d1 :: d2 :: d3 :: others /\
     debtor_line "1" d1 line1 /\
     debtor_line "2" d2 line2 /\
     debtor_line "3" d3 line3 /\
     rep_fields (Sample.built Sample.five) =
       [{| field_name := "📊 Summary";
           field_value :=
             "**" +:+ "4" +:+ "** users owe taxes" +:+ newline +:+
             "**" +:+ "1,628.00" +:+ " M ISK** total outstanding";
           field_inline := false |};
        {| field_name := "🔥 Top Debtors";
           field_value :=
             line1 +:+ newline +:+ line2 +:+ newline +:+ line3;
           field_inline := false |}] /\
     not_below d1 d2 /\ not_below d2 d3 /\
     Forall (fun d => not_below d3 d) others) /\
  rep_fields (Sample.built Sample.five) =
    [{| field_name := "📊 Summary";
        field_value :=
          String.concat newline
            ["**4** users owe taxes";
             "**1,628.00 M ISK** total outstanding"];
        field_inline := false |};
     {| field_name := "🔥 Top Debtors";
        field_value :=
          String.concat newline
            ["1. **zed** - 1,289.00M ISK";
             "2. **john_doe** - 125.00M ISK";
             "3. **joan_roe** - 125.00M ISK"];
        field_inline := false |}].
Proof.
  assert (Hrep : build_report Sample.five
                 = inr (Some (Sample.built Sample.five)))
    by reflexivity.
  assert (Hthree : 3 <= length (List.filter qualifying Sample.five))
    by (vm_compute; lia).
  split; [exact Hrep|]. split; [exact Hthree|].
  split; [reflexivity|]. split; [|reflexivity].
  destruct (top_debtors_block Sample.five (Sample.built Sample.five)
              int_order Hrep) as (total & Htotal & Hblock & _).
  assert (Ht : num_format (num_sum (map balance_num
                                      (outstanding_of Sample.five)))
               = Some "1,628.00")
    by reflexivity.
  rewrite Ht in Htotal. injection Htotal as <-.
  exact (Hblock Hthree).
Defined.

(** Two debtors: the summary only. *)
Example no_top_debtors_for_two :
  rep_fields (Sample.built [Sample.john; Sample.jane])
  = [{| field_name := "📊 Summary";
        field_value :=
          String.concat newline
            ["**2** users owe taxes";
             "**214.00 M ISK** total outstanding"];
        field_inline := false |}].
Proof. reflexivity. Qed.

(** john and joan are tied at 125 and stay in the order of the input. *)
Lemma sort_witness :
  filter_outstanding Sample.five
  = inr [Sample.john; Sample.jane; Sample.joan; Sample.zed] /\
  exists sorted,
    sort_by_balance_reverse
      [Sample.john; Sample.jane; Sample.joan; Sample.zed] = inr sorted /\
    Permutation sorted (List.filter qualifying Sample.five) /\
    StronglySorted not_below sorted /\
    (forall k,
       List.filter (tied_with k) sorted
       = List.filter (tied_with k) (List.filter qualifying Sample.five)).
Proof.
  split; [reflexivity|].
  destruct (sort_descending_stable Sample.five
              [Sample.john; Sample.jane; Sample.joan; Sample.zed]
              int_order) as (sorted & Hsort & Hperm & Hdesc & Hstable & _).
  - reflexivity.
  - exists sorted.
    exact (conj Hsort (conj Hperm (conj Hdesc Hstable))).
Defined.

Example sort_of_five :
  sort_by_balance_reverse [Sample.john; Sample.jane; Sample.joan; Sample.zed]
  = inr [Sample.zed; Sample.john; Sample.joan; Sample.jane].
Proof. reflexivity. Qed.

Example description_of_the_five :
  rep_description (Sample.built Sample.five)
  = String.concat newline Sample.description_of_five.
Proof. reflexivity. Qed.

(** C8 as stated fails on a record whose [username] is [None]: the
    record qualifies, no placeholder stands in for the name, its row
    raises [TypeError], and the function logs the error and returns
    [False] without sending the report, also for the well-formed record
    before it. *)
Lemma malformed_record_drops_the_report :
  Sample.bad_name !! "username" = Some PyNone /\
  qualifying Sample.bad_name = true /\
  render_row Sample.bad_name = inl TypeError /\
  raised (send_body Sample.with_bot (Some Sample.webhook)
            [Sample.john; Sample.bad_name] (ChanInt 123)) = Some TypeError /\
  send_corp_tax_summary Sample.with_bot (Some Sample.webhook)
    [Sample.john; Sample.bad_name] (ChanInt 123)
  = ([Log (LogError TypeError)], inr (Some false)).
Proof. repeat split. Qed.

(** A record with a balance only is rendered with both placeholders, in
    its row and among the top debtors. *)
Lemma placeholders_witness :
  Sample.anonymous !! "username" = None /\
  Sample.anonymous !! "main_character" = None /\
  render_row Sample.anonymous
  = inr ("Unknown              N/A                                7.00M"
         +:+ newline) /\
  (exists rest,
     "Unknown              N/A                                7.00M"
     +:+ newline
     = "Unknown" +:+ spaces 13 +:+ " " +:+ rest) /\
  debtor_lines 0 [Sample.anonymous] = inr ["1. **Unknown** - 7.00M ISK"].
Proof.
  split; [reflexivity|]. split; [reflexivity|].
  assert (Hrow : render_row Sample.anonymous
                 = inr ("Unknown              N/A                                7.00M"
                        +:+ newline))
    by reflexivity.
  split; [exact Hrow|]. split; [|reflexivity].
  destruct (absent_fields_use_placeholders Sample.anonymous)
    as [Hrows _].
  destruct (Hrows _ Hrow) as (_ & Hname & _).
  exact (Hname eq_refl).
Defined.

(** A record without balance does not qualify: [0 > 0] is false. *)
Example no_balance_does_not_qualify :
  Sample.no_balance !! "balance" = None /\
  filter_outstanding [Sample.no_balance; Sample.john] = inr [Sample.john].
Proof. split; reflexivity. Qed.

(** Names are cut and padded by characters, not by bytes, and an int
    above 2^53 is printed as the float it converts to. *)
Example row_of_long_names :
  render_row Sample.long_names
  = inr ("xxxxxxxxxxxxxxxxxxx  žžžžžžžžžžžžžžžžžžžžžžžž  9,007,199,254,740,992.00M"
         +:+ newline) /\
  render_row Sample.zoe
  = inr ("Zoë                  Zoë Nováková               1,234,567.00M"
         +:+ newline).
Proof. split; reflexivity. Qed.

(** A balance that [format] cannot print makes the function return
    [False]. *)
Example unprintable_balance_returns_false :
  send_corp_tax_summary Sample.with_bot (Some Sample.webhook)
    [Sample.john; Sample.too_rich] (ChanInt 123)
  = ([Log (LogError OverflowError)], inr (Some false)).
Proof. reflexivity. Qed.

(** * Further properties of the summary *)

Section SummaryFacts.

Context {num : Type} `{PyNumber num}.

Abbreviation record := (gmap string (pyval num)).

(** The outbound calls of a run are of one of four shapes. *)
Lemma outbound_shapes (w : Env) url (tax_data : list record) chan :
  let calls := outbound (events (send_corp_tax_summary w url tax_data chan)) in
  calls = [] \/
  (exists c e, calls = [BotMessage c e]) \/
  (exists u p, calls = [HttpPost u p]) \/
  (exists send_message c e x u p,
     calls = [BotMessage c e; HttpPost u p] /\
     bot w = Some send_message /\
     send_message c e = Some x /\ is_import_error x = true).
Proof.
  cbv zeta. rewrite send_outbound.
  destruct (no_destination_or_no_data url tax_data chan); [now left|].
  destruct (build_report tax_data) as [e|[rep|]]; try (now left).
  rewrite dispatch_outbound.
  assert (Hweb : webhook_calls w url rep = [] \/
                 exists u p, webhook_calls w url rep = [HttpPost u p]).
  { unfold webhook_calls. destruct url as [u|]; [|now left].
    destruct (url_truthy (Some u)); [right; eauto | now left]. }
  destruct (chan_truthy chan).
  - destruct (bot w) as [send_message|] eqn:Hbot.
    + destruct (py_int w chan) as [e|c]; [now left|].
      destruct (send_message c (report_embed w rep)) as [x|] eqn:Hx;
        [|right; left; eauto].
      destruct (is_import_error x) eqn:Himp; [|right; left; eauto].
      destruct Hweb as [-> | (u & p & ->)]; [right; left; eauto|].
      do 3 right. exists send_message, c, (report_embed w rep), x, u, p.
      repeat split; assumption.
    + destruct Hweb as [-> | (u & p & ->)]; [now left|].
      right; right; left; eauto.
  - destruct Hweb as [-> | (u & p & ->)]; [now left|].
    right; right; left; eauto.
Qed.

(** X1.  A run makes at most one call of [send_message] and at most one
    request to the webhook, and never the request before the call: there
    is no retry.  Both are made in one run only when [send_message]
    raises an [ImportError], which the function takes for a missing bot
    library. *)
Theorem one_call_per_channel (w : Env) url (tax_data : list record) chan :
  let run := send_corp_tax_summary w url tax_data chan in
  length (bot_messages (events run)) <= 1 /\
  length (http_posts (events run)) <= 1 /\
  outbound (events run) = bot_messages (events run) ++ http_posts (events run) /\
  (bot_messages (events run) <> [] -> http_posts (events run) <> [] ->
   exists send_message c e x,
     bot w = Some send_message /\
     bot_messages (events run) = [BotMessage c e] /\
     send_message c e = Some x /\ is_import_error x = true).
Proof.
  cbv zeta. rewrite http_posts_outbound, bot_messages_outbound.
  destruct (outbound_shapes w url tax_data chan)
    as [-> | [(c & e & ->) | [(u & p & ->) |
        (send_message & c & e & x & u & p & -> & Hbot & Hx & Himp)]]];
    simpl; repeat split; try lia; try contradiction.
  intros _ _. exists send_message, c, e, x. repeat split; assumption.
Qed.

(** X2.  Without a channel, the run is the request to the webhook and the log
    line of its outcome, and the result is [True] exactly for the status
    codes 200 and 204; a request that raises gives [False]. *)
Theorem webhook_verdict (w : Env) u (tax_data : list record) chan rep :
  build_report tax_data = inr (Some rep) ->
  chan_truthy chan = false ->
  url_truthy (Some u) = true ->
  send_corp_tax_summary w (Some u) tax_data chan =
  match http_post w u (report_payload w rep) with
  | Some status =>
      ([HttpPost u (report_payload w rep);
        Log (if status_ok status
             then LogSent (rep_total_users rep) (rep_total_outstanding rep)
             else LogPostFailed status)],
       inr (Some (status_ok status)))
  | None =>
      ([HttpPost u (report_payload w rep); Log (LogError RequestException)],
       inr (Some false))
  end /\
  (forall status, status_ok status = true <-> status = 200%Z \/ status = 204%Z).
Proof.
  intros Hrep Hchan Hurl. split.
  - assert (Hguard : no_destination_or_no_data (Some u) tax_data chan = false).
    { unfold no_destination_or_no_data. rewrite Hurl. simpl.
      destruct tax_data; [discriminate|reflexivity]. }
    rewrite send_eq, Hguard, send_body_eq, Hrep.
    rewrite (dispatch_webhook _ _ _ _ Hchan Hurl), send_via_webhook_eq.
    destruct (http_post w u (report_payload w rep)) as [status|];
      [|reflexivity].
    now destruct (status_ok status).
  - intros status. unfold status_ok. rewrite orb_true_iff, !Z.eqb_eq.
    reflexivity.
Qed.

(** X3.  With a channel and the bot library, the result tells whether
    the message was queued.  When [int(channel_id)] raises, nothing is
    sent.  When [send_message] returns, the run is the bot message and
    its log line, and the result is [True].  When it raises anything but
    an [ImportError], the run is the bot message and the log line of the
    error, and the result is [False]: the failure is not retried on the
    webhook, also when [webhook_url] is given.  An [ImportError] of
    [send_message] is taken for a missing library: the log line of the
    fallback follows the bot message, and the webhook is tried if there
    is one. *)
Theorem bot_failure_retried_on_import_error_only (w : Env) url
    (tax_data : list record) chan rep send_message :
  build_report tax_data = inr (Some rep) ->
  chan_truthy chan = true ->
  bot w = Some send_message ->
  let run := send_corp_tax_summary w url tax_data chan in
  let e := report_embed w rep in
  (forall x, py_int w chan = inl x ->
     run = ([Log (LogError x)], inr (Some false))) /\
  (forall c, py_int w chan = inr c ->
     match send_message c e with
     | None =>
         run = ([BotMessage c e;
                 Log (LogQueued (rep_total_users rep)
                        (rep_total_outstanding rep))],
                inr (Some true))
     | Some x =>
         if is_import_error x then
           (exists rest,
              events run = BotMessage c e :: Log LogBotUnavailable :: rest) /\
           http_posts (events run) =
             match url with
             | Some u =>
                 if url_truthy url then [HttpPost u (report_payload w rep)]
                 else []
             | None => []
             end
         else
           run = ([BotMessage c e; Log (LogError x)], inr (Some false))
     end).
Proof.
  intros Hrep Hchan Hbot. cbv zeta.
  assert (Hguard : no_destination_or_no_data url tax_data chan = false).
  { unfold no_destination_or_no_data. rewrite Hchan, andb_false_r.
    destruct tax_data; [discriminate|reflexivity]. }
  split.
  - intros x Hx.
    rewrite send_eq, Hguard, send_body_eq, Hrep.
    now rewrite (dispatch_bot _ _ _ _ _ Hchan Hbot), Hx.
  - intros c Hc.
    pose proof (send_outbound w url tax_data chan) as Hout.
    rewrite Hguard, Hrep, dispatch_outbound, Hchan, Hbot, Hc in Hout.
    unfold events in *.
    rewrite http_posts_outbound, Hout. clear Hout.
    rewrite send_eq, Hguard, send_body_eq, Hrep.
    rewrite (dispatch_bot _ _ _ _ _ Hchan Hbot), Hc.
    destruct (send_message c (report_embed w rep)) as [x|];
      [|reflexivity].
    destruct (is_import_error x); [|reflexivity].
    split.
    + rewrite fallback_eq.
      destruct url as [u|]; [destruct (url_truthy (Some u))|];
        try (eexists; reflexivity).
      destruct (send_via_webhook w u rep) as [evs [err|b]]; simpl;
        eexists; reflexivity.
    + unfold webhook_calls.
      destruct url as [u|]; [destruct (url_truthy (Some u))|];
        reflexivity.
Qed.

Lemma filter_outstanding_skip (l1 l2 : list record) d :
  numeric_balance d = true -> qualifying d = false ->
  filter_outstanding (l1 ++ d :: l2) = filter_outstanding (l1 ++ l2).
Proof.
  intros Hnum Hq. induction l1 as [|x l1 IH]; simpl.
  - unfold numeric_balance, qualifying in *.
    destruct (balance_of d) as [| |n]; try discriminate. simpl. rewrite Hq.
    now destruct (filter_outstanding l2).
  - now rewrite IH.
Qed.

(** X4.  A record that owes nothing does not show: with a record whose balance
    is a number not above zero, or is missing while [0 < 0] is false,
    put anywhere in the list, the report is the same, and so is the whole
    run as long as another record is left. *)
Theorem paid_up_record_is_ignored (l1 l2 : list record) d :
  numeric_balance d = true -> qualifying d = false ->
  build_report (l1 ++ d :: l2) = build_report (l1 ++ l2) /\
  (l1 ++ l2 <> [] ->
   forall w url chan,
     send_corp_tax_summary w url (l1 ++ d :: l2) chan
     = send_corp_tax_summary w url (l1 ++ l2) chan).
Proof.
  intros Hnum Hq.
  assert (Hrep : build_report (l1 ++ d :: l2) = build_report (l1 ++ l2)).
  { unfold build_report. now rewrite filter_outstanding_skip. }
  split; [exact Hrep|].
  intros Hne w url chan. rewrite !send_eq, !send_body_eq, Hrep.
  replace (no_destination_or_no_data url (l1 ++ d :: l2) chan)
    with (no_destination_or_no_data url (l1 ++ l2) chan); [reflexivity|].
  unfold no_destination_or_no_data. f_equal.
  destruct (l1 ++ l2); [contradiction|]. now destruct l1.
Qed.

(** X5.  The columns of the table line up: in every row the name fills
    exactly 20 characters and the main character 25, whatever their
    lengths and whatever the bytes their characters take, and the balance
    is right-aligned in 13 characters, or in as many as its text has when
    that is more. *)
Theorem row_columns (d : record) row :
  render_row d = inr row ->
  exists name main balance amount,
    row = name +:+ " " +:+ main +:+ " " +:+ balance +:+ "M" +:+ newline /\
    chars name = 20 /\
    chars main = 25 /\
    shown_amount d amount /\
    chars balance = max 13 (chars amount).
Proof.
  intros (u & m & a & _ & _ & Ha & name & main & Hname & Hmain & ->)
    %render_row_table_row.
  destruct Hname as (rest & _ & Hname & _).
  destruct Hmain as (rest' & _ & Hmain & _).
  exists (left_aligned 20 name), (left_aligned 25 main),
    (right_aligned 13 a), a.
  split; [reflexivity|].
  rewrite !chars_left_aligned, chars_right_aligned, Hname, Hmain.
  repeat split; try assumption; lia.
Qed.

End SummaryFacts.

(** ** The summary on sample inputs *)

(** One debtor, no channel, the webhook answers 204: one request, the log
    line of the success, [True]. *)
Lemma webhook_verdict_witness :
  build_report [Sample.john] = inr (Some (Sample.built [Sample.john])) /\
  chan_truthy ChanNone = false /\
  url_truthy (Some Sample.webhook) = true /\
  send_corp_tax_summary Sample.with_bot (Some Sample.webhook) [Sample.john]
    ChanNone
  = ([HttpPost Sample.webhook
        (report_payload Sample.with_bot (Sample.built [Sample.john]));
      Log (LogSent 1 125%Z)],
     inr (Some true)).
Proof.
  split; [reflexivity|]. split; [reflexivity|]. split; [reflexivity|].
  assert (Hrep : build_report [Sample.john]
                 = inr (Some (Sample.built [Sample.john])))
    by reflexivity.
  destruct (webhook_verdict Sample.with_bot Sample.webhook [Sample.john]
              ChanNone (Sample.built [Sample.john]) Hrep eq_refl eq_refl)
    as [Hrun _].
  exact Hrun.
Defined.

(** The broker is down and a webhook is given: the bot message, the log
    line of the error and [False]; no request goes to the webhook.  When
    [send_message] raises an [ImportError], the request follows. *)
Lemma bot_failure_witness :
  build_report [Sample.john] = inr (Some (Sample.built [Sample.john])) /\
  chan_truthy (ChanInt 123) = true /\
  bot Sample.failing = Some (fun _ _ => Some BrokerError) /\
  send_corp_tax_summary Sample.failing (Some Sample.webhook) [Sample.john]
    (ChanInt 123)
  = ([BotMessage 123
        (report_embed Sample.failing (Sample.built [Sample.john]));
      Log (LogError BrokerError)],
     inr (Some false)) /\
  http_posts (events (send_corp_tax_summary Sample.half_installed
                        (Some Sample.webhook) [Sample.john] (ChanInt 123)))
  = [HttpPost Sample.webhook
       (report_payload Sample.half_installed (Sample.built [Sample.john]))].
Proof.
  split; [reflexivity|]. split; [reflexivity|]. split; [reflexivity|].
  assert (Hrep : build_report [Sample.john]
                 = inr (Some (Sample.built [Sample.john])))
    by reflexivity.
  split.
  - destruct (bot_failure_retried_on_import_error_only Sample.failing
                (Some Sample.webhook) [Sample.john] (ChanInt 123)
                (Sample.built [Sample.john]) (fun _ _ => Some BrokerError)
                Hrep eq_refl eq_refl) as [_ Hrun].
    exact (Hrun 123%Z eq_refl).
  - destruct (bot_failure_retried_on_import_error_only Sample.half_installed
                (Some Sample.webhook) [Sample.john] (ChanInt 123)
                (Sample.built [Sample.john]) (fun _ _ => Some ImportError)
                Hrep eq_refl eq_refl) as [_ Hrun].
    destruct (Hrun 123%Z eq_refl) as [_ Hposts]. exact Hposts.
Defined.

(** [paid_up] between [john] and [jane] changes nothing. *)
Lemma paid_up_record_witness :
  numeric_balance Sample.paid_up = true /\
  qualifying Sample.paid_up = false /\
  build_report ([Sample.john] ++ Sample.paid_up :: [Sample.jane])
  = build_report ([Sample.john] ++ [Sample.jane]).
Proof.
  split; [reflexivity|]. split; [reflexivity|].
  assert (Hnum : numeric_balance Sample.paid_up = true) by reflexivity.
  assert (Hq : qualifying Sample.paid_up = false) by reflexivity.
  destruct (paid_up_record_is_ignored [Sample.john] [Sample.jane]
              Sample.paid_up Hnum Hq) as [Hrep _].
  exact Hrep.
Defined.

(** The row of [zoe], whose name has three characters in four bytes: 20
    characters, a space, 25 characters, a space, 13 characters. *)
Lemma row_columns_witness :
  render_row Sample.zoe
  = inr ("Zoë                  Zoë Nováková               1,234,567.00M"
         +:+ newline) /\
  chars "Zoë" = 3 /\ String.length "Zoë" = 4 /\
  exists name main balance amount,
    "Zoë                  Zoë Nováková               1,234,567.00M"
    +:+ newline
    = name +:+ " " +:+ main +:+ " " +:+ balance +:+ "M" +:+ newline /\
    chars name = 20 /\
    chars main = 25 /\
    shown_amount Sample.zoe amount /\
    chars balance = max 13 (chars amount).
Proof.
  split; [reflexivity|]. split; [reflexivity|]. split; [reflexivity|].
  apply (row_columns Sample.zoe). reflexivity.
Defined.

(** * The other functions of the module *)

(** X6.  [send_discord_notification] never raises.  Without a webhook URL it
    returns [False] and does nothing; with one it makes exactly one
    request, which carries the title, the message, the colour and the
    user name it was given, and it returns [True] exactly when the
    request is answered with 200 or 204. *)
Theorem notification_verdict (s : Services) url title message color
    username :
  let run := send_discord_notification s url title message color username in
  Tr.raised run = None /\
  match url with
  | Some u =>
      if url_truthy url then
        let payload :=
          {| notification_username := username;
             notification_embeds :=
               [{| plain_title := title;
                   plain_description := message;
                   plain_color := color;
                   plain_footer := "MiningTaxes Notification System" |}] |}
        in
        notice_calls (Tr.events run) = [NotificationPost u payload] /\
        Tr.returned run
        = Some match post_notification s u payload with
               | Some status => status_ok status
               | None => false
               end
      else run = ([], inr false)
  | None => run = ([], inr false)
  end.
Proof.
  cbv zeta. unfold send_discord_notification.
  destruct url as [u|]; [|now split].
  destruct (url_truthy (Some u)); [|now split]. simpl negb. cbv iota.
  unfold post_notice. cbv zeta.
  destruct (post_notification s u _) as [status|]; [|now split].
  destruct (status_ok status); now split.
Qed.

(** X7.  [send_discord_dm] never raises and never posts to a webhook.  It
    returns [True] exactly when the id is truthy, the bot library is
    there, [int(user_discord_id)] succeeds and the call of [send_message]
    returns; the one message it may queue goes to
    [int(user_discord_id)].  Without the bot library there is no
    fallback: two warnings and [False]. *)
Theorem direct_message_verdict (s : Services) id title message color :
  let run := send_discord_dm s id title message color in
  let e :=
    {| plain_title := title;
       plain_description := message;
       plain_color := color;
       plain_footer := "MiningTaxes - Private Notification" |} in
  Tr.raised run = None /\
  Tr.returned run
  = Some (chan_truthy id &&
          match bot (runtime s), py_int (runtime s) id with
          | Some _, inr user_id =>
              match queue_dm s user_id e with
              | None => true
              | Some _ => false
              end
          | _, _ => false
          end) /\
  notice_calls (Tr.events run)
  = (if chan_truthy id then
       match bot (runtime s), py_int (runtime s) id with
       | Some _, inr user_id => [DirectMessage user_id e]
       | _, _ => []
       end
     else []) /\
  (chan_truthy id = true -> bot (runtime s) = None ->
   run = ([NoticeLog DmBotMissing; NoticeLog DmInstallHint], inr false)).
Proof.
  cbv zeta. unfold send_discord_dm, queue_direct_message.
  destruct (chan_truthy id) eqn:Hid; simpl negb; cbv iota;
    [|repeat split; discriminate].
  destruct (bot (runtime s)) as [send|]; [|now repeat split].
  destruct (py_int (runtime s) id) as [x|user_id] eqn:Hint.
  - apply py_int_not_import_error in Hint.
    unfold Tr.try_except, Tr.raise. rewrite Hint.
    repeat split; discriminate.
  - cbv zeta.
    destruct (queue_dm s user_id _) as [[]|]; repeat split; discriminate.
Qed.

(** X8.  For a user with a [username], [get_user_discord_id] never raises: it
    returns the linked Discord id when the Discord service is installed
    and the account is linked, and [None] in every other case. *)
Theorem discord_id_of_user (s : Services) pk name :
  let run := get_user_discord_id s (User pk name) in
  Tr.raised run = None /\
  Tr.returned run
  = Some match discord_users s with
         | Some get =>
             match get (User pk name) with
             | Linked uid => Some uid
             | NotLinked | Broken => None
             end
         | None => None
         end.
Proof.
  cbv zeta. unfold get_user_discord_id, find_discord_user.
  destruct (discord_users s) as [get|]; [|now split].
  destruct (get (User pk name)); now split.
Qed.

(** X9.  The handlers of [get_user_discord_id] read [user.username] for their
    log lines: for an object without this attribute, such as [None], a
    query that does not find an account ends in an [AttributeError] that
    reaches the caller, with no log line written. *)
Theorem discord_id_of_none_raises (s : Services) get :
  discord_users s = Some get ->
  (forall uid, get NoUser <> Linked uid) ->
  get_user_discord_id s NoUser = ([], inl AttributeError).
Proof.
  intros Hget Hnone. unfold get_user_discord_id, find_discord_user.
  rewrite Hget.
  destruct (get NoUser) as [uid| |]; [now destruct (Hnone uid)| |];
    reflexivity.
Qed.

Lemma discord_id_of_none_witness :
  discord_users NoticeSample.all_up
  = Some (fun u => match u with
                   | User 7 _ => Linked 424242
                   | _ => NotLinked
                   end) /\
  (forall uid,
     match NoUser with
     | User 7 _ => Linked 424242
     | _ => NotLinked
     end <> Linked uid) /\
  get_user_discord_id NoticeSample.all_up NoUser = ([], inl AttributeError).
Proof.
  split; [reflexivity|]. split; [intros uid; discriminate|].
  apply (discord_id_of_none_raises NoticeSample.all_up _ eq_refl).
  intros uid. discriminate.
Defined.

Example notification_without_url :
  send_discord_notification NoticeSample.all_up (Some "") "Taxes Due"
    "Please pay" default_color default_username
  = ([], inr false).
Proof. reflexivity. Qed.

Example direct_message_to_str_id :
  send_discord_dm NoticeSample.all_up (ChanStr "424242") "Taxes Due"
    "Please pay" default_color
  = ([DirectMessage 424242
        {| plain_title := "Taxes Due";
           plain_description := "Please pay";
           plain_color := default_color;
           plain_footer := "MiningTaxes - Private Notification" |};
      NoticeLog (DmQueued (ChanStr "424242"))],
     inr true).
Proof. reflexivity. Qed.

Example linked_user_is_found :
  get_user_discord_id NoticeSample.all_up (User 7 "john_doe")
  = ([], inr (Some 424242%Z)) /\
  get_user_discord_id NoticeSample.all_up (User 8 "jane_smith")
  = ([NoAccountLinked "jane_smith"], inr None) /\
  get_user_discord_id NoticeSample.all_down (User 7 "john_doe")
  = ([ServiceMissing], inr None).
Proof. repeat split. Qed.

(** * The installer *)

Lemma str_lower_is_y (s : string) :
  str_lower s = "y" <-> s = "y" \/ s = "Y".
Proof.
  split.
  - destruct s as [|c [|c' s']]; try discriminate.
    destruct c as [[] [] [] [] [] [] [] []]; vm_compute; intros Hc;
      try discriminate; auto.
  - intros [-> | ->]; reflexivity.
Qed.

Section InstallerFacts.

Context {path : Type} `{PathLib path} {S : Type} (host : Host path S).

Abbreviation Script' := (Script (path := path) (S := S)).

Lemma commands_app (l1 l2 : list (step path)) :
  commands (l1 ++ l2) = commands l1 ++ commands l2.
Proof.
  induction l1 as [|[t|c cwd cap chk|t|src dst|d] l1 IH]; simpl;
    rewrite ?IH; reflexivity.
Qed.

Lemma sbind_run {A B} (m : Script' A) (k : A -> Script' B) st :
  sbind m k st =
  match snd (fst (m st)) with
  | inl e => (fst (fst (m st)), inl e, snd (m st))
  | inr a =>
      (fst (fst (m st)) ++ fst (fst (k a (snd (m st)))),
       snd (fst (k a (snd (m st)))),
       snd (k a (snd (m st))))
  end.
Proof.
  unfold sbind. destruct (m st) as [[steps [e|a]] st']; simpl;
    [reflexivity|].
  now destruct (k a st') as [[steps' r] st''].
Qed.

Lemma follows_bind {A B} st p1 p2 (m : Script' A) (k : A -> Script' B) :
  follows_at st p1 m ->
  (forall a st', follows_at st' p2 (k a)) ->
  follows_at st (p1 ++ p2) (sbind m k).
Proof.
  intros [Hpre Hall] Hk. unfold follows_at. rewrite sbind_run.
  destruct (snd (fst (m st))) as [e|a] eqn:Hr; simpl.
  - split; [|discriminate]. now apply prefix_app_r.
  - destruct (Hk a (snd (m st))) as [Hpre' Hall'].
    rewrite commands_app, (Hall a eq_refl). split.
    + now apply prefix_app.
    + intros b Hb. now rewrite (Hall' b Hb).
Qed.

Lemma follows_quiet_bind {A B} st p (m : Script' A) (k : A -> Script' B) :
  quiet m ->
  (forall a, follows_at st p (k a)) ->
  follows_at st p (sbind m k).
Proof.
  intros Hq Hk. destruct (Hq st) as [Hst Hcmd].
  unfold follows_at. rewrite sbind_run.
  destruct (snd (fst (m st))) as [e|a] eqn:Hr; simpl.
  - rewrite Hcmd. split; [apply prefix_nil|discriminate].
  - rewrite commands_app, Hcmd, Hst. apply Hk.
Qed.

(** A quiet method that raises leaves any plan at its start. *)
Lemma follows_quiet_raises {A B} st p (m : Script' A) (k : A -> Script' B) :
  quiet m ->
  (forall a, snd (fst (m st)) <> inr a) ->
  follows_at st p (sbind m k).
Proof.
  intros Hq Hraise. destruct (Hq st) as [_ Hcmd].
  unfold follows_at. rewrite sbind_run.
  destruct (snd (fst (m st))) as [e|a] eqn:Hr; simpl.
  - rewrite Hcmd. split; [apply prefix_nil|discriminate].
  - now destruct (Hraise a).
Qed.

Lemma quiet_follows {A} st (m : Script' A) : quiet m -> follows_at st [] m.
Proof.
  intros Hq. destruct (Hq st) as [_ Hcmd]. unfold follows_at.
  rewrite Hcmd. split; [reflexivity|now intros].
Qed.

Lemma quiet_bind {A B} (m : Script' A) (k : A -> Script' B) :
  quiet m -> (forall a, quiet (k a)) -> quiet (sbind m k).
Proof.
  intros Hm Hk st. destruct (Hm st) as [Hst Hcmd]. rewrite sbind_run.
  destruct (snd (fst (m st))) as [e|a]; simpl; [now split|].
  destruct (Hk a (snd (m st))) as [Hst' Hcmd'].
  rewrite commands_app, Hcmd, Hcmd', Hst', Hst. now split.
Qed.

Lemma all_steps_bind {A B} P (m : Script' A) (k : A -> Script' B) :
  all_steps P m -> (forall a, all_steps P (k a)) -> all_steps P (sbind m k).
Proof.
  intros Hm Hk st. rewrite sbind_run.
  destruct (snd (fst (m st))) as [e|a]; simpl; [apply Hm|].
  apply Forall_app. split; [apply Hm | apply Hk].
Qed.


(** ** The steps of the methods *)

Lemma quiet_ret {A} (a : A) : quiet (sret a : Script' A).
Proof. now intros st. Qed.

Lemma quiet_exit {A} code : quiet (sys_exit code : Script' A).
Proof. now intros st. Qed.

Lemma quiet_print text : quiet (print text : Script' unit).
Proof. now intros st. Qed.

Lemma quiet_print_all lines : quiet (print_all lines : Script' unit).
Proof.
  induction lines as [|l lines IH]; [apply quiet_ret|].
  apply quiet_bind; [apply quiet_print | now intros].
Qed.

Lemma quiet_print_header text : quiet (print_header text : Script' unit).
Proof.
  unfold print_header.
  repeat (apply quiet_bind; [apply quiet_print | intros _]).
  apply quiet_print.
Qed.

Lemma quiet_exists_now p : quiet (exists_now host p).
Proof. now intros st. Qed.

Lemma sbind_exists_now {B} p (k : bool -> Script' B) st :
  sbind (exists_now host p) k st = k (path_exists host st p) st.
Proof. unfold sbind, exists_now. now destruct (k _ st) as [[steps r] st']. Qed.

Lemma quiet_check_prerequisites : quiet (check_prerequisites host).
Proof.
  unfold check_prerequisites.
  destruct (euid host =? 0)%Z.
  - apply quiet_bind; [apply quiet_print | intros _; apply quiet_exit].
  - destruct (negb _).
    + repeat (apply quiet_bind; [apply quiet_print | intros _]).
      apply quiet_exit.
    + apply quiet_bind; [apply quiet_print | intros _; apply quiet_ret].
Qed.

Lemma quiet_show_configuration_instructions :
  quiet (show_configuration_instructions : Script' unit).
Proof.
  apply quiet_bind; [apply quiet_print_header | intros _].
  apply quiet_print_all.
Qed.

Lemma quiet_show_restart_instructions :
  quiet (show_restart_instructions : Script' unit).
Proof.
  apply quiet_bind; [apply quiet_print_header | intros _].
  apply quiet_print_all.
Qed.

Lemma quiet_show_next_steps self :
  quiet (show_next_steps self : Script' unit).
Proof.
  apply quiet_bind; [apply quiet_print_header | intros _].
  apply quiet_print_all.
Qed.

(** A checked command: the one command of the plan, which has returned 0
    when the method goes on. *)
Lemma run_command_follows st cmd cwd capture :
  follows_at st [(cmd, cwd)] (run_command host cmd true cwd capture).
Proof.
  unfold follows_at, run_command.
  destruct (subprocess_run host st cmd cwd capture) as [[code err|msg|] st'];
    simpl; try (split; [reflexivity | now intros]).
  destruct (negb (code =? 0)%Z); simpl; split; (reflexivity || now intros).
Qed.

(** A method that prints, runs one checked command and prints. *)
Lemma command_between_prints st before cmd cwd capture after :
  follows_at st [(cmd, cwd)]
    (sbind (print before)
       (fun _ => sbind (run_command host cmd true cwd capture)
                   (fun _ => print after))).
Proof.
  apply follows_quiet_bind; [apply quiet_print | intros _].
  change [(cmd, cwd)] with ([(cmd, cwd)] ++ []).
  apply follows_bind; [apply run_command_follows|].
  intros a st'. apply quiet_follows, quiet_print.
Qed.

Lemma install_plugin_follows self st :
  follows_at st [("pip install -e " +:+ path_str (install_dir self), None)]
    (install_plugin host self).
Proof. apply command_between_prints. Qed.

Lemma install_dependencies_follows st :
  follows_at st [("pip install django-celery-results", None)]
    (install_dependencies host).
Proof. apply command_between_prints. Qed.

Lemma run_migrations_follows self st :
  follows_at st [("python manage.py migrate", Some (auth_path self))]
    (run_migrations host self).
Proof. apply command_between_prints. Qed.

Lemma collect_static_follows self st :
  follows_at st
    [("python manage.py collectstatic --noinput", Some (auth_path self))]
    (collect_static host self).
Proof. apply command_between_prints. Qed.

Lemma preload_prices_follows self st :
  follows_at st
    [("python manage.py miningtaxes_preload_prices", Some (auth_path self))]
    (preload_prices host self).
Proof. apply command_between_prints. Qed.

(** [clone_or_update_repo] pulls when the directory is there and clones
    when it is not. *)
Lemma clone_or_update_repo_follows self st :
  follows_at st
    [if path_exists host st (install_dir self)
     then ("git pull", Some (install_dir self))
     else ("git clone " +:+ REPO_URL +:+ " " +:+ path_str (install_dir self),
           None)]
    (clone_or_update_repo host self).
Proof.
  unfold follows_at, clone_or_update_repo. rewrite sbind_exists_now.
  destruct (path_exists host st (install_dir self));
    apply command_between_prints.
Qed.

Lemma backup_settings_follows self st :
  follows_at st [] (backup_settings host self).
Proof.
  unfold follows_at, backup_settings. rewrite sbind_exists_now.
  destruct (path_exists host st (settings_file self)).
  - destruct (copy2 host st _ _) as [[msg|] st']; simpl;
      split; (reflexivity || now intros).
  - apply (quiet_follows st).
    apply quiet_bind; [apply quiet_print | intros _; apply quiet_ret].
Qed.

Lemma input_follows prompt st : follows_at st [] (input host prompt).
Proof.
  unfold follows_at, input.
  destruct (read_input host st prompt) as [[text| |] st']; simpl;
    split; (reflexivity || now intros).
Qed.

(** ** The plans of [install] and [update] *)

Lemma install_follows self skip_config st :
  follows_at st (install_plan host self st) (install host self skip_config).
Proof.
  unfold install, install_plan.
  apply follows_quiet_bind; [apply quiet_print_header | intros _].
  apply follows_quiet_bind; [apply quiet_print | intros _].
  apply follows_quiet_bind; [apply quiet_check_prerequisites | intros _].
  apply (follows_bind st [_] _); [apply clone_or_update_repo_follows|].
  intros _ st1.
  apply (follows_bind st1 [_] _); [apply install_plugin_follows|].
  intros _ st2.
  apply (follows_bind st2 [_] _); [apply install_dependencies_follows|].
  intros _ st3.
  apply follows_quiet_bind; [apply quiet_print | intros _].
  apply (follows_bind st3 [] _); [apply backup_settings_follows|].
  intros _ st4.
  apply (follows_bind st4 [] _).
  { destruct (negb skip_config); [|apply quiet_follows, quiet_ret].
    apply follows_quiet_bind;
      [apply quiet_show_configuration_instructions | intros _].
    apply (follows_bind st4 [] []); [apply input_follows|].
    intros _ st5. apply quiet_follows, quiet_ret. }
  intros _ st5.
  apply (follows_bind st5 [_] _); [apply run_migrations_follows|].
  intros _ st6.
  apply (follows_bind st6 [_] _); [apply collect_static_follows|].
  intros _ st7.
  apply (follows_bind st7 [_] []); [apply preload_prices_follows|].
  intros _ st8. apply quiet_follows.
  apply quiet_bind; [apply quiet_show_restart_instructions | intros _].
  apply quiet_bind; [apply quiet_show_next_steps | intros _].
  apply quiet_print_header.
Qed.

(** X10.  [install] runs its six commands in order: the update or the clone of
    the repository, the two [pip install], the migrations, the static
    files and the prices.  A run that returns has run all six; a run that
    stops has run some first ones and nothing else. *)
Theorem install_keeps_to_its_plan self skip_config st :
  let run := install host self skip_config st in
  commands (fst (fst run)) `prefix_of` install_plan host self st /\
  (snd (fst run) = inr tt ->
   commands (fst (fst run)) = install_plan host self st).
Proof.
  cbv zeta. destruct (install_follows self skip_config st) as [Hpre Hall].
  split; [exact Hpre|]. apply Hall.
Qed.

Lemma update_follows self st :
  follows_at st
    [("git pull", Some (install_dir self));
     ("pip install -e " +:+ path_str (install_dir self), None);
     ("python manage.py migrate", Some (auth_path self));
     ("python manage.py collectstatic --noinput", Some (auth_path self))]
    (update host self).
Proof.
  unfold update.
  apply follows_quiet_bind; [apply quiet_print_header | intros _].
  apply follows_quiet_bind; [apply quiet_print | intros _].
  apply follows_quiet_bind; [apply quiet_check_prerequisites | intros _].
  unfold follows_at. rewrite sbind_exists_now.
  destruct (path_exists host st (install_dir self)) eqn:Hthere; simpl negb;
    cbv iota.
  - apply follows_quiet_bind; [apply quiet_ret | intros _].
    apply (follows_bind st [_] _).
    { pose proof (clone_or_update_repo_follows self st) as Hclone.
      now rewrite Hthere in Hclone. }
    intros _ st1.
    apply (follows_bind st1 [_] _); [apply install_plugin_follows|].
    intros _ st2.
    apply (follows_bind st2 [_] _); [apply run_migrations_follows|].
    intros _ st3.
    apply (follows_bind st3 [_] []); [apply collect_static_follows|].
    intros _ st4. apply quiet_follows.
    apply quiet_bind; [apply quiet_show_restart_instructions | intros _].
    apply quiet_print_header.
  - apply follows_quiet_raises; [|intros []; discriminate].
    repeat (apply quiet_bind; [apply quiet_print | intros _]).
    apply quiet_exit.
Qed.

(** X11.  [update] never clones: it pulls in the installed directory, installs
    the plugin again, migrates and collects the static files, in this
    order, and runs nothing else; it does not install the dependencies
    and does not preload prices.  A run that returns has run all four. *)
Theorem update_keeps_to_its_plan self st :
  let run := update host self st in
  let plan :=
    [("git pull", Some (install_dir self));
     ("pip install -e " +:+ path_str (install_dir self), None);
     ("python manage.py migrate", Some (auth_path self));
     ("python manage.py collectstatic --noinput", Some (auth_path self))] in
  commands (fst (fst run)) `prefix_of` plan /\
  (snd (fst run) = inr tt -> commands (fst (fst run)) = plan).
Proof.
  cbv zeta. destruct (update_follows self st) as [Hpre Hall].
  split; [exact Hpre|]. apply Hall.
Qed.

(** ** Refusals *)

(** When a method raises, what follows it does not run. *)
Lemma sbind_raises {A B} (m : Script' A) (k : A -> Script' B) st e :
  snd (fst (m st)) = inl e ->
  sbind m k st = (fst (fst (m st)), inl e, snd (m st)).
Proof. intros He. now rewrite sbind_run, He. Qed.

(** After a method that only prints, the run goes on from the same
    state. *)
Lemma sbind_quiet_run {B} (m : Script' unit) (k : unit -> Script' B) st :
  quiet m -> snd (fst (m st)) = inr tt ->
  sbind m k st =
  (fst (fst (m st)) ++ fst (fst (k tt st)), snd (fst (k tt st)),
   snd (k tt st)).
Proof.
  intros Hq Hr. destruct (Hq st) as [Hst _]. now rewrite sbind_run, Hr, Hst.
Qed.

Lemma all_prints_app (l1 l2 : list (step path)) :
  forallb is_print (l1 ++ l2) = forallb is_print l1 && forallb is_print l2.
Proof. apply forallb_app. Qed.

Lemma check_prerequisites_refuses st :
  (euid host = 0%Z \/ env_truthy (environ host "VIRTUAL_ENV") = false) ->
  snd (fst (check_prerequisites host st)) = inl (SystemExit 1) /\
  forallb is_print (fst (fst (check_prerequisites host st))) = true.
Proof.
  unfold check_prerequisites. intros [Hroot | Hvenv].
  - rewrite Hroot. now split.
  - destruct (euid host =? 0)%Z; [now split|]. rewrite Hvenv. now split.
Qed.

(** A method that starts with a header, one line and the check of the
    prerequisites. *)
Lemma refused_after_header {B} header line (k : bool -> Script' B) st :
  (euid host = 0%Z \/ env_truthy (environ host "VIRTUAL_ENV") = false) ->
  let run :=
    sbind (print_header header)
      (fun _ => sbind (print line)
                  (fun _ => sbind (check_prerequisites host) k)) st in
  snd (fst run) = inl (SystemExit 1) /\
  snd run = st /\
  forallb is_print (fst (fst run)) = true.
Proof.
  intros Hbad. cbv zeta.
  destruct (check_prerequisites_refuses st Hbad) as [Hexit Hprints].
  destruct (quiet_check_prerequisites st) as [Hst _].
  rewrite (sbind_quiet_run _ _ st (quiet_print_header header) eq_refl).
  rewrite (sbind_quiet_run _ _ st (quiet_print line) eq_refl).
  rewrite (sbind_raises _ _ st _ Hexit). simpl fst. simpl snd.
  split; [reflexivity|]. split; [exact Hst|].
  change (forallb is_print (fst (fst (check_prerequisites host st))) = true).
  exact Hprints.
Qed.

(** X12.  As root, or outside a virtual environment, [install] and [update]
    refuse to work: they print, exit with status 1, and have run no
    command, copied or removed nothing, and asked nothing; the host is in
    the state it was in. *)
Theorem refuses_without_prerequisites self skip_config st :
  (euid host = 0%Z \/ env_truthy (environ host "VIRTUAL_ENV") = false) ->
  (snd (fst (install host self skip_config st)) = inl (SystemExit 1) /\
   snd (install host self skip_config st) = st /\
   forallb is_print (fst (fst (install host self skip_config st))) = true) /\
  (snd (fst (update host self st)) = inl (SystemExit 1) /\
   snd (update host self st) = st /\
   forallb is_print (fst (fst (update host self st))) = true).
Proof.
  intros Hbad. split; apply (refused_after_header _ _ _ st Hbad).
Qed.

Lemma check_prerequisites_passes st :
  euid host <> 0%Z ->
  env_truthy (environ host "VIRTUAL_ENV") = true ->
  check_prerequisites host st
  = ([Print ("✓ Virtual environment: " +:+
             default "" (environ host "VIRTUAL_ENV"))],
     inr true, st).
Proof.
  intros Hroot Hvenv. unfold check_prerequisites.
  apply Z.eqb_neq in Hroot. rewrite Hroot, Hvenv. reflexivity.
Qed.

(** X13.  [update] of something that is not installed: with the prerequisites
    met but no installation directory, [update] prints where it looked
    and how to install, and exits with status 1 without having run a
    command or changed the host. *)
Theorem update_needs_an_installation self st :
  euid host <> 0%Z ->
  env_truthy (environ host "VIRTUAL_ENV") = true ->
  path_exists host st (install_dir self) = false ->
  snd (fst (update host self st)) = inl (SystemExit 1) /\
  snd (update host self st) = st /\
  forallb is_print (fst (fst (update host self st))) = true /\
  In (Print ("✗ Error: Installation not found at " +:+
             path_str (install_dir self)))
    (fst (fst (update host self st))).
Proof.
  intros Hroot Hvenv Hmissing. unfold update.
  rewrite (sbind_quiet_run _ _ st (quiet_print_header _) eq_refl).
  rewrite (sbind_quiet_run _ _ st (quiet_print _) eq_refl).
  rewrite (sbind_run (check_prerequisites host)).
  rewrite (check_prerequisites_passes st Hroot Hvenv).
  simpl fst. simpl snd. cbv iota.
  rewrite sbind_exists_now, Hmissing. simpl negb. cbv iota.
  match goal with
  | |- context [sbind ?m ?k st] =>
      rewrite (sbind_raises m k st (SystemExit 1) eq_refl)
  end.
  simpl. repeat split. do 5 right. now left.
Qed.

(** ** What the methods never do *)

Section Steps.

(** A property of steps that every print and every command has. *)
Variable P : step path -> Prop.
Hypothesis P_print : forall text, P (Print text).
Hypothesis P_command :
  forall cmd cwd capture check, P (Command cmd cwd capture check).

Lemma all_steps_ret {A} (a : A) : all_steps P (sret a : Script' A).
Proof. intros st. constructor. Qed.

Lemma all_steps_exit {A} code : all_steps P (sys_exit code : Script' A).
Proof. intros st. constructor. Qed.

Lemma all_steps_print text : all_steps P (print text : Script' unit).
Proof. intros st. repeat constructor. apply P_print. Qed.

Lemma all_steps_print_all lines :
  all_steps P (print_all lines : Script' unit).
Proof.
  induction lines as [|l lines IH]; [apply all_steps_ret|].
  apply all_steps_bind; [apply all_steps_print | now intros].
Qed.

Lemma all_steps_print_header text :
  all_steps P (print_header text : Script' unit).
Proof.
  unfold print_header.
  repeat (apply all_steps_bind; [apply all_steps_print | intros _]).
  apply all_steps_print.
Qed.

Lemma all_steps_exists_now p : all_steps P (exists_now host p).
Proof. intros st. constructor. Qed.

Lemma all_steps_check_prerequisites :
  all_steps P (check_prerequisites host).
Proof.
  unfold check_prerequisites.
  destruct (euid host =? 0)%Z.
  - apply all_steps_bind; [apply all_steps_print | intros _].
    apply all_steps_exit.
  - destruct (negb _).
    + repeat (apply all_steps_bind; [apply all_steps_print | intros _]).
      apply all_steps_exit.
    + apply all_steps_bind; [apply all_steps_print | intros _].
      apply all_steps_ret.
Qed.

Lemma all_steps_run_command cmd check cwd capture :
  all_steps P (run_command host cmd check cwd capture).
Proof.
  intros st. unfold run_command.
  destruct (subprocess_run host st cmd cwd capture) as [[code err|msg|] st'];
    simpl; try (repeat constructor; apply P_command).
  destruct (check && negb (code =? 0)%Z); simpl; repeat constructor;
    auto.
Qed.

Lemma all_steps_command_between_prints before cmd check cwd capture after :
  all_steps P
    (sbind (print before)
       (fun _ => sbind (run_command host cmd check cwd capture)
                   (fun _ => print after))).
Proof.
  apply all_steps_bind; [apply all_steps_print | intros _].
  apply all_steps_bind; [apply all_steps_run_command | intros _].
  apply all_steps_print.
Qed.

Lemma all_steps_clone_or_update_repo self :
  all_steps P (clone_or_update_repo host self).
Proof.
  apply all_steps_bind; [apply all_steps_exists_now | intros there].
  destruct there; apply all_steps_command_between_prints.
Qed.

Lemma all_steps_show_configuration_instructions :
  all_steps P (show_configuration_instructions : Script' unit).
Proof.
  apply all_steps_bind; [apply all_steps_print_header | intros _].
  apply all_steps_print_all.
Qed.

Lemma all_steps_show_restart_instructions :
  all_steps P (show_restart_instructions : Script' unit).
Proof.
  apply all_steps_bind; [apply all_steps_print_header | intros _].
  apply all_steps_print_all.
Qed.

Lemma all_steps_show_next_steps self :
  all_steps P (show_next_steps self : Script' unit).
Proof.
  apply all_steps_bind; [apply all_steps_print_header | intros _].
  apply all_steps_print_all.
Qed.

(** The only copy [backup_settings] makes is of the settings file, to a
    name made of its own name and a time stamp. *)
Lemma all_steps_backup_settings self :
  (forall stamp,
     P (CopyFile (settings_file self)
          (path_str (settings_file self) +:+ ".backup." +:+ stamp))) ->
  all_steps P (backup_settings host self).
Proof.
  intros Hcopy. apply all_steps_bind; [apply all_steps_exists_now|].
  intros [|].
  - intros st. cbv beta zeta.
    destruct (copy2 host st (settings_file self) _) as [[msg|] st'];
      repeat constructor; auto.
  - apply all_steps_bind; [apply all_steps_print | intros _].
    apply all_steps_ret.
Qed.

Lemma all_steps_input prompt :
  P (Prompt prompt) -> all_steps P (input host prompt).
Proof.
  intros Hprompt st. unfold input.
  destruct (read_input host st prompt) as [[text| |] st'];
    repeat constructor; exact Hprompt.
Qed.

Lemma all_steps_remove_tree p :
  P (RemoveTree p) -> all_steps P (remove_tree host p).
Proof.
  intros Hremove st. unfold remove_tree.
  destruct (rmtree host st p) as [[msg|] st']; repeat constructor;
    exact Hremove.
Qed.

(** The body of [update] after the check of the installation. *)
Lemma all_steps_update self : all_steps P (update host self).
Proof.
  unfold update.
  apply all_steps_bind; [apply all_steps_print_header | intros _].
  apply all_steps_bind; [apply all_steps_print | intros _].
  apply all_steps_bind; [apply all_steps_check_prerequisites | intros _].
  apply all_steps_bind; [apply all_steps_exists_now | intros there].
  apply all_steps_bind.
  { destruct (negb there); [|apply all_steps_ret].
    repeat (apply all_steps_bind; [apply all_steps_print | intros _]).
    apply all_steps_exit. }
  intros _.
  apply all_steps_bind; [apply all_steps_clone_or_update_repo | intros _].
  apply all_steps_bind; [apply all_steps_command_between_prints | intros _].
  apply all_steps_bind; [apply all_steps_command_between_prints | intros _].
  apply all_steps_bind; [apply all_steps_command_between_prints | intros _].
  apply all_steps_bind; [apply all_steps_show_restart_instructions|].
  intros _. apply all_steps_print_header.
Qed.

Lemma all_steps_install self skip_config :
  (forall stamp,
     P (CopyFile (settings_file self)
          (path_str (settings_file self) +:+ ".backup." +:+ stamp))) ->
  (skip_config = false -> forall prompt, P (Prompt prompt)) ->
  all_steps P (install host self skip_config).
Proof.
  intros Hcopy Hprompt. unfold install.
  apply all_steps_bind; [apply all_steps_print_header | intros _].
  apply all_steps_bind; [apply all_steps_print | intros _].
  apply all_steps_bind; [apply all_steps_check_prerequisites | intros _].
  apply all_steps_bind; [apply all_steps_clone_or_update_repo | intros _].
  apply all_steps_bind; [apply all_steps_command_between_prints | intros _].
  apply all_steps_bind; [apply all_steps_command_between_prints | intros _].
  apply all_steps_bind; [apply all_steps_print | intros _].
  apply all_steps_bind; [now apply all_steps_backup_settings | intros _].
  apply all_steps_bind.
  { destruct skip_config; simpl; [apply all_steps_ret|].
    apply all_steps_bind;
      [apply all_steps_show_configuration_instructions | intros _].
    apply all_steps_bind; [apply all_steps_input; now apply Hprompt|].
    intros _. apply all_steps_ret. }
  intros _.
  apply all_steps_bind; [apply all_steps_command_between_prints | intros _].
  apply all_steps_bind; [apply all_steps_command_between_prints | intros _].
  apply all_steps_bind; [apply all_steps_command_between_prints | intros _].
  apply all_steps_bind; [apply all_steps_show_restart_instructions|].
  intros _.
  apply all_steps_bind; [apply all_steps_show_next_steps | intros _].
  apply all_steps_print_header.
Qed.

End Steps.

(** X14.  [install] removes nothing.  The only file it writes is a copy of the
    settings file under the name of that file followed by [.backup.] and
    a time stamp; and it asks for input only when [skip_config] is not
    set. *)
Theorem install_touches_only_the_backup self skip_config st :
  Forall
    (fun s =>
       match s with
       | Print _ | Command _ _ _ _ => True
       | Prompt _ => skip_config = false
       | CopyFile src dst =>
           src = settings_file self /\
           exists stamp, dst = path_str src +:+ ".backup." +:+ stamp
       | RemoveTree _ => False
       end)
    (fst (fst (install host self skip_config st))).
Proof.
  apply all_steps_install; try (intros; exact I); eauto.
Qed.

(** X15.  [update] only prints and runs commands: it never asks for input,
    copies no file and removes nothing. *)
Theorem update_only_prints_and_runs self st :
  Forall
    (fun s =>
       match s with
       | Print _ | Command _ _ _ _ => True
       | Prompt _ | CopyFile _ _ | RemoveTree _ => False
       end)
    (fst (fst (update host self st))).
Proof. apply all_steps_update; intros; exact I. Qed.

(** ** [run_command] and [_detect_auth_path] *)

(** X16.  [run_command] never returns [None]: the last line of its handler is
    not reached.  Without [check] it returns the completed process
    whatever its return code, and prints nothing; with [check] a return
    code other than 0 ends the script with status 1 after the line of the
    error. *)
Theorem run_command_outcome cmd check cwd capture st :
  let run := run_command host cmd check cwd capture st in
  snd (fst run) <> inr None /\
  commands (fst (fst run)) = [(cmd, cwd)] /\
  forall code err st',
    subprocess_run host st cmd cwd capture = (Exited code err, st') ->
    if check && negb (code =? 0)%Z
    then run = ([Command cmd cwd capture check;
                 Print (if capture then "✗ Error: " +:+ err
                        else "✗ Command failed: " +:+ cmd)],
                inl (SystemExit 1), st')
    else run = ([Command cmd cwd capture check], inr (Some code), st').
Proof.
  cbv zeta. unfold run_command.
  destruct (subprocess_run host st cmd cwd capture) as [[code err|msg|] st1].
  - destruct (check && negb (code =? 0)%Z) eqn:Hfail.
    + apply andb_prop in Hfail as [-> Hcode]. simpl.
      repeat split; try discriminate.
      intros code' err' st' [= <- <- <-]. simpl. now rewrite Hcode.
    + repeat split; try discriminate.
      intros code' err' st' [= <- <- <-]. now rewrite Hfail.
  - repeat split; discriminate.
  - repeat split; discriminate.
Qed.

(** X17.  The path of Alliance Auth is the value of [AA_PATH] when it is set and
    not empty, and [~/myauth] otherwise: the test whether [~/myauth]
    exists changes nothing, and the detection leaves no trace. *)
Theorem auth_path_ignores_the_disk home_dir st :
  detect_auth_path host home_dir st =
  ([],
   inr match environ host "AA_PATH" with
       | Some p => if String.eqb p "" then path_join home_dir "myauth"
                   else path_of p
       | None => path_join home_dir "myauth"
       end,
   st).
Proof.
  unfold detect_auth_path.
  destruct (environ host "AA_PATH") as [p|]; simpl.
  - destruct (String.eqb p ""); simpl; [|reflexivity].
    rewrite sbind_exists_now. now destruct (path_exists host st _).
  - rewrite sbind_exists_now. now destruct (path_exists host st _).
Qed.

(** ** [uninstall] *)

Lemma sbind_step {A B} (m : Script' A) (k : A -> Script' B) st steps a st' :
  m st = (steps, inr a, st') ->
  sbind m k st =
  (steps ++ fst (fst (k a st')), snd (fst (k a st')), snd (k a st')).
Proof. intros Hm. rewrite sbind_run, Hm. reflexivity. Qed.

Lemma input_line prompt st text st' :
  read_input host st prompt = (Line text, st') ->
  input host prompt st = ([Prompt prompt], inr text, st').
Proof. intros Hread. unfold input. now rewrite Hread. Qed.

(** X18.  [uninstall] does nothing without a plain yes: for any answer other
    than [y] or [Y], also the empty one, it runs no command and removes
    nothing; it prints that the uninstall is cancelled and returns. *)
Theorem uninstall_needs_confirmation self st text st' :
  read_input host st
    ("Are you sure you want to uninstall? This will remove " +:+
     path_str (install_dir self) +:+ " [y/N]: ") = (Line text, st') ->
  text <> "y" -> text <> "Y" ->
  uninstall host self st =
  ([Print (Str.nl +:+ Str.repeat "=" 50);
    Print "MiningTaxes Uninstall";
    Print (Str.repeat "=" 50 +:+ Str.nl);
    Prompt ("Are you sure you want to uninstall? This will remove " +:+
            path_str (install_dir self) +:+ " [y/N]: ");
    Print "Uninstall cancelled."],
   inr tt, st').
Proof.
  intros Hread Hy HY. unfold uninstall.
  rewrite (sbind_quiet_run _ _ st (quiet_print_header _) eq_refl).
  rewrite (sbind_step _ _ st _ _ _ (input_line _ st text st' Hread)).
  assert (Hno : String.eqb (str_lower text) "y" = false).
  { apply String.eqb_neq. intros Hlow.
    apply str_lower_is_y in Hlow as [-> | ->]; contradiction. }
  rewrite Hno. reflexivity.
Qed.

(** X19.  After a yes, a failure of [pip uninstall] does not stop [uninstall]:
    whatever the return code, the installation directory, if it is still
    there, is removed next, and [pip uninstall] is the only command
    run. *)
Theorem uninstall_ignores_pip_failure self st text st1 code err st2 :
  read_input host st
    ("Are you sure you want to uninstall? This will remove " +:+
     path_str (install_dir self) +:+ " [y/N]: ") = (Line text, st1) ->
  text = "y" \/ text = "Y" ->
  subprocess_run host st1 "pip uninstall aa-miningtaxes -y" None true
  = (Exited code err, st2) ->
  let steps := fst (fst (uninstall host self st)) in
  commands steps = [("pip uninstall aa-miningtaxes -y", None)] /\
  List.filter is_remove steps
  = if path_exists host st2 (install_dir self)
    then [RemoveTree (install_dir self)] else [].
Proof.
  intros Hread Hyes Hpip. apply str_lower_is_y in Hyes.
  cbv beta iota zeta delta
    [uninstall sbind input run_command exists_now remove_tree print_header
     print_all print sret fst snd].
  rewrite Hread, Hyes, String.eqb_refl. change (negb true) with false.
  cbv beta iota. rewrite Hpip. cbv beta iota. simpl andb. cbv beta iota.
  destruct (path_exists host st2 (install_dir self)); cbv beta iota;
    [|now split].
  destruct (rmtree host st2 (install_dir self)) as [[msg|] st3];
    now split.
Qed.

(** ** The exit status *)




















End InstallerFacts.

(** ** The installer on sample machines *)

(** Root is refused by [install] and by [update]. *)
Lemma refuses_as_root_witness :
  (euid HostSample.as_root = 0%Z \/
   env_truthy (environ HostSample.as_root "VIRTUAL_ENV") = false) /\
  (snd (fst (install HostSample.as_root HostSample.self false
               HostSample.installed)) = inl (SystemExit 1) /\
   snd (install HostSample.as_root HostSample.self false
          HostSample.installed) = HostSample.installed /\
   forallb is_print
     (fst (fst (install HostSample.as_root HostSample.self false
                  HostSample.installed))) = true) /\
  (snd (fst (update HostSample.as_root HostSample.self
               HostSample.installed)) = inl (SystemExit 1) /\
   snd (update HostSample.as_root HostSample.self HostSample.installed)
   = HostSample.installed /\
   forallb is_print
     (fst (fst (update HostSample.as_root HostSample.self
                  HostSample.installed))) = true).
Proof.
  split; [left; reflexivity|].
  apply (refuses_without_prerequisites HostSample.as_root HostSample.self
           false HostSample.installed).
  left; reflexivity.
Defined.

(** [update] on a machine where nothing is installed. *)
Lemma update_on_fresh_machine_witness :
  euid HostSample.declining <> 0%Z /\
  env_truthy (environ HostSample.declining "VIRTUAL_ENV") = true /\
  path_exists HostSample.declining HostSample.fresh
    (install_dir HostSample.self) = false /\
  snd (fst (update HostSample.declining HostSample.self HostSample.fresh))
  = inl (SystemExit 1) /\
  snd (update HostSample.declining HostSample.self HostSample.fresh)
  = HostSample.fresh /\
  forallb is_print
    (fst (fst (update HostSample.declining HostSample.self
                 HostSample.fresh))) = true /\
  In (Print ("✗ Error: Installation not found at " +:+
             path_str (install_dir HostSample.self)))
    (fst (fst (update HostSample.declining HostSample.self
                 HostSample.fresh))).
Proof.
  split; [discriminate|]. split; [reflexivity|]. split; [reflexivity|].
  apply (update_needs_an_installation HostSample.declining HostSample.self
           HostSample.fresh).
  - discriminate.
  - reflexivity.
  - reflexivity.
Defined.

(** The answer [n] cancels the uninstall. *)
Lemma uninstall_declined_witness :
  read_input HostSample.declining HostSample.installed
    ("Are you sure you want to uninstall? This will remove " +:+
     path_str (install_dir HostSample.self) +:+ " [y/N]: ")
  = (Line "n", HostSample.installed) /\
  "n" <> "y" /\ "n" <> "Y" /\
  uninstall HostSample.declining HostSample.self HostSample.installed =
  ([Print (Str.nl +:+ Str.repeat "=" 50);
    Print "MiningTaxes Uninstall";
    Print (Str.repeat "=" 50 +:+ Str.nl);
    Prompt ("Are you sure you want to uninstall? This will remove " +:+
            path_str (install_dir HostSample.self) +:+ " [y/N]: ");
    Print "Uninstall cancelled."],
   inr tt, HostSample.installed).
Proof.
  split; [reflexivity|]. split; [discriminate|]. split; [discriminate|].
  apply (uninstall_needs_confirmation HostSample.declining HostSample.self
           HostSample.installed "n" HostSample.installed).
  - reflexivity.
  - discriminate.
  - discriminate.
Defined.

(** The answer [Y] and a [pip] that ends with code 1: the directory is
    removed all the same. *)
Lemma uninstall_after_pip_failure_witness :
  read_input HostSample.pip_fails HostSample.installed
    ("Are you sure you want to uninstall? This will remove " +:+
     path_str (install_dir HostSample.self) +:+ " [y/N]: ")
  = (Line "Y", HostSample.installed) /\
  ("Y" = "y" \/ "Y" = "Y") /\
  subprocess_run HostSample.pip_fails HostSample.installed
    "pip uninstall aa-miningtaxes -y" None true
  = (Exited 1 "failed", HostSample.installed) /\
  commands (fst (fst (uninstall HostSample.pip_fails HostSample.self
                        HostSample.installed)))
  = [("pip uninstall aa-miningtaxes -y", None)] /\
  List.filter is_remove
    (fst (fst (uninstall HostSample.pip_fails HostSample.self
                 HostSample.installed)))
  = [RemoveTree (install_dir HostSample.self)].
Proof.
  split; [reflexivity|]. split; [now right|]. split; [reflexivity|].
  apply (uninstall_ignores_pip_failure HostSample.pip_fails HostSample.self
           HostSample.installed "Y" HostSample.installed 1 "failed"
           HostSample.installed).
  - reflexivity.
  - now right.
  - reflexivity.
Defined.

(** A full [install] without the prompt on a machine where nothing is
    installed: the clone and the five other commands. *)
Lemma install_plan_witness :
  snd (fst (install HostSample.declining HostSample.self true
              HostSample.fresh)) = inr tt /\
  commands (fst (fst (install HostSample.declining HostSample.self true
                        HostSample.fresh)))
  = [("git clone https://github.com/Thrainkrilleve/miningtaxdiscordupdate.git"
      +:+ " /home/allianceauth/aa-miningtaxes-discord", None);
     ("pip install -e /home/allianceauth/aa-miningtaxes-discord", None);
     ("pip install django-celery-results", None);
     ("python manage.py migrate", Some "/home/allianceauth/myauth");
     ("python manage.py collectstatic --noinput",
      Some "/home/allianceauth/myauth");
     ("python manage.py miningtaxes_preload_prices",
      Some "/home/allianceauth/myauth")].
Proof.
  split; [reflexivity|].
  destruct (install_keeps_to_its_plan HostSample.declining HostSample.self
              true HostSample.fresh) as [_ Hall].
  exact (Hall eq_refl).
Defined.

(** A full [update] of an installation. *)
Lemma update_plan_witness :
  snd (fst (update HostSample.declining HostSample.self
              HostSample.installed)) = inr tt /\
  commands (fst (fst (update HostSample.declining HostSample.self
                        HostSample.installed)))
  = [("git pull", Some "/home/allianceauth/aa-miningtaxes-discord");
     ("pip install -e /home/allianceauth/aa-miningtaxes-discord", None);
     ("python manage.py migrate", Some "/home/allianceauth/myauth");
     ("python manage.py collectstatic --noinput",
      Some "/home/allianceauth/myauth")].
Proof.
  split; [reflexivity|].
  destruct (update_keeps_to_its_plan HostSample.declining HostSample.self
              HostSample.installed) as [_ Hall].
  exact (Hall eq_refl).
Defined.

(** An interrupt from the keyboard at the prompt of [uninstall] ends
    [main] with status 1, after the line that says so. *)
Example main_interrupted :
  let host :=
    {| home := "/home/allianceauth";
       environ := fun _ => None;
       euid := 1000;
       argv0 := "miningtaxdiscordupdate.py";
       path_exists := HostSample.on_disk;
       subprocess_run := fun st _ _ _ => (Exited 0 "", st);
       copy2 := fun st _ _ => (None, st);
       rmtree := fun st _ => (None, st);
       read_input := fun st _ => (InputInterrupted, st);
       timestamp := fun _ => "20240501_120000" |} in
  snd (fst (main host HostSample.self CmdUninstall false
              HostSample.installed))
  = inl (SystemExit 1) /\
  last (fst (fst (main host HostSample.self CmdUninstall false
                    HostSample.installed)))
  = Some (Print (Str.nl +:+ Str.nl +:+ "✗ Cancelled by user")).
Proof. split; reflexivity. Qed.
